(** * sz_pythonnet: the three scripts as programs over an engine interface

    The repository holds three Python scripts (add_data_sources.py,
    initialize_config.py, senzing_python_net_example.py) that drive a
    closed-source entity-resolution engine through a cross-runtime bridge.
    The engine is a collaborator, not repository code: here it is an
    interface ([Engine]) answering one call at a time, and every script is
    a program in a state-and-exception monad over that interface.  Each
    run leaves a chronological trace of the calls it issued, the list of
    exceptions that were raised, and what it printed. *)

From Stdlib Require Import ZArith List String Bool Lia.
From stdpp Require Import base gmap sets list strings pretty.

Set Warnings "-register-all".

Local Open Scope Z_scope.
Local Open Scope string_scope.

(** ** Python values that travel through the scripts *)

(** The exceptions the scripts can meet.  [SzException] stands for whatever
    an engine or bridge call raises. *)
Inductive exn : Type :=
  | FileNotFoundError (msg : string)
  | JSONDecodeError (msg : string)
  | KeyError (key : string)
  | TypeError (msg : string)
  | AttributeError (msg : string)
  | ImportError (msg : string)
  | SzException (msg : string).

(** [str(e)], as interpolated into the messages the scripts print. *)
Definition exn_msg (e : exn) : string :=
  match e with
  | FileNotFoundError m | JSONDecodeError m | TypeError m
  | AttributeError m | ImportError m | SzException m => m
  | KeyError k => "'" ++ k ++ "'"
  end.

(** What [json.loads] produces: dicts keep their keys in order and hold each
    key once; numbers are integers (the scripts never compute on floats). *)
Inductive json : Type :=
  | JNull
  | JBool (b : bool)
  | JNum (z : Z)
  | JStr (s : string)
  | JArr (items : list json)
  | JObj (fields : list (string * json)).

(** A string handed to or received from the engine as a JSON document, up to
    formatting: either the serialisation of a value or not valid JSON. *)
Inductive text : Type :=
  | Encoded (j : json)
  | Garbage (raw : string).

Definition json_dumps (j : json) : text := Encoded j.

Definition json_loads (t : text) : exn + json :=
  match t with
  | Encoded j => inr j
  | Garbage raw => inl (JSONDecodeError "Expecting value")
  end.

Fixpoint dict_get (k : string) (kv : list (string * json)) : option json :=
  match kv with
  | [] => None
  | (k', v) :: rest => if String.eqb k k' then Some v else dict_get k rest
  end.

(** [d[k]] with a string key. *)
Definition py_getitem (d : json) (k : string) : exn + json :=
  match d with
  | JObj kv =>
      match dict_get k kv with
      | Some v => inr v
      | None => inl (KeyError k)
      end
  | _ => inl (TypeError "indices must be integers or object is not subscriptable")
  end.

(** [d.get(k, default)]. *)
Definition py_get (d : json) (k : string) (default : json) : exn + json :=
  match d with
  | JObj kv =>
      match dict_get k kv with
      | Some v => inr v
      | None => inr default
      end
  | _ => inl (AttributeError "object has no attribute 'get'")
  end.

(** [for x in v]: lists give their items, dicts their keys, strings their
    characters; the other values are not iterable. *)
Definition py_iter (v : json) : exn + list json :=
  match v with
  | JArr items => inr items
  | JObj kv => inr (map (fun p => JStr (fst p)) kv)
  | JStr s => inr (map (fun a => JStr (String a EmptyString)) (list_ascii_of_string s))
  | _ => inl (TypeError "object is not iterable")
  end.

(** Python's [==] on decoded JSON: booleans compare as the integers 0 and 1,
    lists pointwise, dicts key by key regardless of order. *)
Fixpoint py_eq (a b : json) : bool :=
  match a, b with
  | JNull, JNull => true
  | JBool x, JBool y => Bool.eqb x y
  | JBool x, JNum y | JNum y, JBool x => (y =? (if x then 1 else 0))%Z
  | JNum x, JNum y => (x =? y)%Z
  | JStr x, JStr y => String.eqb x y
  | JArr xs, JArr ys =>
      (fix go (xs ys : list json) : bool :=
         match xs, ys with
         | [], [] => true
         | x :: xs', y :: ys' => py_eq x y && go xs' ys'
         | _, _ => false
         end) xs ys
  | JObj kx, JObj ky =>
      (length kx =? length ky)%nat
      && (fix go (kx : list (string * json)) : bool :=
            match kx with
            | [] => true
            | (k, x) :: kx' =>
                match dict_get k ky with
                | Some y => py_eq x y && go kx'
                | None => false
                end
            end) kx
  | _, _ => false
  end.

(** [config.json] after [json.load]: sections of string settings.  A
    required key may be absent; that is what the scripts have to survive. *)
Definition Config : Type := gmap string (gmap string string).

(** What [load_config] finds at [config.json]: no file ([Missing]), a
    text that is not JSON ([Malformed]), or a JSON document ([Parsed]).
    A file that exists but cannot be opened or decoded is not among the
    cases followed here. *)
Inductive ConfigFile : Type :=
  | Missing
  | Malformed
  | Parsed (cfg : Config).

(** [CONFIG[section][key]]: a [KeyError] names the first key not found. *)
Definition config_lookup (cfg : Config) (section key : string) : exn + string :=
  match cfg !! section with
  | None => inl (KeyError section)
  | Some sec =>
      match sec !! key with
      | None => inl (KeyError key)
      | Some v => inr v
      end
  end.

(** ** The call surface *)

Inductive SzFlag : Type :=
  | SzWithInfo
  | SzEntityIncludeEntityName
  | SzEntityIncludeRecordSummary
  | SzEntityIncludeRecordData
  | SzSearchIncludeResolved
  | SzIncludeFeatureScores
  | SzExportIncludeMultiRecordEntities
  | SzExportIncludeSingleRecordEntities.

(** Everything a script asks of the world outside it.  The first five are
    the bridge and the host (imports, runtime selection, assembly loading,
    reading the template file); the rest is the engine SDK. *)
Inductive Call : Type :=
  | Import (module : string)
  | GetNetfx (version : option string)
  | SetRuntime
  | ClrAddReference (assembly : string)
  | ReadTextFile (path : string)
  | Build (instance : string) (settings : text)
  | GetConfigManager
  | GetEngine
  | GetProduct
  | Destroy
  | GetDefaultConfigID
  | CreateConfig (config_id : Z)
  | GetDataSourceRegistry
  | RegisterDataSource (code : string)
  | Export
  | RegisterConfig (doc : text) (comment : string)
  | ReplaceDefaultConfigID (expected_old new : Z)
  | SetDefaultConfigID (config_id : Z)
  | GetVersion
  | GetLicense
  | AddRecord (data_source record_id : string) (record : text) (flags : list SzFlag)
  | DeleteRecord (data_source record_id : string) (flags : list SzFlag)
  | GetEntity (data_source record_id : string) (flags : list SzFlag)
  | GetEntityByID (entity_id : json) (flags : list SzFlag)
  | SearchByAttributes (attributes : text) (flags : list SzFlag)
  | GetRecord (data_source record_id : string) (flags : list SzFlag)
  | ReevaluateRecord (data_source record_id : string) (flags : list SzFlag)
  | WhyEntities (entity_id1 entity_id2 : json) (flags : list SzFlag)
  | HowEntity (entity_id : json) (flags : list SzFlag)
  | ExportJsonEntityReport (flags : list SzFlag)
  | FetchNext (export_handle : Z)
  | CloseExport (export_handle : Z)
  | CountRedoRecords
  | GetRedoRecord
  | ProcessRedoRecord (redo_record : string) (flags : list SzFlag).

(** The type of what each call returns when it does not raise.  Handles to
    the environment and its services are opaque, hence [unit]; [None] is
    the SDK's null. *)
Definition ret (c : Call) : Type :=
  match c with
  | GetDefaultConfigID | RegisterConfig _ _ | ExportJsonEntityReport _
  | CountRedoRecords => Z
  | ReadTextFile _ | GetDataSourceRegistry | Export | GetVersion | GetLicense
  | AddRecord _ _ _ _ | DeleteRecord _ _ _ | GetEntity _ _ _ | GetEntityByID _ _
  | SearchByAttributes _ _ | GetRecord _ _ _ | ReevaluateRecord _ _ _
  | WhyEntities _ _ _ | HowEntity _ _ | ProcessRedoRecord _ _ => text
  | FetchNext _ => option text
  | GetRedoRecord => option string
  | _ => unit
  end.

(** Bridge and host calls open no engine session. *)
Definition is_engine_call (c : Call) : bool :=
  match c with
  | Import _ | GetNetfx _ | SetRuntime | ClrAddReference _ | ReadTextFile _ => false
  | _ => true
  end.

Definition is_Destroy (c : Call) : bool :=
  match c with Destroy => true | _ => false end.

Definition is_Build (c : Call) : bool :=
  match c with Build _ _ => true | _ => false end.

Definition is_RegisterDataSource (c : Call) : bool :=
  match c with RegisterDataSource _ => true | _ => false end.

Definition is_CloseExport (c : Call) : bool :=
  match c with CloseExport _ => true | _ => false end.

Definition is_CloseExport_of (h : Z) (c : Call) : bool :=
  match c with CloseExport h' => (h' =? h)%Z | _ => false end.

Definition is_GetRedoRecord (c : Call) : bool :=
  match c with GetRedoRecord => true | _ => false end.

Definition is_ProcessRedoRecord (c : Call) : bool :=
  match c with ProcessRedoRecord _ _ => true | _ => false end.

(** An engine: some state and an answer, value or exception, to each call. *)
Class Engine : Type := {
  St : Type;
  respond : forall c : Call, St -> (exn + ret c) * St
}.

(** One issued call and whether it returned ([true]) or raised. *)
Record Event : Type := { ev_call : Call; ev_ok : bool }.

(** What the scripts print: a line is an f-string, literal pieces,
    interpolated values and the [len] of a document; [Dump] is
    [print(json.dumps(v, indent=2))]. *)
Inductive Piece : Type :=
  | S_ (s : string)
  | V_ (v : json)
  | Len_ (t : text).

Inductive Out : Type :=
  | Line (pieces : list Piece)
  | Dump (j : json).

(** How a run ends: normally, with an [Exception] propagating, or with the
    [SystemExit] of [sys.exit], which [except Exception] does not catch. *)
Inductive Outcome (A : Type) : Type :=
  | Done (a : A)
  | Raised (e : exn)
  | Exited (code : Z).
Arguments Done {A} a.
Arguments Raised {A} e.
Arguments Exited {A} code.

(** The interpreter's exit status: 0 after falling off the end of the
    script, 1 after an uncaught exception, the argument of [sys.exit]. *)
Definition exit_code {A : Type} (o : Outcome A) : Z :=
  match o with
  | Done _ => 0
  | Raised _ => 1
  | Exited code => code
  end.

(** [Path(root) / a / b / ...], rendered with one separator. *)
Definition path_join (root : string) (parts : list string) : string :=
  fold_left (fun p part => p ++ "/" ++ part) parts root.

(** The settings dict every script assembles from the install root. *)
Definition make_settings (config_path resource_path support_path database_path : string) : json :=
  JObj [ ("PIPELINE", JObj [ ("CONFIGPATH", JStr config_path);
                             ("RESOURCEPATH", JStr resource_path);
                             ("SUPPORTPATH", JStr support_path) ]);
         ("SQL", JObj [ ("CONNECTION", JStr ("sqlite3://na:na@" ++ database_path)) ]) ].

(** [{ds["DSRC_CODE"] for ds in items}]: the codes are collected left to
    right; an unhashable code raises.  Only strings are kept in the model
    of the set, since the scripts test it with string codes alone. *)
Fixpoint collect_codes (items : list json) (acc : gset string) : exn + gset string :=
  match items with
  | [] => inr acc
  | ds :: rest =>
      match py_getitem ds "DSRC_CODE" with
      | inl e => inl e
      | inr (JStr code) => collect_codes rest ({[ code ]} ∪ acc)
      | inr (JArr _) | inr (JObj _) => inl (TypeError "unhashable type")
      | inr _ => collect_codes rest acc
      end
  end.

(** add_data_sources.py line 89, on the decoded registry. *)
Definition existing_data_sources (data_source_registry : json) : exn + gset string :=
  match py_get data_source_registry "DATA_SOURCES" (JArr []) with
  | inl e => inl e
  | inr sources =>
      match py_iter sources with
      | inl e => inl e
      | inr items => collect_codes items ∅
      end
  end.

(** add_data_sources.py lines 94-97. *)
Definition missing_data_sources (existing_ds : gset string) (wanted : list string) : list string :=
  List.filter (fun ds_code => negb (bool_decide (ds_code ∈ existing_ds))) wanted.

Definition show_list (l : list string) : string :=
  "[" ++ String.concat ", " (map (fun s => "'" ++ s ++ "'") l) ++ "]".

Definition show_set (s : gset string) : string :=
  "{" ++ String.concat ", " (map (fun s => "'" ++ s ++ "'") (elements s)) ++ "}".

(** Python truthiness of [max_entities and count >= max_entities]. *)
Definition cap_reached (max_entities : option Z) (count : Z) : bool :=
  match max_entities with
  | None => false
  | Some m => negb (m =? 0)%Z && (m <=? count)%Z
  end.

(** ** The monad of a running script *)

Section Scripts.
Context `{Engine}.

Record World : Type := {
  engine : St;
  trace : list Event;
  raised : list exn;
  stdout : list Out
}.

Definition boot (st : St) : World :=
  {| engine := st; trace := []; raised := []; stdout := [] |}.

Definition M (A : Type) : Type := World -> Outcome A * World.

Definition pure {A : Type} (a : A) : M A := fun w => (Done a, w).

Definition bind {A B : Type} (m : M A) (f : A -> M B) : M B :=
  fun w =>
    match m w with
    | (Done a, w') => f a w'
    | (Raised e, w') => (Raised e, w')
    | (Exited code, w') => (Exited code, w')
    end.

#[export] Instance M_ret : MRet M := @pure.
#[export] Instance M_bind : MBind M := fun A B f m => bind m f.

(** [raise e]; every raised exception is also logged. *)
Definition raise {A : Type} (e : exn) : M A :=
  fun w => (Raised e,
            {| engine := engine w; trace := trace w;
               raised := raised w ++ [e]; stdout := stdout w |}).

(** A pure Python operation that may raise. *)
Definition lift {A : Type} (r : exn + A) : M A :=
  match r with
  | inl e => raise e
  | inr a => pure a
  end.

Definition sys_exit {A : Type} (code : Z) : M A := fun w => (Exited code, w).

Definition print (o : Out) : M unit :=
  fun w => (Done tt,
            {| engine := engine w; trace := trace w;
               raised := raised w; stdout := stdout w ++ [o] |}).

Definition say (s : string) : M unit := print (Line [S_ s]).

(** One call across the bridge: the engine answers, the trace grows. *)
Definition call (c : Call) : M (ret c) :=
  fun w =>
    match respond c (engine w) with
    | (inr v, st') =>
        (Done v, {| engine := st'; trace := trace w ++ [{| ev_call := c; ev_ok := true |}];
                    raised := raised w; stdout := stdout w |})
    | (inl e, st') =>
        (Raised e, {| engine := st'; trace := trace w ++ [{| ev_call := c; ev_ok := false |}];
                      raised := raised w ++ [e]; stdout := stdout w |})
    end.

(** [try: m  except Exception as e: handler e]. *)
Definition try_except {A : Type} (m : M A) (handler : exn -> M A) : M A :=
  fun w =>
    match m w with
    | (Raised e, w') => handler e w'
    | r => r
    end.

(** [try: m  finally: cleanup]; an abrupt end of [cleanup] replaces the
    way [m] ended. *)
Definition finally {A : Type} (m : M A) (cleanup : M unit) : M A :=
  fun w =>
    let (o, w') := m w in
    match cleanup w' with
    | (Done _, w'') => (o, w'')
    | (Raised e, w'') => (Raised e, w'')
    | (Exited code, w'') => (Exited code, w'')
    end.

(** [for x in xs: body x]. *)
Fixpoint for_each {A : Type} (xs : list A) (body : A -> M unit) : M unit :=
  match xs with
  | [] => pure tt
  | x :: rest => bind (body x) (fun _ => for_each rest body)
  end.

Definition run {A : Type} (m : M A) (st : St) : Outcome A * World := m (boot st).

(** ** Shared start of every script *)

(** [load_config]: the file must exist and parse.  Only the fact that an
    exception leaves [load_config] uncaught is used below, not its class. *)
Definition load_config (file : ConfigFile) : M Config :=
  match file with
  | Missing =>
      raise (FileNotFoundError "Configuration file not found: config.json")
  | Malformed => raise (JSONDecodeError "Expecting value")
  | Parsed cfg => mret cfg
  end.

(** [os.environ["PYTHONNET_PYDLL"] = CONFIG["python"]["dll_path"]]: only the
    lookup can fail; the variable itself is read by the bridge, outside. *)
Definition set_pydll (CONFIG : Config) : M unit :=
  _ ← lift (config_lookup CONFIG "python" "dll_path"); mret tt.

(** The five paths derived from [senzing_root]. *)
Record Paths : Type := {
  dotnet_sdk_path : string;
  database_path : string;
  config_path : string;
  resource_path : string;
  support_path : string
}.

Definition paths_of (senzing_root : string) : Paths :=
  {| dotnet_sdk_path :=
       path_join senzing_root ["er"; "sdk"; "dotnet"; "extracted"; "lib"; "netstandard2.0"];
     database_path := path_join senzing_root ["er"; "var"; "sqldb"; "G2C.db"];
     config_path := path_join senzing_root ["er"; "etc"];
     resource_path := path_join senzing_root ["er"; "resources"];
     support_path := path_join senzing_root ["data"] |}.

Definition settings_of (p : Paths) : json :=
  make_settings (config_path p) (resource_path p) (support_path p) (database_path p).

Definition banner : string := String.concat "" (repeat "=" 80).

(** ** add_data_sources.py *)

(** Lines 27-33: runtime selection, any failure swallowed by [pass]. *)
Definition add_data_sources_set_runtime : M unit :=
  try_except
    (call (Import "pythonnet") ;;
     call (Import "clr_loader") ;;
     rt ← call (GetNetfx None) ;
     call SetRuntime)
    (fun _ => mret tt).

Definition wanted_data_sources : list string := ["CUSTOMERS"; "EMPLOYEES"].

(** Lines 107-112: one registration per code, each in its own [try]. *)
Definition register_each (data_sources_to_add : list string) : M unit :=
  for_each data_sources_to_add (fun ds_code =>
    try_except
      (call (RegisterDataSource ds_code) ;;
       say ("✓ Registered data source: " ++ ds_code))
      (fun e => say ("✗ Failed to add " ++ ds_code ++ ": " ++ exn_msg e))).

(** Lines 60-137, the body of the outer [try].  [sys.path.append] cannot
    fail and leaves no mark here. *)
Definition add_data_sources_try (settings : json) : M unit :=
  call (ClrAddReference "Senzing.Sdk") ;;
  call (Import "Senzing.Sdk.Core") ;;
  let settings_json := json_dumps settings in
  env ← call (Build "AddDataSources" settings_json) ;
  say "✓ Environment initialized" ;;
  config_mgr ← call GetConfigManager ;
  say "✓ Got ConfigManager service" ;;
  current_config_id ← call GetDefaultConfigID ;
  say ("Current config ID: " ++ pretty current_config_id) ;;
  config ← call (CreateConfig current_config_id) ;
  say "✓ Created config object from current configuration" ;;
  data_source_registry_json ← call GetDataSourceRegistry ;
  data_source_registry ← lift (json_loads data_source_registry_json) ;
  existing_ds ← lift (existing_data_sources data_source_registry) ;
  say ("Existing data sources: " ++ show_set existing_ds) ;;
  let data_sources_to_add := missing_data_sources existing_ds wanted_data_sources in
  (match data_sources_to_add with
   | [] =>
       say "✓ CUSTOMERS and EMPLOYEES data sources already exist" ;;
       call Destroy ;;
       sys_exit 0
   | _ :: _ => mret tt
   end) ;;
  say ("Adding data sources: " ++ show_list data_sources_to_add) ;;
  register_each data_sources_to_add ;;
  new_config_json ← call Export ;
  say "✓ Exported modified configuration" ;;
  new_config_id ← call (RegisterConfig new_config_json
                          ("Added data sources: " ++ String.concat ", " data_sources_to_add)) ;
  say ("✓ Registered new configuration with ID: " ++ pretty new_config_id) ;;
  call (ReplaceDefaultConfigID current_config_id new_config_id) ;;
  say ("✓ Replaced default config (old: " ++ pretty current_config_id
         ++ ", new: " ++ pretty new_config_id ++ ")") ;;
  verify_id ← call GetDefaultConfigID ;
  say ("✓ Verified default config ID: " ++ pretty verify_id) ;;
  call Destroy ;;
  say banner ;;
  say "SUCCESS! Data sources added successfully." ;;
  say banner.

(** Lines 139-143: the outer handler. *)
Definition top_level_handler {A : Type} (e : exn) : M A :=
  say ("✗ Error: " ++ exn_msg e) ;;
  sys_exit 1.

(** Lines 37-143: what follows [import clr]. *)
Definition add_data_sources_after_import (CONFIG : Config) : M unit :=
  senzing_root ← lift (config_lookup CONFIG "senzing" "senzing_root") ;
  let p := paths_of senzing_root in
  let settings := settings_of p in
  say "Adding data sources to Senzing configuration..." ;;
  say banner ;;
  try_except (add_data_sources_try settings) top_level_handler.

(** The whole script, from [CONFIG = load_config()] on. *)
Definition add_data_sources (file : ConfigFile) : M unit :=
  CONFIG ← load_config file ;
  set_pydll CONFIG ;;
  add_data_sources_set_runtime ;;
  call (Import "clr") ;;
  add_data_sources_after_import CONFIG.

(** ** initialize_config.py *)

(** Lines 29-38: runtime selection; here the handler prints a note. *)
Definition initialize_config_set_runtime : M unit :=
  try_except
    (call (Import "pythonnet") ;;
     call (Import "clr_loader") ;;
     rt ← call (GetNetfx (Some "v4.0.30319")) ;
     call SetRuntime ;;
     say "✓ Using .NET Framework x64 runtime")
    (fun e => say ("Note: Using default runtime: " ++ exn_msg e)).

(** Lines 66-171, the body of the outer [try]. *)
Definition initialize_config_try (config_file_path : string) (settings : json) : M unit :=
  call (ClrAddReference "Senzing.Sdk") ;;
  call (Import "Senzing.Sdk.Core") ;;
  let settings_json := json_dumps settings in
  say "Settings:" ;;
  print (Dump settings) ;;
  env ← call (Build "ConfigInit" settings_json) ;
  say "✓ Senzing environment initialized" ;;
  config_mgr ← call GetConfigManager ;
  say "✓ Got ConfigManager service" ;;
  try_except
    (existing_config_id ← call GetDefaultConfigID ;
     say ("Found existing configuration with ID: " ++ pretty existing_config_id) ;;
     if (0 <? existing_config_id)%Z then
       say "✓ Valid configuration already exists. No action needed." ;;
       call Destroy ;;
       sys_exit 0
     else
       say "✓ Config ID 0 is invalid - will create new configuration")
    (fun _ => say "✓ No existing configuration found - will create new one") ;;
  say "Loading configuration template..." ;;
  config_json ← try_except
    (config_json ← call (ReadTextFile config_file_path) ;
     say ("✓ Loaded configuration template from " ++ config_file_path) ;;
     print (Line [S_ "  Size: "; Len_ config_json; S_ " bytes"]) ;;
     mret config_json)
    (fun e =>
       say ("✗ Failed to read configuration file: " ++ exn_msg e) ;;
       call Destroy ;;
       sys_exit 1) ;
  say "Registering configuration..." ;;
  config_id ← try_except
    (config_id ← call (RegisterConfig config_json "Initial configuration - Python.NET setup") ;
     say ("✓ Registered configuration with ID: " ++ pretty config_id) ;;
     mret config_id)
    (fun e =>
       say ("✗ Failed to register configuration: " ++ exn_msg e) ;;
       call Destroy ;;
       sys_exit 1) ;
  say "Setting as default configuration..." ;;
  try_except
    (call (SetDefaultConfigID config_id) ;;
     say ("✓ Set configuration " ++ pretty config_id ++ " as default"))
    (fun e =>
       say ("✗ Failed to set default configuration: " ++ exn_msg e) ;;
       call Destroy ;;
       sys_exit 1) ;;
  say "Verifying configuration..." ;;
  try_except
    (default_id ← call GetDefaultConfigID ;
     say ("✓ Verified default configuration ID: " ++ pretty default_id) ;;
     if (default_id =? config_id)%Z then
       say "✓ Configuration successfully initialized!"
     else
       say ("⚠ Warning: Default ID (" ++ pretty default_id
              ++ ") doesn't match created ID (" ++ pretty config_id ++ ")"))
    (fun e => say ("✗ Failed to verify configuration: " ++ exn_msg e)) ;;
  call Destroy ;;
  say "✓ Environment destroyed" ;;
  say banner ;;
  say "SUCCESS! Database is now configured and ready to use." ;;
  say "You can now run example_pythonnet_usage.py" ;;
  say banner.

(** Lines 42-177: what follows [import clr]. *)
Definition initialize_config_after_import (CONFIG : Config) : M unit :=
  senzing_root ← lift (config_lookup CONFIG "senzing" "senzing_root") ;
  let p := paths_of senzing_root in
  let config_file_path := path_join senzing_root ["er"; "etc"; "g2config.json"] in
  let settings := settings_of p in
  say "Initializing Senzing database configuration..." ;;
  say banner ;;
  try_except (initialize_config_try config_file_path settings) top_level_handler.

Definition initialize_config (file : ConfigFile) : M unit :=
  CONFIG ← load_config file ;
  set_pydll CONFIG ;;
  initialize_config_set_runtime ;;
  call (Import "clr") ;;
  initialize_config_after_import CONFIG.

(** ** senzing_python_net_example.py *)

(** Lines 58-65: runtime selection, any failure swallowed by [pass]. *)
Definition example_set_runtime : M unit :=
  try_except
    (call (Import "pythonnet") ;;
     call (Import "clr_loader") ;;
     runtime ← call (GetNetfx None) ;
     call SetRuntime)
    (fun _ => mret tt).

(** The client object: its services are opaque handles, so only the
    environment handle that [cleanup] tests is kept. *)
Record SenzingClient : Type := { client_env : option unit }.

(** [SenzingClient.__init__]. *)
Definition SenzingClient_init (sdk_path : string) (settings : json) : M SenzingClient :=
  call (ClrAddReference "Senzing.Sdk") ;;
  call (Import "Senzing.Sdk.Core") ;;
  call (Import "Senzing.Sdk") ;;
  let settings_json := json_dumps settings in
  env ← call (Build "PythonNetClient" settings_json) ;
  engine_service ← call GetEngine ;
  config_mgr ← call GetConfigManager ;
  product ← call GetProduct ;
  say "✓ Senzing client initialized successfully" ;;
  mret {| client_env := Some env |}.

(** [SenzingClient.cleanup]. *)
Definition cleanup (self : SenzingClient) : M unit :=
  match client_env self with
  | Some _ => call Destroy
  | None => mret tt
  end.

(** [with SenzingClient(...) as client: body]: [__enter__] returns the
    client, [__exit__] runs [cleanup] however the body ends and lets the
    body's exception through. *)
Definition with_SenzingClient {A : Type} (sdk_path : string) (settings : json)
    (body : SenzingClient -> M A) : M A :=
  client ← SenzingClient_init sdk_path settings ;
  finally (body client) (cleanup client).

Definition entity_flags : list SzFlag :=
  [SzEntityIncludeEntityName; SzEntityIncludeRecordSummary; SzEntityIncludeRecordData].

Definition get_version : M json :=
  version_json ← call GetVersion ; lift (json_loads version_json).

Definition get_license : M json :=
  license_json ← call GetLicense ; lift (json_loads license_json).

Definition add_record (data_source record_id : string) (record_data : json) : M json :=
  let record_json := json_dumps record_data in
  info_json ← call (AddRecord data_source record_id record_json [SzWithInfo]) ;
  lift (json_loads info_json).

Definition delete_record (data_source record_id : string) : M json :=
  info_json ← call (DeleteRecord data_source record_id [SzWithInfo]) ;
  lift (json_loads info_json).

Definition get_entity_by_record (data_source record_id : string) : M json :=
  entity_json ← call (GetEntity data_source record_id entity_flags) ;
  lift (json_loads entity_json).

Definition get_entity_by_id (entity_id : json) : M json :=
  entity_json ← call (GetEntityByID entity_id entity_flags) ;
  lift (json_loads entity_json).

Definition search_by_attributes (attributes : json) : M json :=
  let search_json := json_dumps attributes in
  results_json ← call (SearchByAttributes search_json
                         [SzSearchIncludeResolved; SzIncludeFeatureScores]) ;
  lift (json_loads results_json).

Definition get_record (data_source record_id : string) : M json :=
  record_json ← call (GetRecord data_source record_id [SzEntityIncludeRecordData]) ;
  lift (json_loads record_json).

Definition reevaluate_record (data_source record_id : string) : M json :=
  info_json ← call (ReevaluateRecord data_source record_id [SzWithInfo]) ;
  lift (json_loads info_json).

Definition why_entities (entity_id1 entity_id2 : json) : M json :=
  why_json ← call (WhyEntities entity_id1 entity_id2 [SzIncludeFeatureScores]) ;
  lift (json_loads why_json).

Definition how_entity (entity_id : json) : M json :=
  how_json ← call (HowEntity entity_id [SzIncludeFeatureScores]) ;
  lift (json_loads how_json).

Definition count_redo_records : M Z := call CountRedoRecords.

(** *** The two generators

    A generator is a frame that runs from one [next] to the following
    [yield].  [next] answers [Some item] at a [yield] and [None] when the
    body has ended ([StopIteration]); an exception leaving the body ends
    the generator as well. *)

(** A stretch of a generator's [try ... finally] block, up to the next
    [yield] ([Some]) or to the end of the block ([None]).  At a [yield]
    the frame is suspended inside the [try], so [cleanup] does not run;
    it runs on every other way out. *)
Definition finally_or_yield {A : Type} (stretch : M (option A)) (cleanup : M unit)
    : M (option A) :=
  fun w =>
    match stretch w with
    | (Done (Some a), w') => (Done (Some a), w')
    | (o, w') =>
        match cleanup w' with
        | (Done _, w'') => (o, w'')
        | (Raised e, w'') => (Raised e, w'')
        | (Exited code, w'') => (Exited code, w'')
        end
    end.

Definition export_flags : list SzFlag :=
  [SzExportIncludeMultiRecordEntities; SzExportIncludeSingleRecordEntities].

Inductive ExportFrame : Type :=
  | ExportCreated
  | ExportSuspended (export_handle count : Z)
  | ExportFinished.

(** Lines 341-345: the loop test, the cap test and the [yield]. *)
Definition export_loop (max_entities : option Z) (count : Z) (json_data : option text)
    : M (option json) :=
  match json_data with
  | None => mret None
  | Some data =>
      if cap_reached max_entities count then mret None
      else entity ← lift (json_loads data) ; mret (Some entity)
  end.

Definition export_frame_after (export_handle count : Z) (item : option json) : ExportFrame :=
  match item with
  | Some _ => ExportSuspended export_handle count
  | None => ExportFinished
  end.

(** Lines 337-350 between two suspensions: fetch the next record and go
    round the loop, inside the [try] whose [finally] closes the cursor.
    Both the first entry (line 339) and a resumption (line 347) come
    here. *)
Definition export_stretch (max_entities : option Z) (export_handle count : Z)
    : M (option json) :=
  finally_or_yield
    (json_data ← call (FetchNext export_handle) ;
     export_loop max_entities count json_data)
    (call (CloseExport export_handle)).

(** [next(export_json_entities(max_entities))]. *)
Definition export_next (max_entities : option Z) (frame : ExportFrame)
    : M (option json * ExportFrame) :=
  match frame with
  | ExportCreated =>
      export_handle ← call (ExportJsonEntityReport export_flags) ;
      let count := 0 in
      item ← export_stretch max_entities export_handle count ;
      mret (item, export_frame_after export_handle count item)
  | ExportSuspended export_handle count =>
      let count := count + 1 in
      item ← export_stretch max_entities export_handle count ;
      mret (item, export_frame_after export_handle count item)
  | ExportFinished => mret (None, ExportFinished)
  end.

(** [gen.close()], also what finalising a dropped generator does: a
    suspended frame gets [GeneratorExit] at its [yield], which runs the
    [finally] block. *)
Definition export_close (frame : ExportFrame) : M ExportFrame :=
  match frame with
  | ExportSuspended export_handle _ =>
      call (CloseExport export_handle) ;; mret ExportFinished
  | _ => mret ExportFinished
  end.

Inductive RedoFrame : Type :=
  | RedoCreated
  | RedoSuspended (processed : Z)
  | RedoFinished.

(** Lines 369-374: the loop test, the processing call and the [yield]. *)
Definition redo_loop (max_records processed : Z) (redo_record : option string)
    : M (option json * RedoFrame) :=
  match redo_record with
  | Some record =>
      if (processed <? max_records)%Z then
        info_json ← call (ProcessRedoRecord record [SzWithInfo]) ;
        info ← lift (json_loads info_json) ;
        mret (Some info, RedoSuspended processed)
      else mret (None, RedoFinished)
  | None => mret (None, RedoFinished)
  end.

(** Lines 366-376 between two suspensions: fetch a redo record and go
    round the loop.  Both the first entry (line 367) and a resumption
    (line 376) come here. *)
Definition redo_stretch (max_records processed : Z) : M (option json * RedoFrame) :=
  redo_record ← call GetRedoRecord ;
  redo_loop max_records processed redo_record.

(** [next(process_redo_records(max_records))]. *)
Definition redo_next (max_records : Z) (frame : RedoFrame) : M (option json * RedoFrame) :=
  match frame with
  | RedoCreated =>
      let processed := 0 in
      redo_stretch max_records processed
  | RedoSuspended processed =>
      let processed := processed + 1 in
      redo_stretch max_records processed
  | RedoFinished => mret (None, RedoFinished)
  end.

Definition redo_close (frame : RedoFrame) : M RedoFrame := mret RedoFinished.

(** [list(gen)]: [next] until the generator ends.  [None] when [fuel]
    rounds were not enough. *)
Fixpoint drain {F : Type} (fuel : nat) (next : F -> M (option json * F)) (frame : F)
    : M (option (list json)) :=
  match fuel with
  | O => mret None
  | S fuel' =>
      r ← next frame ;
      match fst r with
      | None => mret (Some [])
      | Some item =>
          rest ← drain fuel' next (snd r) ;
          mret (cons item <$> rest)
      end
  end.

(** A consumer that takes at most [k] items and then drops the generator:
    a [for] loop left by [break], or by an exception of its own body,
    after [k] rounds; dropping the generator finalises it with [close]. *)
Fixpoint take_then_close {F : Type} (k : nat) (next : F -> M (option json * F))
    (close : F -> M F) (frame : F) : M (list json) :=
  match k with
  | O => close frame ;; mret []
  | S k' =>
      r ← next frame ;
      match fst r with
      | None => close (snd r) ;; mret []
      | Some item =>
          rest ← take_then_close k' next close (snd r) ;
          mret (item :: rest)
      end
  end.

(** *** [main] *)

Definition record1 : json :=
  JObj [ ("NAME_FIRST", JStr "John"); ("NAME_LAST", JStr "Doe");
         ("PHONE_NUMBER", JStr "702-555-1212");
         ("EMAIL_ADDRESS", JStr "johndoe@example.com");
         ("ADDR_FULL", JStr "123 Main St, Las Vegas, NV 89101") ].

Definition record2 : json :=
  JObj [ ("NAME_FIRST", JStr "Jane"); ("NAME_LAST", JStr "Smith");
         ("PHONE_NUMBER", JStr "702-555-1313");
         ("EMAIL_ADDRESS", JStr "janesmith@example.com") ].

Definition record3 : json :=
  JObj [ ("NAME_FIRST", JStr "Robert"); ("NAME_LAST", JStr "Johnson");
         ("PHONE_NUMBER", JStr "702-555-1414");
         ("EMAIL_ADDRESS", JStr "robertj@example.com") ].

Definition record4 : json :=
  JObj [ ("NAME_FIRST", JStr "John"); ("NAME_LAST", JStr "Doe");
         ("PHONE_NUMBER", JStr "702-555-1212");
         ("DATE_OF_BIRTH", JStr "1980-05-15") ].

Definition search_criteria : json :=
  JObj [ ("NAME_FIRST", JStr "John"); ("NAME_LAST", JStr "Doe") ].

(** Lines 505-524: the why/how analysis with its own handler. *)
Definition why_how_analysis : M unit :=
  try_except
    (entity1 ← get_entity_by_record "CUSTOMERS" "CUST001" ;
     resolved1 ← lift (py_getitem entity1 "RESOLVED_ENTITY") ;
     entity1_id ← lift (py_getitem resolved1 "ENTITY_ID") ;
     entity2 ← get_entity_by_record "EMPLOYEES" "EMP001" ;
     resolved2 ← lift (py_getitem entity2 "RESOLVED_ENTITY") ;
     entity2_id ← lift (py_getitem resolved2 "ENTITY_ID") ;
     if negb (py_eq entity1_id entity2_id) then
       why_results ← why_entities entity1_id entity2_id ;
       print (Line [S_ "✓ Why entities "; V_ entity1_id; S_ " vs "; V_ entity2_id; S_ ":"]) ;;
       print (Dump why_results)
     else
       print (Line [S_ "✓ Entities resolved together as entity "; V_ entity1_id]) ;;
       how_results ← how_entity entity1_id ;
       print (Line [S_ "✓ How entity "; V_ entity1_id; S_ " was constructed:"]) ;;
       print (Dump how_results))
    (fun e => say ("  (Why/How analysis: " ++ exn_msg e ++ ")")).

(** Lines 413-537, the body of the [with] block. *)
Definition main_with_body (client : SenzingClient) : M unit :=
  version ← get_version ;
  v ← lift (py_get version "VERSION" (JStr "Unknown")) ;
  print (Line [S_ "Senzing Version: "; V_ v]) ;;
  b ← lift (py_get version "BUILD_VERSION" (JStr "Unknown")) ;
  print (Line [S_ "Build: "; V_ b]) ;;
  say "" ;;
  say "Adding sample records..." ;;
  result1 ← add_record "CUSTOMERS" "CUST001" record1 ;
  say "✓ Added CUSTOMERS:CUST001" ;;
  say "  Response JSON:" ;;
  print (Dump result1) ;;
  say "" ;;
  result2 ← add_record "CUSTOMERS" "CUST002" record2 ;
  say "✓ Added CUSTOMERS:CUST002" ;;
  say "  Response JSON:" ;;
  print (Dump result2) ;;
  say "" ;;
  result3 ← add_record "CUSTOMERS" "CUST003" record3 ;
  say "✓ Added CUSTOMERS:CUST003" ;;
  say "  Response JSON:" ;;
  print (Dump result3) ;;
  say "" ;;
  result4 ← add_record "EMPLOYEES" "EMP001" record4 ;
  say "✓ Added EMPLOYEES:EMP001" ;;
  say "  Response JSON:" ;;
  print (Dump result4) ;;
  say "" ;;
  say "Retrieving entity..." ;;
  entity ← get_entity_by_record "CUSTOMERS" "CUST001" ;
  say "✓ Entity retrieved:" ;;
  print (Dump entity) ;;
  say "" ;;
  say "Searching for entities..." ;;
  search_results ← search_by_attributes search_criteria ;
  say "✓ Search results:" ;;
  print (Dump search_results) ;;
  say "" ;;
  say "Getting specific record..." ;;
  record_data ← get_record "CUSTOMERS" "CUST001" ;
  say "✓ Record data:" ;;
  print (Dump record_data) ;;
  say "" ;;
  say "Why analysis (comparing two entities)..." ;;
  why_how_analysis ;;
  say "" ;;
  say "Deleting a record..." ;;
  delete_result ← delete_record "CUSTOMERS" "CUST002" ;
  say "✓ Deleted CUSTOMERS:CUST002" ;;
  say "  Response JSON:" ;;
  print (Dump delete_result) ;;
  say "" ;;
  say banner ;;
  say "Example completed successfully!" ;;
  say banner.

(** [main()]: the value returned is the exit status.  [return 0] is only
    reached when the [try] block falls through, so it is written as the
    last step of that block. *)
Definition main (CONFIG : Config) : M Z :=
  senzing_root ← lift (config_lookup CONFIG "senzing" "senzing_root") ;
  let p := paths_of senzing_root in
  let settings := settings_of p in
  say banner ;;
  say "Senzing C# SDK via Python.NET - Example" ;;
  say banner ;;
  say "" ;;
  try_except
    (with_SenzingClient (dotnet_sdk_path p) settings main_with_body ;;
     mret 0)
    (fun e =>
       say ("✗ Error: " ++ exn_msg e) ;;
       mret 1).

(** The whole script: module level, then [sys.exit(main())]. *)
Definition example_after_import (CONFIG : Config) : M unit :=
  status ← main CONFIG ;
  sys_exit status.

Definition senzing_python_net_example (file : ConfigFile) : M unit :=
  CONFIG ← load_config file ;
  set_pydll CONFIG ;;
  example_set_runtime ;;
  call (Import "clr") ;;
  example_after_import CONFIG.

End Scripts.

Arguments World {_}.
Arguments M {_} A.

(** ** A substitute engine

    Modelled from the spec: the engine and its SDK are a closed-source
    collaborator whose code is not in the repository.  This substitute
    follows the service contracts of spec sections 4.3 to 4.5: a default
    configuration id replaced by compare-and-swap, configurations holding
    a registry of data-source codes, an export cursor over a finite report
    and a queue of redo records.  Two knobs make the failure paths of the
    scripts reachable: [broken] makes chosen calls raise, and [rival] is a
    concurrent writer that installs its own default configuration id
    after a given number of further calls. *)
Module Fake.

Record state : Type := {
  default_id : Z;
  configs : gmap Z (list string);
  next_id : Z;
  working : list string;
  rival : option (nat * Z);
  broken : Call -> bool;
  report : list text;
  next_handle : Z;
  cursor : option (Z * list text);
  redo : list string
}.

(** The registry document of a configuration, as the engine serialises
    it. *)
Definition registry_doc (codes : list string) : json :=
  JObj [ ("DATA_SOURCES",
          JArr (map (fun code => JObj [ ("DSRC_CODE", JStr code) ]) codes)) ].

Definition code_of (ds : json) : option string :=
  match py_getitem ds "DSRC_CODE" with
  | inr (JStr code) => Some code
  | _ => None
  end.

Definition codes_of_doc (doc : text) : option (list string) :=
  match doc with
  | Encoded j =>
      match py_getitem j "DATA_SOURCES" with
      | inr (JArr items) => mapM code_of items
      | _ => None
      end
  | Garbage _ => None
  end.

Definition entity_doc : json :=
  JObj [ ("RESOLVED_ENTITY", JObj [ ("ENTITY_ID", JNum 1) ]) ].

Definition conflict : exn := SzException "default configuration id has changed".
Definition injected : exn := SzException "injected failure".
Definition unknown : exn := SzException "no such object".

Definition set_default (z : Z) (s : state) : state :=
  {| default_id := z; configs := configs s; next_id := next_id s;
     working := working s; rival := rival s; broken := broken s;
     report := report s; next_handle := next_handle s; cursor := cursor s;
     redo := redo s |}.

Definition set_rival (r : option (nat * Z)) (s : state) : state :=
  {| default_id := default_id s; configs := configs s; next_id := next_id s;
     working := working s; rival := r; broken := broken s;
     report := report s; next_handle := next_handle s; cursor := cursor s;
     redo := redo s |}.

Definition set_working (codes : list string) (s : state) : state :=
  {| default_id := default_id s; configs := configs s; next_id := next_id s;
     working := codes; rival := rival s; broken := broken s;
     report := report s; next_handle := next_handle s; cursor := cursor s;
     redo := redo s |}.

Definition add_config (codes : list string) (s : state) : state :=
  {| default_id := default_id s; configs := <[ next_id s := codes ]> (configs s);
     next_id := next_id s + 1;
     working := working s; rival := rival s; broken := broken s;
     report := report s; next_handle := next_handle s; cursor := cursor s;
     redo := redo s |}.

Definition set_cursor (c : option (Z * list text)) (s : state) : state :=
  {| default_id := default_id s; configs := configs s; next_id := next_id s;
     working := working s; rival := rival s; broken := broken s;
     report := report s; next_handle := next_handle s; cursor := c;
     redo := redo s |}.

Definition open_cursor (s : state) : state :=
  {| default_id := default_id s; configs := configs s; next_id := next_id s;
     working := working s; rival := rival s; broken := broken s;
     report := report s; next_handle := next_handle s + 1;
     cursor := Some (next_handle s, report s);
     redo := redo s |}.

Definition set_redo (q : list string) (s : state) : state :=
  {| default_id := default_id s; configs := configs s; next_id := next_id s;
     working := working s; rival := rival s; broken := broken s;
     report := report s; next_handle := next_handle s; cursor := cursor s;
     redo := q |}.

(** The concurrent writer acts between two calls of the script. *)
Definition tick (s : state) : state :=
  match rival s with
  | None => s
  | Some (O, z) => set_rival None (set_default z s)
  | Some (S k, z) => set_rival (Some (k, z)) s
  end.

(** The engine proper, once the writer has had its turn. *)
Definition serve (c : Call) (s : state) : (exn + ret c) * state :=
  match c as c0 return (exn + ret c0) * state with
  | Import _ => (inr tt, s)
  | GetNetfx _ => (inr tt, s)
  | SetRuntime => (inr tt, s)
  | ClrAddReference _ => (inr tt, s)
  | ReadTextFile _ => (inr (Encoded (registry_doc [])), s)
  | Build _ _ => (inr tt, s)
  | GetConfigManager => (inr tt, s)
  | GetEngine => (inr tt, s)
  | GetProduct => (inr tt, s)
  | Destroy => (inr tt, s)
  | GetDefaultConfigID => (inr (default_id s), s)
  | CreateConfig config_id =>
      match configs s !! config_id with
      | Some codes => (inr tt, set_working codes s)
      | None => (inl unknown, s)
      end
  | GetDataSourceRegistry => (inr (Encoded (registry_doc (working s))), s)
  | RegisterDataSource code =>
      if bool_decide (code ∈ working s) then (inr tt, s)
      else (inr tt, set_working (working s ++ [code]) s)
  | Export => (inr (Encoded (registry_doc (working s))), s)
  | RegisterConfig doc _ =>
      match codes_of_doc doc with
      | Some codes => (inr (next_id s), add_config codes s)
      | None => (inl (SzException "invalid configuration document"), s)
      end
  | ReplaceDefaultConfigID expected_old new =>
      if (default_id s =? expected_old)%Z then (inr tt, set_default new s)
      else (inl conflict, s)
  | SetDefaultConfigID config_id => (inr tt, set_default config_id s)
  | GetVersion => (inr (Encoded (JObj [ ("VERSION", JStr "4.0.0") ])), s)
  | GetLicense => (inr (Encoded (JObj [])), s)
  | AddRecord _ _ _ _ => (inr (Encoded (JObj [])), s)
  | DeleteRecord _ _ _ => (inr (Encoded (JObj [])), s)
  | GetEntity _ _ _ => (inr (Encoded entity_doc), s)
  | GetEntityByID _ _ => (inr (Encoded entity_doc), s)
  | SearchByAttributes _ _ => (inr (Encoded (JObj [])), s)
  | GetRecord _ _ _ => (inr (Encoded (JObj [])), s)
  | ReevaluateRecord _ _ _ => (inr (Encoded (JObj [])), s)
  | WhyEntities _ _ _ => (inr (Encoded (JObj [])), s)
  | HowEntity _ _ => (inr (Encoded (JObj [])), s)
  | ExportJsonEntityReport _ => (inr (next_handle s), open_cursor s)
  | FetchNext h =>
      match cursor s with
      | Some (h', data :: rest) =>
          if (h =? h')%Z then (inr (Some data), set_cursor (Some (h', rest)) s)
          else (inl unknown, s)
      | Some (h', []) =>
          if (h =? h')%Z then (inr None, s) else (inl unknown, s)
      | None => (inl unknown, s)
      end
  | CloseExport h =>
      match cursor s with
      | Some (h', _) =>
          if (h =? h')%Z then (inr tt, set_cursor None s) else (inl unknown, s)
      | None => (inl unknown, s)
      end
  | CountRedoRecords => (inr (Z.of_nat (length (redo s))), s)
  | GetRedoRecord =>
      match redo s with
      | record :: rest => (inr (Some record), set_redo rest s)
      | [] => (inr None, s)
      end
  | ProcessRedoRecord record _ =>
      (inr (Encoded (JObj [ ("PROCESSED", JStr record) ])), s)
  end.

Definition answer (c : Call) (s : state) : (exn + ret c) * state :=
  let s := tick s in
  if broken s c then (inl injected, s) else serve c s.

Definition engine : Engine := {| St := state; respond := answer |}.

(** A quiet engine: one configuration, numbered 1, holding [codes]. *)
Definition start (codes : list string) : state :=
  {| default_id := 1; configs := {[ 1 := codes ]}; next_id := 2;
     working := []; rival := None; broken := fun _ => false;
     report := []; next_handle := 7; cursor := None; redo := [] |}.

Definition with_broken (b : Call -> bool) (s : state) : state :=
  {| default_id := default_id s; configs := configs s; next_id := next_id s;
     working := working s; rival := rival s; broken := b;
     report := report s; next_handle := next_handle s; cursor := cursor s;
     redo := redo s |}.

Definition with_report (r : list text) (s : state) : state :=
  {| default_id := default_id s; configs := configs s; next_id := next_id s;
     working := working s; rival := rival s; broken := broken s;
     report := r; next_handle := next_handle s; cursor := cursor s;
     redo := redo s |}.

Definition with_redo (q : list string) (s : state) : state := set_redo q s.

Definition with_rival (k : nat) (z : Z) (s : state) : state :=
  set_rival (Some (k, z)) s.

(** What processing one redo record answers. *)
Definition processed_info (record : string) : json :=
  JObj [ ("PROCESSED", JStr record) ].

(** No concurrent writer and no injected failure. *)
Definition quiet (s : state) : Prop :=
  rival s = None /\ forall c, broken s c = false.

End Fake.

(** A well-formed configuration file. *)
Definition sample_config : Config :=
  {[ "python" := {[ "dll_path" := "C:/Python312/python312.dll" ]};
     "senzing" := {[ "senzing_root" := "C:/Senzing" ]} ]}.

(** ** Reading a trace *)

(** How many of the issued calls satisfy [p]. *)
Definition count_calls (p : Call -> bool) (tr : list Event) : nat :=
  length (List.filter (fun ev => p (ev_call ev)) tr).

(** Whether some call satisfying [p] raised. *)
Definition failed (p : Call -> bool) (tr : list Event) : bool :=
  existsb (fun ev => negb (ev_ok ev) && p (ev_call ev)) tr.

(** Whether some call satisfying [p] returned. *)
Definition succeeded (p : Call -> bool) (tr : list Event) : bool :=
  existsb (fun ev => ev_ok ev && p (ev_call ev)) tr.

Definition is_import_of (module : string) (c : Call) : bool :=
  match c with Import m => String.eqb m module | _ => false end.

(** The calls of the runtime-selection block. *)
Definition is_runtime_selection (c : Call) : bool :=
  match c with
  | Import m => String.eqb m "pythonnet" || String.eqb m "clr_loader"
  | GetNetfx _ | SetRuntime => true
  | _ => false
  end.

(** [w'] continues the trace of [w] by [delta]. *)
Definition grows `{Engine} (w w' : World) (delta : list Event) : Prop :=
  trace w' = (trace w ++ delta)%list.

(** ** Vocabulary of the statements *)

Section Vocabulary.
#[local] Existing Instance Fake.engine.

(** What [drain] does after its first [next], spelled out so that the
    first entry and every resumption share one statement. *)
Definition drain_after (fuel : nat) (h count : Z) : M (option (list json)) :=
  bind (bind (export_stretch None h count)
          (fun item => mret (item, export_frame_after h count item)))
    (fun r =>
       match fst r with
       | None => mret (Some [])
       | Some item =>
           bind (drain fuel (export_next None) (snd r))
             (fun rest => mret (cons item <$> rest))
       end).

(** What [drain] does after its first [next] of the redo generator. *)
Definition redo_after (fuel : nat) (max_records processed : Z) : M (option (list json)) :=
  bind (redo_stretch max_records processed)
    (fun r =>
       match fst r with
       | None => mret (Some [])
       | Some item =>
           bind (drain fuel (redo_next max_records) (snd r))
             (fun rest => mret (cons item <$> rest))
       end).

End Vocabulary.

(** Both required settings can be read. *)
Definition required_keys_present (cfg : Config) : bool :=
  match config_lookup cfg "python" "dll_path",
        config_lookup cfg "senzing" "senzing_root" with
  | inr _, inr _ => true
  | _, _ => false
  end.

(** The three scripts of the repository. *)
Definition scripts `{Engine} : list (ConfigFile -> M unit) :=
  [add_data_sources; initialize_config; senzing_python_net_example].

(** A configuration file with no [senzing] section. *)
Definition config_without_root : Config :=
  {[ "python" := {[ "dll_path" := "C:/Python312/python312.dll" ]} ]}.

(** The calls whose failure each script absorbs in an inner handler and
    carries on from. *)
Definition tolerated_by_add_data_sources (c : Call) : bool :=
  is_runtime_selection c || is_RegisterDataSource c.

Definition tolerated_by_initialize_config (c : Call) : bool :=
  is_runtime_selection c
  || match c with GetDefaultConfigID | Destroy => true | _ => false end.

Definition tolerated_by_example (c : Call) : bool :=
  is_runtime_selection c
  || match c with
     | GetEntity _ _ _ | WhyEntities _ _ _ | HowEntity _ _ => true
     | _ => false
     end.

(** Some call outside [tolerated] raised. *)
Definition fatal (tolerated : Call -> bool) (tr : list Event) : bool :=
  failed (fun c => negb (tolerated c)) tr.

(** What one piece of a script may do, seen from outside: it extends the
    trace by [dt] and the raised exceptions by [dr], and
    - it completes, or exits with 0, only if no call outside [tolerated]
      has failed in it;
    - it raises, or exits with 1, only if an exception was raised. *)
Definition verdict {A : Type} (tolerated : Call -> bool)
    (o : Outcome A) (dt : list Event) (dr : list exn) : Prop :=
  match o with
  | Done _ => fatal tolerated dt = false
  | Raised _ => dr <> []
  | Exited code =>
      (code = 0 /\ fatal tolerated dt = false) \/ (code = 1 /\ dr <> [])
  end.

Definition sound `{Engine} (tolerated : Call -> bool) {A : Type} (m : M A) : Prop :=
  forall w, exists dt dr,
    trace (snd (m w)) = (trace w ++ dt)%list
    /\ raised (snd (m w)) = (raised w ++ dr)%list
    /\ verdict tolerated (fst (m w)) dt dr.

(** The same for a block whose failures are all absorbed: nothing outside
    [tolerated] fails in it, however it ends. *)
Definition tolerant `{Engine} (tolerated : Call -> bool) {A : Type} (m : M A) : Prop :=
  forall w, exists dt dr,
    trace (snd (m w)) = (trace w ++ dt)%list
    /\ raised (snd (m w)) = (raised w ++ dr)%list
    /\ fatal tolerated dt = false
    /\ match fst (m w) with
       | Done _ => True
       | Raised _ => dr <> []
       | Exited code => code = 0 \/ (code = 1 /\ dr <> [])
       end.

(** A handler that gives up: it ends the script with status 1, or with an
    exception of its own. *)
Definition aborting `{Engine} {A : Type} (m : M A) : Prop :=
  forall w, exists dt dr,
    trace (snd (m w)) = (trace w ++ dt)%list
    /\ raised (snd (m w)) = (raised w ++ dr)%list
    /\ match fst (m w) with
       | Done _ => False
       | Raised _ => dr <> []
       | Exited code => code = 1
       end.



(** The two lines the runtime-selection block of initialize_config.py can
    print. *)
Definition runtime_selected_note : Out :=
  Line [S_ "✓ Using .NET Framework x64 runtime"].

Definition fallback_note (e : exn) : Out :=
  Line [S_ ("Note: Using default runtime: " ++ exn_msg e)].

Definition is_GetNetfx (c : Call) : bool :=
  match c with GetNetfx _ => true | _ => false end.

(** A host on which the .NET Framework runtime cannot be found. *)
Definition netfx_unavailable : Fake.state :=
  Fake.with_broken is_GetNetfx (Fake.start ["TEST"]).

(** The fallback policy read literally, for one runtime-selection block:
    when one of its calls fails, the block still completes and something
    is printed. *)
Definition notes_runtime_fallback `{Engine} (set_runtime : M unit) (st : St) : Prop :=
  let r := run set_runtime st in
  failed is_runtime_selection (trace (snd r)) = true ->
  fst r = Done tt /\ stdout (snd r) <> [].

(** A run seen through its three ways out: [on_done], [on_raise] and
    [on_exit] say how the rest of the script goes on from each. *)
Definition via `{Engine} {A R : Type} (m : M A)
    (on_done : A -> World -> R) (on_raise : exn -> World -> R)
    (on_exit : Z -> World -> R) (w : World) : R :=
  match m w with
  | (Done a, w') => on_done a w'
  | (Raised e, w') => on_raise e w'
  | (Exited code, w') => on_exit code w'
  end.

Definition is_registration_of (code : string) (c : Call) : bool :=
  match c with RegisterDataSource code' => String.eqb code' code | _ => false end.

Definition is_ReplaceDefaultConfigID (c : Call) : bool :=
  match c with ReplaceDefaultConfigID _ _ => true | _ => false end.

Definition is_SetDefaultConfigID (c : Call) : bool :=
  match c with SetDefaultConfigID _ => true | _ => false end.

(** A block that always completes, issuing only calls among [allowed]. *)
Definition steps_over `{Engine} {A : Type} (allowed : Call -> bool) (m : M A) : Prop :=
  forall w, exists a w' dt,
    m w = (Done a, w')
    /\ trace w' = (trace w ++ dt)%list
    /\ Forall (fun ev => allowed (ev_call ev) = true) dt.

Definition is_GetConfigManager (c : Call) : bool :=
  match c with GetConfigManager => true | _ => false end.

Definition is_GetProduct (c : Call) : bool :=
  match c with GetProduct => true | _ => false end.

(** The calls of the why/how analysis of the example. *)
Definition is_analysis_call (c : Call) : bool :=
  match c with
  | GetEntity _ _ _ | WhyEntities _ _ _ | HowEntity _ _ => true
  | _ => false
  end.

Definition is_explanation (c : Call) : bool :=
  match c with WhyEntities _ _ _ | HowEntity _ _ => true | _ => false end.

(** What a trace shows of the calls selected by [p]: how many were issued,
    whether one returned, whether one raised. *)
Definition tally (p : Call -> bool) (tr : list Event) : nat * bool * bool :=
  (count_calls p tr, succeeded p tr, failed p tr).

(** The life of the environment handle, as a trace shows it. *)
Inductive Handle : Type :=
  | NotBuilt
  | Failed
  | Open
  | Released.

(** One call against the handle; [None] when the handle does not allow
    it.  Bridge and host calls are always allowed.  [Build] needs a
    handle that is not built yet: it opens it when it returns, and when
    it raises there is no handle and never will be, so that no engine
    call, [Build] included, is allowed any more.  Every other engine
    call needs an open handle, and a [Destroy] that returns releases
    it. *)
Definition handle_step (h : Handle) (ev : Event) : option Handle :=
  if negb (is_engine_call (ev_call ev)) then Some h
  else
    match ev_call ev, h with
    | Build _ _, NotBuilt => Some (if ev_ok ev then Open else Failed)
    | Build _ _, _ => None
    | Destroy, Open => Some (if ev_ok ev then Released else Open)
    | _, Open => Some Open
    | _, _ => None
    end.

Fixpoint handle_after (h : Handle) (tr : list Event) : option Handle :=
  match tr with
  | [] => Some h
  | ev :: rest =>
      match handle_step h ev with
      | Some h' => handle_after h' rest
      | None => None
      end
  end.

Definition is_RegisterConfig (c : Call) : bool :=
  match c with RegisterConfig _ _ => true | _ => false end.

Definition is_ReadTextFile (c : Call) : bool :=
  match c with ReadTextFile _ => true | _ => false end.

(** The calls that change the configuration of the repository. *)
Definition changes_configuration (c : Call) : bool :=
  match c with
  | RegisterDataSource _ | RegisterConfig _ _
  | ReplaceDefaultConfigID _ _ | SetDefaultConfigID _ => true
  | _ => false
  end.

Definition is_FetchNext (c : Call) : bool :=
  match c with FetchNext _ => true | _ => false end.

(** What [drain] does after its first [next] of the export generator
    called with [max_entities]: the stretch that starts with the cursor
    [h] open and [count] entities yielded, then the rest of the
    iteration. *)
Definition export_after `{Engine} (max_entities : option Z) (fuel : nat) (h count : Z)
    : M (option (list json)) :=
  bind (bind (export_stretch max_entities h count)
          (fun item => mret (item, export_frame_after h count item)))
    (fun r =>
       match fst r with
       | None => mret (Some [])
       | Some item =>
           bind (drain fuel (export_next max_entities) (snd r))
             (fun rest => mret (cons item <$> rest))
       end).

(** A configuration registered under [comment]. *)
Definition is_RegisterConfig_with (comment : string) (c : Call) : bool :=
  match c with RegisterConfig _ comment' => String.eqb comment' comment | _ => false end.

Definition is_GetDefaultConfigID (c : Call) : bool :=
  match c with GetDefaultConfigID => true | _ => false end.

Definition is_GetEntity (c : Call) : bool :=
  match c with GetEntity _ _ _ => true | _ => false end.

Definition is_GetRecord (c : Call) : bool :=
  match c with GetRecord _ _ _ => true | _ => false end.

(** The same kind of call is absorbed at one line of a script and not at
    another, so absorption is told by position: [absorbed before c] says
    whether an exception of call [c], issued when the trace is [before],
    is caught by an inner handler that lets the run continue.

    add_data_sources.py: the runtime selection (lines 27-33) and each
    registration (lines 108-112). *)
Definition absorbed_by_add_data_sources (before : list Event) (c : Call) : bool :=
  is_runtime_selection c || is_RegisterDataSource c.

(** initialize_config.py: the runtime selection (lines 29-38), both reads
    of the default configuration (lines 93 and 153) and, of the five
    [Destroy], the one of line 99 alone, which is the only one issued
    before the template is read at line 112; those of lines 118, 134,
    146 and 165 stand in a handler or after the last [try]. *)
Definition absorbed_by_initialize_config (before : list Event) (c : Call) : bool :=
  is_runtime_selection c
  || is_GetDefaultConfigID c
  || (is_Destroy c && (count_calls is_ReadTextFile before =? 0)%nat).

(** The example: the runtime selection (lines 58-65) and the why/how
    analysis (lines 505-524), whose [GetEntity] calls are the ones that
    follow the [GetRecord] of line 498; the [GetEntity] of line 477 comes
    before it and is not absorbed. *)
Definition absorbed_by_example (before : list Event) (c : Call) : bool :=
  is_runtime_selection c
  || is_explanation c
  || (is_GetEntity c && succeeded is_GetRecord before).

(** Some call of [tr], issued after [before], raised where no inner
    handler absorbs it. *)
Fixpoint unabsorbed (absorbed : list Event -> Call -> bool)
    (before tr : list Event) : bool :=
  match tr with
  | [] => false
  | ev :: rest =>
      (negb (ev_ok ev) && negb (absorbed before (ev_call ev)))
      || unabsorbed absorbed (before ++ [ev]) rest
  end.


(** * Proofs *)

Lemma count_calls_app p a b :
  count_calls p (a ++ b) = (count_calls p a + count_calls p b)%nat.
Proof. unfold count_calls. rewrite List.filter_app, List.length_app. reflexivity. Qed.

Lemma count_calls_cons p ev tr :
  count_calls p (ev :: tr)
  = ((if p (ev_call ev) then 1 else 0) + count_calls p tr)%nat.
Proof. unfold count_calls. simpl. destruct (p (ev_call ev)); reflexivity. Qed.

Lemma count_calls_le (p q : Call -> bool) tr :
  (forall c, p c = true -> q c = true) ->
  (count_calls p tr <= count_calls q tr)%nat.
Proof.
  intros Hpq. induction tr as [|ev tr IH]; [reflexivity|].
  rewrite !count_calls_cons.
  destruct (p (ev_call ev)) eqn:Hp.
  - rewrite (Hpq _ Hp). lia.
  - destruct (q (ev_call ev)); lia.
Qed.

Lemma CloseExport_of_is_CloseExport h c :
  is_CloseExport_of h c = true -> is_CloseExport c = true.
Proof. destruct c; simpl; congruence. Qed.

Lemma failed_app p a b : failed p (a ++ b) = failed p a || failed p b.
Proof. unfold failed. apply existsb_app. Qed.

(** ** Inversion of runs

    Each lemma reads one equation [m w = (o, w')] back into what the
    first construct of [m] did. *)
Section Inversion.
Context `{Engine}.

Lemma bind_inv {A B : Type} (m : M A) (k : A -> M B) w o w' :
  bind m k w = (o, w') ->
  (exists a w1, m w = (Done a, w1) /\ k a w1 = (o, w'))
  \/ (exists e, m w = (Raised e, w') /\ o = Raised e)
  \/ (exists code, m w = (Exited code, w') /\ o = Exited code).
Proof.
  unfold bind. destruct (m w) as [[a|e|code] w1]; intros Heq.
  - left. eauto.
  - right. left. inversion Heq. eauto.
  - right. right. inversion Heq. eauto.
Qed.

Lemma try_except_inv {A : Type} (m : M A) (h : exn -> M A) w o w' :
  try_except m h w = (o, w') ->
  (exists a, m w = (Done a, w') /\ o = Done a)
  \/ (exists e w1, m w = (Raised e, w1) /\ h e w1 = (o, w'))
  \/ (exists code, m w = (Exited code, w') /\ o = Exited code).
Proof.
  unfold try_except. destruct (m w) as [[a|e|code] w1]; intros Heq.
  - left. inversion Heq. eauto.
  - right. left. eauto.
  - right. right. inversion Heq. eauto.
Qed.

Lemma finally_inv {A : Type} (m : M A) (f : M unit) w o w' :
  finally m f w = (o, w') ->
  exists o1 w1, m w = (o1, w1)
    /\ ((exists u, f w1 = (Done u, w') /\ o = o1)
        \/ (exists e, f w1 = (Raised e, w') /\ o = Raised e)
        \/ (exists code, f w1 = (Exited code, w') /\ o = Exited code)).
Proof.
  unfold finally. destruct (m w) as [o1 w1]. intros Heq.
  exists o1, w1. split; [reflexivity|].
  destruct (f w1) as [[u|e|code] w2]; inversion Heq; subst; eauto 6.
Qed.

Lemma call_inv (c : Call) w o w' :
  call c w = (o, w') ->
  (exists v st', respond c (engine w) = (inr v, st') /\ o = Done v
     /\ w' = {| engine := st';
                trace := trace w ++ [{| ev_call := c; ev_ok := true |}];
                raised := raised w; stdout := stdout w |})
  \/ (exists e st', respond c (engine w) = (inl e, st') /\ o = Raised e
     /\ w' = {| engine := st';
                trace := trace w ++ [{| ev_call := c; ev_ok := false |}];
                raised := raised w ++ [e]; stdout := stdout w |}).
Proof.
  unfold call. destruct (respond c (engine w)) as [[e|v] st']; intros Heq;
    inversion Heq; subst; eauto 8.
Qed.

Lemma print_inv (x : Out) w o w' :
  print x w = (o, w') ->
  o = Done tt
  /\ w' = {| engine := engine w; trace := trace w; raised := raised w;
             stdout := stdout w ++ [x] |}.
Proof. unfold print. intros Heq. inversion Heq. auto. Qed.

Lemma lift_inv {A : Type} (r : exn + A) w o w' :
  lift r w = (o, w') ->
  (exists a, r = inr a /\ o = Done a /\ w' = w)
  \/ (exists e, r = inl e /\ o = Raised e
      /\ w' = {| engine := engine w; trace := trace w;
                 raised := raised w ++ [e]; stdout := stdout w |}).
Proof.
  destruct r as [e|a]; simpl; unfold raise, pure; intros Heq; inversion Heq; eauto 6.
Qed.

Lemma raise_inv {A : Type} (e : exn) w (o : Outcome A) w' :
  raise e w = (o, w') ->
  o = Raised e
  /\ w' = {| engine := engine w; trace := trace w;
             raised := raised w ++ [e]; stdout := stdout w |}.
Proof. unfold raise. intros Heq. inversion Heq. auto. Qed.

Lemma pure_inv {A : Type} (a : A) w o w' :
  pure a w = (o, w') -> o = Done a /\ w' = w.
Proof. unfold pure. intros Heq. inversion Heq. auto. Qed.

Lemma sys_exit_inv {A : Type} (code : Z) w (o : Outcome A) w' :
  sys_exit code w = (o, w') -> o = Exited code /\ w' = w.
Proof. unfold sys_exit. intros Heq. inversion Heq. auto. Qed.

Lemma snd_bind_pure {A B : Type} (m : M A) (g : A -> B) (w : World) :
  snd (bind m (fun x => mret (g x)) w) = snd (m w).
Proof. unfold bind. destruct (m w) as [[a|e|code] w']; reflexivity. Qed.

Lemma grows_trans w1 w2 w3 d1 d2 :
  grows w1 w2 d1 -> grows w2 w3 d2 -> grows w1 w3 (d1 ++ d2).
Proof. unfold grows. intros -> ->. rewrite app_assoc. reflexivity. Qed.

End Inversion.

Ltac fold_m H := unfold mbind, mret, M_bind, M_ret, say in H.

Ltac unfold_m :=
  unfold mbind, mret, M_bind, M_ret, bind, pure, try_except, finally,
    finally_or_yield, say, print, raise, lift, sys_exit, call in *.

(** Equations between outcomes and between answers, read off. *)
Ltac tidy :=
  subst;
  repeat match goal with
         | H : Done _ = Done _ |- _ => inversion H; clear H; subst
         | H : Raised _ = Raised _ |- _ => inversion H; clear H; subst
         | H : Exited _ = Exited _ |- _ => inversion H; clear H; subst
         | H : @inl _ _ _ = inl _ |- _ => inversion H; clear H; subst
         | H : @inr _ _ _ = inr _ |- _ => inversion H; clear H; subst
         | H : Done _ = Raised _ |- _ => discriminate H
         | H : Done _ = Exited _ |- _ => discriminate H
         | H : Raised _ = Done _ |- _ => discriminate H
         | H : Raised _ = Exited _ |- _ => discriminate H
         | H : Exited _ = Done _ |- _ => discriminate H
         | H : Exited _ = Raised _ |- _ => discriminate H
         | H : @inl _ _ _ = inr _ |- _ => discriminate H
         | H : @inr _ _ _ = inl _ |- _ => discriminate H
         end;
  cbn [engine trace raised stdout] in *.

(** Follow one run, in program order, down to its primitive steps. *)
Ltac follow H :=
  cbv beta in H;
  lazymatch type of H with
  | bind _ _ _ = (_, _) =>
      let Hm := fresh "Hm" in
      apply bind_inv in H;
      destruct H as [(? & ? & Hm & H) | [(? & Hm & ?) | (? & Hm & ?)]];
      [ follow Hm; follow H | tidy; follow Hm | tidy; follow Hm ]
  | try_except _ _ _ = (_, _) =>
      let Hm := fresh "Hm" in
      apply try_except_inv in H;
      destruct H as [(? & Hm & ?) | [(? & ? & Hm & H) | (? & Hm & ?)]];
      [ tidy; follow Hm | follow Hm; follow H | tidy; follow Hm ]
  | finally _ _ _ = (_, _) =>
      let Hm := fresh "Hm" in
      apply finally_inv in H;
      destruct H as (? & ? & Hm & [(? & H & ?) | [(? & H & ?) | (? & H & ?)]]);
      tidy; follow Hm; follow H
  | call ?c ?w = (?o, ?w') =>
      let Hr := fresh "Hr" in
      apply (call_inv c w o w') in H;
      destruct H as [(? & ? & Hr & ? & ?) | (? & ? & Hr & ? & ?)];
      tidy
  | print _ _ = (_, _) =>
      apply print_inv in H; destruct H as (? & ?); tidy
  | lift _ _ = (_, _) =>
      let Hl := fresh "Hl" in
      apply lift_inv in H;
      destruct H as [(? & Hl & ? & ?) | (? & Hl & ? & ?)];
      tidy
  | raise _ _ = (_, _) =>
      apply raise_inv in H; destruct H as (? & ?); tidy
  | pure _ _ = (_, _) =>
      apply pure_inv in H; destruct H as (? & ?); tidy
  | sys_exit _ _ = (_, _) =>
      apply sys_exit_inv in H; destruct H as (? & ?); tidy
  | (match ?x with _ => _ end) _ = (_, _) => destruct x eqn:?; follow H
  | (if ?x then _ else _) _ = (_, _) => destruct x eqn:?; follow H
  | _ => idtac
  end.

(** ** The export cursor *)
Section ExportCursor.
Context `{Engine}.

Ltac ask :=
  match goal with
  | |- context [respond ?c ?s] =>
      let E := fresh "E" in
      destruct (respond c s) as [[?e|?v] ?st] eqn:E; simpl
  end.

Ltac close_delta d :=
  exists d; unfold grows; simpl;
  rewrite <- ?app_assoc; simpl;
  repeat split; try reflexivity;
  rewrite ?count_calls_cons; simpl; rewrite ?Z.eqb_refl; reflexivity.

(** One stretch either suspends at a [yield] without touching the cursor,
    or leaves the [try] block and closes the cursor exactly once. *)
Lemma export_stretch_closes max_entities h count (w : World) :
  exists delta,
    grows w (snd (export_stretch max_entities h count w)) delta
    /\ match fst (export_stretch max_entities h count w) with
       | Done (Some _) => count_calls is_CloseExport delta = 0%nat
       | _ =>
           count_calls is_CloseExport delta = 1%nat
           /\ count_calls (is_CloseExport_of h) delta = 1%nat
       end.
Proof.
  unfold export_stretch. unfold_m. simpl.
  ask.
  - ask.
    + close_delta [{| ev_call := FetchNext h; ev_ok := false |};
                   {| ev_call := CloseExport h; ev_ok := false |}].
    + close_delta [{| ev_call := FetchNext h; ev_ok := false |};
                   {| ev_call := CloseExport h; ev_ok := true |}].
  - unfold export_loop. destruct v as [data|]; simpl.
    + destruct (cap_reached max_entities count); simpl.
      * unfold_m; simpl. ask.
        -- close_delta [{| ev_call := FetchNext h; ev_ok := true |};
                        {| ev_call := CloseExport h; ev_ok := false |}].
        -- close_delta [{| ev_call := FetchNext h; ev_ok := true |};
                        {| ev_call := CloseExport h; ev_ok := true |}].
      * unfold_m; simpl. destruct data as [j|raw]; simpl.
        -- close_delta [{| ev_call := FetchNext h; ev_ok := true |}].
        -- ask.
           ++ close_delta [{| ev_call := FetchNext h; ev_ok := true |};
                           {| ev_call := CloseExport h; ev_ok := false |}].
           ++ close_delta [{| ev_call := FetchNext h; ev_ok := true |};
                           {| ev_call := CloseExport h; ev_ok := true |}].
    + unfold_m; simpl. ask.
      * close_delta [{| ev_call := FetchNext h; ev_ok := true |};
                     {| ev_call := CloseExport h; ev_ok := false |}].
      * close_delta [{| ev_call := FetchNext h; ev_ok := true |};
                     {| ev_call := CloseExport h; ev_ok := true |}].
Qed.

(** A consumer that holds a suspended frame sees exactly one close, and
    on the frame's own cursor, however many items it still takes. *)
Lemma suspended_closes_once max_entities k : forall h count (w : World),
  exists delta,
    grows w (snd (take_then_close k (export_next max_entities) export_close
                    (ExportSuspended h count) w)) delta
    /\ count_calls is_CloseExport delta = 1%nat
    /\ count_calls (is_CloseExport_of h) delta = 1%nat.
Proof.
  induction k as [|k IH]; intros h count w.
  - simpl. unfold_m. simpl.
    ask.
    + close_delta [{| ev_call := CloseExport h; ev_ok := false |}].
    + close_delta [{| ev_call := CloseExport h; ev_ok := true |}].
  - destruct (export_stretch_closes max_entities h (count + 1) w)
      as (d & Hg & Hc).
    simpl. unfold mbind, M_bind, bind at 1 2.
    destruct (export_stretch max_entities h (count + 1) w)
      as [[[item|]|e|code] w1]; simpl in *.
    + destruct (IH h (count + 1) w1) as (d2 & Hg2 & Hc2 & Hc2').
      rewrite snd_bind_pure.
      exists (d ++ d2)%list. split; [eapply grows_trans; eassumption|].
      rewrite !count_calls_app, Hc, Hc2, Hc2'.
      pose proof (count_calls_le _ _ d (CloseExport_of_is_CloseExport h)).
      split; lia.
    + exists d. unfold_m. simpl. tauto.
    + exists d. tauto.
    + exists d. tauto.
Qed.

(** The same from a fresh generator whose first [next] opens a cursor. *)
Lemma created_closes_once max_entities k h st' (w : World) :
  respond (ExportJsonEntityReport export_flags) (engine w) = (inr h, st') ->
  exists delta,
    grows w (snd (take_then_close (S k) (export_next max_entities) export_close
                    ExportCreated w)) delta
    /\ count_calls is_CloseExport delta = 1%nat
    /\ count_calls (is_CloseExport_of h) delta = 1%nat.
Proof.
  intros Hopen. simpl.
  unfold mbind, M_bind, bind at 1 2 3. unfold call at 1.
  rewrite Hopen.
  match goal with
  | |- context [export_stretch _ _ _ ?w0] =>
      destruct (export_stretch_closes max_entities h 0 w0) as (d & Hg & Hc);
      destruct (export_stretch max_entities h 0 w0) as [[[item|]|e|code] w1]
  end; simpl in *.
  - destruct (suspended_closes_once max_entities k h 0 w1) as (d2 & Hg2 & Hc2 & Hc2').
    rewrite snd_bind_pure.
    exists ({| ev_call := ExportJsonEntityReport export_flags; ev_ok := true |} :: d ++ d2)%list.
    unfold grows in *. rewrite Hg2, Hg. simpl.
    rewrite <- !app_assoc. simpl.
    rewrite !count_calls_cons, !count_calls_app, Hc, Hc2, Hc2'. simpl.
    pose proof (count_calls_le _ _ d (CloseExport_of_is_CloseExport h)).
    repeat split; lia.
  - exists ({| ev_call := ExportJsonEntityReport export_flags; ev_ok := true |} :: d).
    unfold_m. unfold grows in *. simpl. rewrite Hg. simpl.
    rewrite <- !app_assoc. simpl. rewrite !count_calls_cons. simpl. tauto.
  - exists ({| ev_call := ExportJsonEntityReport export_flags; ev_ok := true |} :: d).
    unfold grows in *. simpl. rewrite Hg. simpl.
    rewrite <- !app_assoc. simpl. rewrite !count_calls_cons. simpl. tauto.
  - exists ({| ev_call := ExportJsonEntityReport export_flags; ev_ok := true |} :: d).
    unfold grows in *. simpl. rewrite Hg. simpl.
    rewrite <- !app_assoc. simpl. rewrite !count_calls_cons. simpl. tauto.
Qed.

(** C4. Every iteration of [export_json_entities] that opens a cursor
    closes it exactly once: whatever the engine answers (records, the end
    of the report, exceptions), whatever the cap, and however many items
    the consumer takes before it drops the generator, the run issues one
    [CloseExport] call, and it is on the handle that was opened. *)
Theorem export_cursor_closed_exactly_once
    (max_entities : option Z) (k : nat) (st st' : St) (h : Z) :
  respond (ExportJsonEntityReport export_flags) st = (inr h, st') ->
  let w := snd (run (take_then_close (S k) (export_next max_entities)
                       export_close ExportCreated) st) in
  count_calls is_CloseExport (trace w) = 1%nat
  /\ count_calls (is_CloseExport_of h) (trace w) = 1%nat.
Proof.
  intros Hopen w.
  destruct (created_closes_once max_entities k h st' (boot st) Hopen)
    as (d & Hg & Hc & Hc').
  unfold grows in Hg. subst w. unfold run. rewrite Hg. simpl. tauto.
Qed.

End ExportCursor.

Lemma export_cursor_closed_exactly_once_witness :
  Fake.answer (ExportJsonEntityReport export_flags)
    (Fake.with_report [Encoded (JNum 1); Encoded (JNum 2); Encoded (JNum 3)] (Fake.start []))
  = (inr 7,
     Fake.open_cursor
       (Fake.with_report [Encoded (JNum 1); Encoded (JNum 2); Encoded (JNum 3)]
          (Fake.start [])))
  /\ let w := snd (@run Fake.engine _
                     (take_then_close 2 (export_next None) export_close ExportCreated)
                     (Fake.with_report [Encoded (JNum 1); Encoded (JNum 2); Encoded (JNum 3)]
                        (Fake.start []))) in
     count_calls is_CloseExport (trace w) = 1%nat
     /\ count_calls (is_CloseExport_of 7) (trace w) = 1%nat.
Proof.
  split.
  - reflexivity.
  - apply (@export_cursor_closed_exactly_once Fake.engine None 1%nat
             (Fake.with_report [Encoded (JNum 1); Encoded (JNum 2); Encoded (JNum 3)]
                (Fake.start []))
             (Fake.open_cursor
                (Fake.with_report [Encoded (JNum 1); Encoded (JNum 2); Encoded (JNum 3)]
                   (Fake.start [])))
             7).
    reflexivity.
Defined.

(** ** The substitute engine when nobody interferes *)
Module FakeFacts.
Import Fake.


Lemma answer_quiet c s : quiet s -> answer c s = serve c s.
Proof.
  intros [Hr Hb]. unfold answer, tick. rewrite Hr, Hb. reflexivity.
Qed.

Lemma quiet_start codes : quiet (start codes).
Proof. split; reflexivity. Qed.

Lemma quiet_with_report r s : quiet s -> quiet (with_report r s).
Proof. intros [? ?]. split; assumption. Qed.

Lemma quiet_set_cursor c s : quiet s -> quiet (set_cursor c s).
Proof. intros [? ?]. split; assumption. Qed.

Lemma quiet_open_cursor s : quiet s -> quiet (open_cursor s).
Proof. intros [? ?]. split; assumption. Qed.

Lemma quiet_set_redo q s : quiet s -> quiet (set_redo q s).
Proof. intros [? ?]. split; assumption. Qed.

End FakeFacts.

Create HintDb quiet.
#[local] Hint Resolve FakeFacts.quiet_start FakeFacts.quiet_with_report
  FakeFacts.quiet_set_cursor FakeFacts.quiet_open_cursor
  FakeFacts.quiet_set_redo : quiet.

(** ** Exporting without a cap *)

(** With a cap of 0 the cap test of line 342 is never true, so the
    generator is the uncapped one, against any engine. *)
Lemma export_next_cap_zero `{Engine} : export_next (Some 0) = export_next None.
Proof. reflexivity. Qed.

Section ExportAll.
#[local] Existing Instance Fake.engine.


Lemma drain_suspended fuel h count w :
  drain (S fuel) (export_next None) (ExportSuspended h count) w
  = drain_after fuel h (count + 1) w.
Proof. reflexivity. Qed.

#[local] Arguments drain : simpl never.

Lemma drain_after_all (entities : list json) : forall fuel h count s tr rs out,
  Fake.quiet s ->
  Fake.cursor s = Some (h, map Encoded entities) ->
  (length entities <= fuel)%nat ->
  fst (drain_after fuel h count
         {| engine := s; trace := tr; raised := rs; stdout := out |})
  = Done (Some entities).
Proof.
  induction entities as [|x rest IH]; intros fuel h count s tr rs out Hq Hc Hf.
  - unfold drain_after, export_stretch. unfold_m. simpl.
    rewrite (FakeFacts.answer_quiet _ _ Hq). simpl. rewrite Hc, Z.eqb_refl. simpl.
    rewrite (FakeFacts.answer_quiet _ _ Hq). simpl. rewrite Hc, Z.eqb_refl. simpl.
    reflexivity.
  - destruct fuel as [|fuel]; [simpl in Hf; lia|].
    unfold drain_after, export_stretch. unfold_m. simpl.
    rewrite (FakeFacts.answer_quiet _ _ Hq). simpl. rewrite Hc, Z.eqb_refl. simpl.
    rewrite drain_suspended.
    match goal with
    | |- context [drain_after _ _ _ ?w0] =>
        pose proof (IH fuel h (count + 1) (engine w0) (trace w0) (raised w0) (stdout w0)) as IH'
    end.
    cbn [engine trace raised stdout] in IH'.
    destruct (drain_after fuel h (count + 1) _) as [o w1].
    simpl in IH'. rewrite IH'; auto with quiet.
    simpl in Hf; lia.
Qed.

(** C10. A cap of 0 is no cap: for every engine the generator called with
    [max_entities = 0] runs exactly as with [max_entities = None], and on
    a report of any length it yields every entity, not none. *)
Theorem export_cap_zero_is_unlimited
    (entities : list json) (codes : list string) (fuel : nat)
    (Hfuel : (length entities < fuel)%nat) :
  (forall (E : Engine) (rounds : nat) (st : St),
      run (drain rounds (export_next (Some 0)) ExportCreated) st
      = run (drain rounds (export_next None) ExportCreated) st)
  /\ fst (run (drain fuel (export_next (Some 0)) ExportCreated)
            (Fake.with_report (map Encoded entities) (Fake.start codes)))
     = Done (Some entities).
Proof.
  split.
  - intros E rounds st. rewrite export_next_cap_zero. reflexivity.
  - unfold run. rewrite export_next_cap_zero.
    destruct fuel as [|fuel]; [exfalso; lia|].
    change (drain (S fuel) (export_next None) ExportCreated (boot _))
      with (bind (call (ExportJsonEntityReport export_flags))
              (fun h => drain_after fuel h 0)
              (boot (Fake.with_report (map Encoded entities) (Fake.start codes)))).
    unfold bind at 1, call at 1. simpl.
    apply drain_after_all; [split; reflexivity | reflexivity | lia].
Qed.

End ExportAll.

Lemma export_cap_zero_is_unlimited_witness :
  (length [JStr "a"; JStr "b"] < 3)%nat
  /\ fst (@run Fake.engine _ (drain 3 (export_next (Some 0)) ExportCreated)
            (Fake.with_report (map Encoded [JStr "a"; JStr "b"]) (Fake.start [])))
     = Done (Some [JStr "a"; JStr "b"]).
Proof.
  assert (Hlt : (length [JStr "a"; JStr "b"] < 3)%nat) by (simpl; lia).
  split; [exact Hlt|].
  exact (proj2 (export_cap_zero_is_unlimited [JStr "a"; JStr "b"] [] 3 Hlt)).
Defined.

(** ** Draining the redo queue *)

Lemma count_calls_nil p : count_calls p [] = 0%nat.
Proof. reflexivity. Qed.

Section RedoQueue.
#[local] Existing Instance Fake.engine.


Lemma drain_redo_created fuel N w :
  drain (S fuel) (redo_next N) RedoCreated w = redo_after fuel N 0 w.
Proof. reflexivity. Qed.

Lemma drain_redo_suspended fuel N p w :
  drain (S fuel) (redo_next N) (RedoSuspended p) w = redo_after fuel N (p + 1) w.
Proof. reflexivity. Qed.

#[local] Arguments drain : simpl never.

(** With [n] the smaller of the queue length and the budget left, the
    generator yields [n] items out of [n] processing calls and [n + 1]
    fetches, and the queue has lost [n + 1] records, or all of them. *)
Lemma redo_after_counts (q : list string) : forall fuel N p s tr rs out,
  Fake.quiet s ->
  Fake.redo s = q ->
  let n := Nat.min (length q) (Z.to_nat (N - p)) in
  (n <= fuel)%nat ->
  exists items w',
    redo_after fuel N p {| engine := s; trace := tr; raised := rs; stdout := out |}
    = (Done (Some items), w')
    /\ length items = n
    /\ count_calls is_GetRedoRecord (trace w')
       = (count_calls is_GetRedoRecord tr + n + 1)%nat
    /\ count_calls is_ProcessRedoRecord (trace w')
       = (count_calls is_ProcessRedoRecord tr + n)%nat
    /\ Fake.redo (engine w') = drop (S n) q.
Proof.
  induction q as [|record q IH]; intros fuel N p s tr rs out Hq Hr n Hf.
  - unfold redo_after, redo_stretch. unfold_m. simpl.
    rewrite (FakeFacts.answer_quiet _ _ Hq). simpl. rewrite Hr. simpl.
    eexists _, _. split; [reflexivity|]. subst n. simpl.
    rewrite !count_calls_app, !count_calls_cons, !count_calls_nil. simpl.
    repeat split; try lia. assumption.
  - unfold redo_after, redo_stretch. unfold_m. simpl.
    rewrite (FakeFacts.answer_quiet _ _ Hq). simpl. rewrite Hr. simpl.
    destruct (p <? N)%Z eqn:Hp.
    + apply Z.ltb_lt in Hp.
      unfold_m. simpl.
      rewrite (FakeFacts.answer_quiet _ _ (FakeFacts.quiet_set_redo q s Hq)). simpl.
      assert (Hn : n = S (Nat.min (length q) (Z.to_nat (N - (p + 1))))).
      { subst n. simpl length.
        replace (Z.to_nat (N - p)) with (S (Z.to_nat (N - (p + 1)))) by lia.
        reflexivity. }
      destruct fuel as [|fuel]; [exfalso; lia|].
      rewrite drain_redo_suspended.
      match goal with
      | |- context [redo_after _ _ _ ?w0] =>
          destruct (IH fuel N (p + 1) (engine w0) (trace w0) (raised w0) (stdout w0))
            as (items & w' & Hrun & Hlen & Hget & Hproc & Hleft)
      end.
      * cbn [engine]. auto with quiet.
      * reflexivity.
      * lia.
      * cbn [engine trace raised stdout] in Hrun. rewrite Hrun. simpl.
        eexists _, _. split; [reflexivity|].
        rewrite Hget, Hproc, Hleft. cbn [trace].
        rewrite !count_calls_app, !count_calls_cons, !count_calls_nil. simpl. rewrite Hn.
        repeat split; try lia.
    + apply Z.ltb_ge in Hp.
      assert (Hn : n = 0%nat) by (subst n; lia).
      eexists _, _. split; [reflexivity|]. simpl.
      rewrite !count_calls_app, !count_calls_cons, !count_calls_nil. simpl. rewrite Hn. simpl.
      repeat split; try lia.
Qed.

(** C5. With a cap [N] and [A] redo records pending, draining
    [process_redo_records(max_records=N)] yields exactly [min(A, N)]
    items, each the result of one processing call. *)
Theorem redo_processes_min_of_cap_and_pending
    (N : Z) (q codes : list string) (fuel : nat)
    (Hcap : 0 <= N)
    (Hfuel : (Nat.min (length q) (Z.to_nat N) < fuel)%nat) :
  exists items w',
    run (drain fuel (redo_next N) RedoCreated) (Fake.with_redo q (Fake.start codes))
    = (Done (Some items), w')
    /\ Z.of_nat (length items) = Z.min (Z.of_nat (length q)) N
    /\ Z.of_nat (count_calls is_ProcessRedoRecord (trace w'))
       = Z.min (Z.of_nat (length q)) N.
Proof.
  destruct fuel as [|fuel]; [exfalso; lia|].
  unfold run, boot. rewrite drain_redo_created.
  destruct (redo_after_counts q fuel N 0 (Fake.with_redo q (Fake.start codes)) [] [] [])
    as (items & w' & Hrun & Hlen & Hget & Hproc & Hleft).
  - split; reflexivity.
  - reflexivity.
  - rewrite Z.sub_0_r. lia.
  - exists items, w'. split; [exact Hrun|].
    rewrite Hlen, Hproc, Z.sub_0_r. simpl. lia.
Qed.

(** C9. When more than [N] redo records are pending, the generator calls
    [GetRedoRecord] [N + 1] times: the record fetched after the [N]-th
    item is taken off the queue but neither processed nor yielded. *)
Theorem redo_fetches_one_record_past_the_cap
    (N : Z) (q codes : list string) (fuel : nat)
    (Hcap : 0 <= N)
    (Hmore : N < Z.of_nat (length q))
    (Hfuel : (Z.to_nat N < fuel)%nat) :
  exists items w',
    run (drain fuel (redo_next N) RedoCreated) (Fake.with_redo q (Fake.start codes))
    = (Done (Some items), w')
    /\ Z.of_nat (count_calls is_GetRedoRecord (trace w')) = N + 1
    /\ Z.of_nat (count_calls is_ProcessRedoRecord (trace w')) = N
    /\ Z.of_nat (length items) = N
    /\ Fake.redo (engine w') = drop (S (Z.to_nat N)) q.
Proof.
  destruct fuel as [|fuel]; [exfalso; lia|].
  unfold run, boot. rewrite drain_redo_created.
  destruct (redo_after_counts q fuel N 0 (Fake.with_redo q (Fake.start codes)) [] [] [])
    as (items & w' & Hrun & Hlen & Hget & Hproc & Hleft).
  - split; reflexivity.
  - reflexivity.
  - rewrite Z.sub_0_r. lia.
  - exists items, w'. split; [exact Hrun|].
    rewrite Z.sub_0_r in *.
    replace (Nat.min (length q) (Z.to_nat N)) with (Z.to_nat N) in * by lia.
    rewrite Hlen, Hproc, Hget, Hleft. simpl. repeat split; lia.
Qed.

End RedoQueue.

Lemma redo_processes_min_of_cap_and_pending_witness :
  0 <= 2
  /\ (Nat.min (length ["r1"; "r2"; "r3"]) (Z.to_nat 2) < 5)%nat
  /\ exists items w',
       @run Fake.engine _ (drain 5 (redo_next 2) RedoCreated)
         (Fake.with_redo ["r1"; "r2"; "r3"] (Fake.start []))
       = (Done (Some items), w')
       /\ Z.of_nat (length items) = Z.min (Z.of_nat (length ["r1"; "r2"; "r3"])) 2
       /\ Z.of_nat (count_calls is_ProcessRedoRecord (trace w'))
          = Z.min (Z.of_nat (length ["r1"; "r2"; "r3"])) 2.
Proof.
  assert (H0 : 0 <= 2) by lia.
  assert (H1 : (Nat.min (length ["r1"; "r2"; "r3"]) (Z.to_nat 2) < 5)%nat)
    by (vm_compute; lia).
  split; [exact H0|]. split; [exact H1|].
  exact (redo_processes_min_of_cap_and_pending 2 ["r1"; "r2"; "r3"] [] 5 H0 H1).
Defined.

Lemma redo_fetches_one_record_past_the_cap_witness :
  0 <= 2
  /\ 2 < Z.of_nat (length ["r1"; "r2"; "r3"; "r4"])
  /\ (Z.to_nat 2 < 5)%nat
  /\ exists items w',
       @run Fake.engine _ (drain 5 (redo_next 2) RedoCreated)
         (Fake.with_redo ["r1"; "r2"; "r3"; "r4"] (Fake.start []))
       = (Done (Some items), w')
       /\ Z.of_nat (count_calls is_GetRedoRecord (trace w')) = 2 + 1
       /\ Z.of_nat (count_calls is_ProcessRedoRecord (trace w')) = 2
       /\ Z.of_nat (length items) = 2
       /\ Fake.redo (engine w') = drop (S (Z.to_nat 2)) ["r1"; "r2"; "r3"; "r4"].
Proof.
  assert (H0 : 0 <= 2) by lia.
  assert (H1 : 2 < Z.of_nat (length ["r1"; "r2"; "r3"; "r4"])) by (simpl; lia).
  assert (H2 : (Z.to_nat 2 < 5)%nat) by (vm_compute; lia).
  split; [exact H0|]. split; [exact H1|]. split; [exact H2|].
  exact (redo_fetches_one_record_past_the_cap 2 ["r1"; "r2"; "r3"; "r4"] [] 5 H0 H1 H2).
Defined.

(** ** Configuration files that lack a required key *)

Lemma config_lookup_KeyError cfg section key e :
  config_lookup cfg section key = inl e -> exists k, e = KeyError k.
Proof.
  unfold config_lookup.
  destruct (cfg !! section) as [sec|]; [destruct (sec !! key)|];
    intros Heq; inversion Heq; eauto.
Qed.

Section MissingKeys.
Context `{Engine}.

Lemma bind_pure_l {A B : Type} (a : A) (k : A -> M B) (w : World) :
  bind (pure a) k w = k a w.
Proof. reflexivity. Qed.

Ltac settle :=
  simpl; repeat split;
  try reflexivity; try discriminate; eauto.

(** C7. A configuration file that lacks [python.dll_path] or
    [senzing.senzing_root] stops each of the three scripts with an
    uncaught exception before any engine call is made; the exception is
    the key-lookup error unless [import clr], which runs before the
    second lookup, has itself failed. *)
Theorem missing_key_fails_before_any_engine_call
    (cfg : Config) (st : St) (script : ConfigFile -> M unit)
    (Hmissing : required_keys_present cfg = false)
    (Hscript : In script scripts) :
  let r := run (script (Parsed cfg)) st in
  count_calls is_engine_call (trace (snd r)) = 0%nat
  /\ (exists e, fst r = Raised e)
  /\ (failed (is_import_of "clr") (trace (snd r)) = false ->
      exists k, fst r = Raised (KeyError k)).
Proof.
  intros r. subst r. unfold required_keys_present in Hmissing.
  destruct (run (script (Parsed cfg)) st) as [o w'] eqn:Hrun.
  unfold run, boot in Hrun.
  destruct (config_lookup cfg "python" "dll_path") as [e1|dll] eqn:Hd.
  - destruct (config_lookup_KeyError _ _ _ _ Hd) as [k ->].
    destruct Hscript as [<-|[<-|[<-|[]]]];
      unfold add_data_sources, initialize_config, senzing_python_net_example,
        load_config, set_pydll in Hrun;
      fold_m Hrun; rewrite bind_pure_l in Hrun; rewrite Hd in Hrun; follow Hrun; settle.

  - destruct (config_lookup cfg "senzing" "senzing_root") as [e2|root] eqn:Hs;
      [|discriminate].
    destruct (config_lookup_KeyError _ _ _ _ Hs) as [k ->].
    destruct Hscript as [<-|[<-|[<-|[]]]];
      unfold add_data_sources, initialize_config, senzing_python_net_example,
        add_data_sources_after_import, initialize_config_after_import,
        example_after_import,
        load_config, set_pydll, add_data_sources_set_runtime,
        initialize_config_set_runtime, example_set_runtime, main in Hrun;
      fold_m Hrun; rewrite bind_pure_l in Hrun; rewrite Hd, Hs in Hrun; follow Hrun; settle.
Qed.

End MissingKeys.

Lemma missing_key_fails_before_any_engine_call_witness :
  required_keys_present config_without_root = false
  /\ In (@add_data_sources Fake.engine) (@scripts Fake.engine)
  /\ let r := @run Fake.engine _ (add_data_sources (Parsed config_without_root))
                (Fake.start []) in
     count_calls is_engine_call (trace (snd r)) = 0%nat
     /\ (exists e, fst r = Raised e)
     /\ (failed (is_import_of "clr") (trace (snd r)) = false ->
         exists k, fst r = Raised (KeyError k)).
Proof.
  assert (H1 : required_keys_present config_without_root = false)
    by (vm_compute; reflexivity).
  assert (H2 : In (@add_data_sources Fake.engine) (@scripts Fake.engine))
    by (left; reflexivity).
  split; [exact H1|]. split; [exact H2|].
  exact (@missing_key_fails_before_any_engine_call Fake.engine
           config_without_root (Fake.start []) add_data_sources H1 H2).
Defined.

(** ** Exit codes: a small logic of script pieces *)

Lemma fatal_app T a b : fatal T (a ++ b) = fatal T a || fatal T b.
Proof. apply failed_app. Qed.

Lemma app_not_nil_l {A : Type} (a b : list A) : a <> [] -> (a ++ b)%list <> [].
Proof. destruct a; simpl; congruence. Qed.

Lemma app_not_nil_r {A : Type} (a b : list A) : b <> [] -> (a ++ b)%list <> [].
Proof. destruct a, b; simpl; congruence. Qed.

Section Logic.
Context `{Engine}.
Variable T : Call -> bool.

Lemma tolerant_sound {A : Type} (m : M A) : tolerant T m -> sound T m.
Proof.
  intros Hm w. destruct (Hm w) as (dt & dr & Ht & Hr & Hf & Ho).
  exists dt, dr. repeat split; try assumption.
  unfold verdict. destruct (fst (m w)); try assumption.
  destruct Ho as [->|[-> ?]]; auto.
Qed.

Lemma sound_pure {A : Type} (a : A) : sound T (pure a).
Proof. intros w. exists [], []. simpl. rewrite !app_nil_r. auto. Qed.

Lemma tolerant_pure {A : Type} (a : A) : tolerant T (pure a).
Proof. intros w. exists [], []. simpl. rewrite !app_nil_r. auto. Qed.

Lemma tolerant_print x : tolerant T (print x).
Proof. intros w. exists [], []. simpl. rewrite !app_nil_r. auto. Qed.

Lemma tolerant_say s : tolerant T (say s).
Proof. apply tolerant_print. Qed.

Lemma tolerant_lift {A : Type} (r : exn + A) : tolerant T (lift r).
Proof.
  intros w. destruct r as [e|a]; simpl.
  - exists [], [e]. simpl. rewrite !app_nil_r. repeat split; auto; try discriminate.
  - exists [], []. simpl. rewrite !app_nil_r. auto.
Qed.

Lemma tolerant_exit_0 {A : Type} : tolerant T (@sys_exit _ A 0).
Proof. intros w. exists [], []. simpl. rewrite !app_nil_r. auto. Qed.

Lemma tolerant_call c : T c = true -> tolerant T (call c).
Proof.
  intros Hc w. unfold call.
  destruct (respond c (engine w)) as [[e|v] st']; simpl.
  - exists [{| ev_call := c; ev_ok := false |}], [e].
    unfold fatal, failed. simpl. rewrite Hc. repeat split; auto; try discriminate.
  - exists [{| ev_call := c; ev_ok := true |}], [].
    unfold fatal, failed. simpl. rewrite !app_nil_r. auto.
Qed.

Lemma sound_call c : sound T (call c).
Proof.
  intros w. unfold call.
  destruct (respond c (engine w)) as [[e|v] st']; simpl.
  - exists [{| ev_call := c; ev_ok := false |}], [e].
    repeat split; auto; try discriminate.
  - exists [{| ev_call := c; ev_ok := true |}], [].
    unfold fatal, failed. simpl. rewrite !app_nil_r. auto.
Qed.

Lemma sound_bind {A B : Type} (m : M A) (k : A -> M B) :
  sound T m -> (forall a, sound T (k a)) -> sound T (bind m k).
Proof.
  intros Hm Hk w. destruct (Hm w) as (dt & dr & Ht & Hr & Ho).
  unfold bind. destruct (m w) as [[a|e|code] w1]; simpl in *.
  - destruct (Hk a w1) as (dt2 & dr2 & Ht2 & Hr2 & Ho2).
    exists (dt ++ dt2)%list, (dr ++ dr2)%list.
    rewrite Ht2, Hr2, Ht, Hr, !app_assoc. repeat split.
    unfold verdict in *. rewrite fatal_app, Ho. simpl.
    destruct (fst (k a w1)); auto using app_not_nil_r.
    destruct Ho2 as [[-> ?]|[-> ?]]; auto using app_not_nil_r.
  - exists dt, dr. auto.
  - exists dt, dr. auto.
Qed.

Lemma tolerant_bind {A B : Type} (m : M A) (k : A -> M B) :
  tolerant T m -> (forall a, tolerant T (k a)) -> tolerant T (bind m k).
Proof.
  intros Hm Hk w. destruct (Hm w) as (dt & dr & Ht & Hr & Hf & Ho).
  unfold bind. destruct (m w) as [[a|e|code] w1]; simpl in *.
  - destruct (Hk a w1) as (dt2 & dr2 & Ht2 & Hr2 & Hf2 & Ho2).
    exists (dt ++ dt2)%list, (dr ++ dr2)%list.
    rewrite Ht2, Hr2, Ht, Hr, !app_assoc, fatal_app, Hf, Hf2. repeat split.
    destruct (fst (k a w1)); auto using app_not_nil_r.
    destruct Ho2 as [->|[-> ?]]; auto using app_not_nil_r.
  - exists dt, dr. auto.
  - exists dt, dr. auto.
Qed.

(** A handler that lets the script go on keeps the block tolerant. *)
Lemma tolerant_try {A : Type} (m : M A) (h : exn -> M A) :
  tolerant T m -> (forall e, tolerant T (h e)) -> tolerant T (try_except m h).
Proof.
  intros Hm Hh w. destruct (Hm w) as (dt & dr & Ht & Hr & Hf & Ho).
  unfold try_except. destruct (m w) as [[a|e|code] w1]; simpl in *.
  - exists dt, dr. auto.
  - destruct (Hh e w1) as (dt2 & dr2 & Ht2 & Hr2 & Hf2 & Ho2).
    exists (dt ++ dt2)%list, (dr ++ dr2)%list.
    rewrite Ht2, Hr2, Ht, Hr, !app_assoc, fatal_app, Hf, Hf2. repeat split.
    destruct (fst (h e w1)); auto using app_not_nil_l.
    destruct Ho2 as [->|[-> ?]]; auto using app_not_nil_l.
  - exists dt, dr. auto.
Qed.

(** A handler that gives up turns every exception of the block into
    status 1 or into another exception. *)
Lemma sound_try {A : Type} (m : M A) (h : exn -> M A) :
  sound T m -> (forall e, aborting (h e)) -> sound T (try_except m h).
Proof.
  intros Hm Hh w. destruct (Hm w) as (dt & dr & Ht & Hr & Ho).
  unfold try_except. destruct (m w) as [[a|e|code] w1]; simpl in *.
  - exists dt, dr. auto.
  - destruct (Hh e w1) as (dt2 & dr2 & Ht2 & Hr2 & Ho2).
    exists (dt ++ dt2)%list, (dr ++ dr2)%list.
    rewrite Ht2, Hr2, Ht, Hr, !app_assoc. repeat split.
    unfold verdict. destruct (fst (h e w1)); try contradiction.
    + auto using app_not_nil_l.
    + subst. right. auto using app_not_nil_l.
  - exists dt, dr. auto.
Qed.

(** [finally] with [Destroy] as its clean-up, as in [cleanup]. *)
Lemma sound_finally_Destroy {A : Type} (m : M A) :
  sound T m -> sound T (finally m (call Destroy)).
Proof.
  intros Hm w. destruct (Hm w) as (dt & dr & Ht & Hr & Ho).
  unfold finally. destruct (m w) as [o w1]; simpl in *.
  unfold call. destruct (respond Destroy (engine w1)) as [[e|v] st']; simpl.
  - exists (dt ++ [{| ev_call := Destroy; ev_ok := false |}])%list, (dr ++ [e])%list.
    rewrite Ht, Hr, !app_assoc. repeat split. apply app_not_nil_r; discriminate.
  - exists (dt ++ [{| ev_call := Destroy; ev_ok := true |}])%list, dr.
    rewrite Ht, Hr, !app_assoc. repeat split.
    unfold verdict in *. rewrite fatal_app.
    replace (fatal T [{| ev_call := Destroy; ev_ok := true |}]) with false
      by reflexivity.
    rewrite !orb_false_r. exact Ho.
Qed.

Lemma sound_finally_pure {A : Type} (m : M A) u :
  sound T m -> sound T (finally m (pure u)).
Proof.
  intros Hm w. destruct (Hm w) as (dt & dr & Ht & Hr & Ho).
  unfold finally. destruct (m w) as [o w1]; simpl in *.
  exists dt, dr. auto.
Qed.

Lemma tolerant_for_each {A : Type} (xs : list A) (body : A -> M unit) :
  (forall x, tolerant T (body x)) -> tolerant T (for_each xs body).
Proof.
  intros Hb. induction xs as [|x xs IH]; simpl.
  - apply tolerant_pure.
  - apply tolerant_bind; auto.
Qed.

Lemma aborting_say_exit_1 {A : Type} s : aborting (bind (say s) (fun _ => @sys_exit _ A 1)).
Proof. intros w. exists [], []. simpl. rewrite !app_nil_r. auto. Qed.

Lemma aborting_say_destroy_exit_1 {A : Type} s :
  aborting (bind (say s) (fun _ => bind (call Destroy) (fun _ => @sys_exit _ A 1))).
Proof.
  intros w. unfold bind, say, print, call. simpl.
  destruct (respond Destroy (engine w)) as [[e|v] st']; simpl.
  - exists [{| ev_call := Destroy; ev_ok := false |}], [e]. repeat split; auto; try discriminate.
  - exists [{| ev_call := Destroy; ev_ok := true |}], []. rewrite app_nil_r. auto.
Qed.

End Logic.

Ltac prove_tolerant :=
  repeat first
    [ progress cbv beta zeta
    | apply tolerant_bind; [|intro]
    | apply tolerant_try; [|intro]
    | apply tolerant_say
    | apply tolerant_print
    | apply tolerant_lift
    | apply tolerant_pure
    | apply tolerant_exit_0
    | match goal with
      | |- tolerant ?T (call ?c) => exact (tolerant_call T c eq_refl)
      end
    | apply tolerant_for_each; intro
    | match goal with
      | |- tolerant _ (match ?x with _ => _ end) => destruct x
      | |- tolerant _ (if ?x then _ else _) => destruct x
      end ].

Ltac prove_sound :=
  repeat first
    [ progress cbv beta zeta
    | apply sound_bind; [|intro]
    | match goal with |- sound ?T (call ?c) => exact (sound_call T c) end
    | apply sound_pure
    | solve [apply tolerant_sound; prove_tolerant]
    | apply sound_try;
      [|intro; first [apply aborting_say_exit_1 | apply aborting_say_destroy_exit_1]]
    | match goal with
      | |- sound _ (match ?x with _ => _ end) => destruct x
      | |- sound _ (if ?x then _ else _) => destruct x
      end ].

Section ScriptsAreSound.
Context `{Engine}.



Lemma sound_add_data_sources_after_import CONFIG :
  sound tolerated_by_add_data_sources (add_data_sources_after_import CONFIG).
Proof.
  unfold add_data_sources_after_import,
    add_data_sources_try, register_each, top_level_handler,
    mbind, M_bind, mret, M_ret.
  prove_sound.
Qed.


Lemma sound_initialize_config_after_import CONFIG :
  sound tolerated_by_initialize_config (initialize_config_after_import CONFIG).
Proof.
  unfold initialize_config_after_import,
    initialize_config_try, top_level_handler,
    mbind, M_bind, mret, M_ret.
  prove_sound.
Qed.


Lemma sound_ext T {A : Type} (m m' : M A) :
  (forall w, m w = m' w) -> sound T m' -> sound T m.
Proof. intros Heq Hm w. rewrite Heq. apply Hm. Qed.

Lemma sound_with_SenzingClient sdk_path settings :
  sound tolerated_by_example
    (with_SenzingClient sdk_path settings main_with_body).
Proof.
  unfold with_SenzingClient, SenzingClient_init, mbind, M_bind, mret, M_ret.
  prove_sound.
  unfold cleanup, mret, M_ret.
  assert (Hbody : forall client, sound tolerated_by_example (main_with_body client)).
  { intros client.
    unfold main_with_body, why_how_analysis, get_version, add_record,
      get_entity_by_record, search_by_attributes, get_record, delete_record,
      why_entities, how_entity, mbind, M_bind, mret, M_ret.
    prove_sound. }
  match goal with
  | client : SenzingClient |- _ => destruct client as [[env|]]
  end; cbn [client_env].
  - apply sound_finally_Destroy, Hbody.
  - apply sound_finally_pure, Hbody.
Qed.

(** The [try] statement of [main], followed by [sys.exit] of the status
    it produces. *)
Lemma sound_main_try_then_exit root :
  sound tolerated_by_example
    (bind
       (try_except
          (bind (with_SenzingClient (dotnet_sdk_path (paths_of root))
                   (settings_of (paths_of root)) main_with_body)
             (fun _ => pure 0))
          (fun e => bind (say ("✗ Error: " ++ exn_msg e)) (fun _ => pure 1)))
       (fun status => @sys_exit _ unit status)).
Proof.
  intros w.
  destruct (sound_with_SenzingClient (dotnet_sdk_path (paths_of root))
              (settings_of (paths_of root)) w) as (dt & dr & Ht & Hr & Ho).
  unfold bind, try_except.
  destruct (with_SenzingClient _ _ _ w) as [[u|e|code] w1]; simpl in *.
  - exists dt, dr. auto.
  - exists dt, dr. rewrite Ht, Hr. auto.
  - exists dt, dr. auto.
Qed.

(** [sys.exit(main())]. *)
Lemma sound_example_after_import CONFIG :
  sound tolerated_by_example (example_after_import CONFIG).
Proof.
  set (guarded := fun root : string =>
         bind (say banner) (fun _ =>
         bind (say "Senzing C# SDK via Python.NET - Example") (fun _ =>
         bind (say banner) (fun _ =>
         bind (say "") (fun _ =>
         bind
           (try_except
              (bind (with_SenzingClient (dotnet_sdk_path (paths_of root))
                       (settings_of (paths_of root)) main_with_body)
                 (fun _ => pure 0))
              (fun e => bind (say ("✗ Error: " ++ exn_msg e)) (fun _ => pure 1)))
           (fun status => @sys_exit _ unit status)))))).
  apply (sound_ext _ _
           (bind (lift (config_lookup CONFIG "senzing" "senzing_root")) guarded)).
  - intros w. unfold example_after_import, main, guarded, mbind, M_bind, mret, M_ret.
    destruct (config_lookup CONFIG "senzing" "senzing_root"); reflexivity.
  - apply sound_bind; [apply tolerant_sound, tolerant_lift|].
    intros root. unfold guarded.
    repeat (apply sound_bind; [apply tolerant_sound, tolerant_say | intro]).
    apply sound_main_try_then_exit.
Qed.



End ScriptsAreSound.


(** ** Runtime selection *)
Section RuntimeSelection.
Context `{Engine}.

Ltac ask :=
  match goal with
  | |- context [respond ?c ?s] =>
      let E := fresh "E" in
      destruct (respond c s) as [[?e|?v] ?st] eqn:E; simpl
  end.

Lemma add_data_sources_set_runtime_silent (w : World) :
  fst (add_data_sources_set_runtime w) = Done tt
  /\ stdout (snd (add_data_sources_set_runtime w)) = stdout w.
Proof.
  unfold add_data_sources_set_runtime. unfold_m. simpl.
  repeat ask; auto; destruct v2; auto.
Qed.

Lemma example_set_runtime_silent (w : World) :
  fst (example_set_runtime w) = Done tt
  /\ stdout (snd (example_set_runtime w)) = stdout w.
Proof. apply add_data_sources_set_runtime_silent. Qed.

Lemma initialize_config_set_runtime_notes (w : World) :
  let r := initialize_config_set_runtime w in
  fst r = Done tt
  /\ ((raised (snd r) = raised w
       /\ stdout (snd r) = (stdout w ++ [runtime_selected_note])%list)
      \/ (exists e, raised (snd r) = (raised w ++ [e])%list
                    /\ stdout (snd r) = (stdout w ++ [fallback_note e])%list)).
Proof.
  unfold initialize_config_set_runtime. unfold_m. simpl.
  repeat ask; split; eauto.
Qed.

(** Once the runtime-selection block has completed, [import clr] is the
    next call, whatever the rest of the script then does. *)
Lemma import_clr_follows T (set_runtime rest : M unit) (w : World) :
  (forall w, fst (set_runtime w) = Done tt) ->
  sound T rest ->
  (1 <= count_calls (is_import_of "clr")
          (trace (snd (bind set_runtime
                         (fun _ => bind (call (Import "clr")) (fun _ => rest)) w))))%nat.
Proof.
  intros Hdone Hrest. unfold bind at 1.
  specialize (Hdone w). destruct (set_runtime w) as [o w1]. simpl in Hdone. subst o.
  unfold bind, call.
  destruct (respond (Import "clr") (engine w1)) as [[e|v] st']; simpl.
  - rewrite count_calls_app, count_calls_cons. simpl. lia.
  - match goal with
    | |- context [rest ?w2] => destruct (Hrest w2) as (dt & dr & Ht & _)
    end.
    rewrite Ht. simpl. rewrite !count_calls_app, count_calls_cons. simpl. lia.
Qed.

(** With [python.dll_path] present, loading the configuration and setting
    the variable leave the world as it was. *)
Lemma after_set_pydll cfg dll (k : Config -> M unit) (w : World) :
  config_lookup cfg "python" "dll_path" = inr dll ->
  bind (load_config (Parsed cfg))
    (fun CONFIG => bind (set_pydll CONFIG) (fun _ => k CONFIG)) w
  = k cfg w.
Proof.
  intros Hdll.
  unfold load_config, set_pydll, mbind, M_bind, mret, M_ret, bind, pure.
  cbv beta iota. rewrite Hdll. reflexivity.
Qed.

(** C6, as amended. In every script a failure while selecting the runtime
    is caught and the script goes on to [import clr] with the default
    runtime.  initialize_config.py prints a note about the fallback;
    add_data_sources.py and the example script print nothing. *)
Theorem runtime_fallback_is_not_fatal
    (cfg : Config) (dll : string) (st : St) (w : World)
    (Hdll : config_lookup cfg "python" "dll_path" = inr dll) :
  (fst (add_data_sources_set_runtime w) = Done tt
   /\ fst (initialize_config_set_runtime w) = Done tt
   /\ fst (example_set_runtime w) = Done tt)
  /\ (stdout (snd (add_data_sources_set_runtime w)) = stdout w
      /\ stdout (snd (example_set_runtime w)) = stdout w)
  /\ (let r := initialize_config_set_runtime w in
      (raised (snd r) = raised w
       /\ stdout (snd r) = (stdout w ++ [runtime_selected_note])%list)
      \/ (exists e, raised (snd r) = (raised w ++ [e])%list
                    /\ stdout (snd r) = (stdout w ++ [fallback_note e])%list))
  /\ (forall script, In script scripts ->
      (1 <= count_calls (is_import_of "clr")
              (trace (snd (run (script (Parsed cfg)) st))))%nat).
Proof.
  repeat split.
  - apply add_data_sources_set_runtime_silent.
  - apply initialize_config_set_runtime_notes.
  - apply example_set_runtime_silent.
  - apply add_data_sources_set_runtime_silent.
  - apply example_set_runtime_silent.
  - apply initialize_config_set_runtime_notes.
  - intros script [<-|[<-|[<-|[]]]]; unfold run.
    + unfold add_data_sources, mbind, M_bind.
      rewrite (after_set_pydll cfg dll
                 (fun CONFIG => bind add_data_sources_set_runtime
                    (fun _ => bind (call (Import "clr"))
                       (fun _ => add_data_sources_after_import CONFIG)))
                 _ Hdll).
      apply (import_clr_follows tolerated_by_add_data_sources).
      * apply add_data_sources_set_runtime_silent.
      * apply sound_add_data_sources_after_import.
    + unfold initialize_config, mbind, M_bind.
      rewrite (after_set_pydll cfg dll
                 (fun CONFIG => bind initialize_config_set_runtime
                    (fun _ => bind (call (Import "clr"))
                       (fun _ => initialize_config_after_import CONFIG)))
                 _ Hdll).
      apply (import_clr_follows tolerated_by_initialize_config).
      * apply initialize_config_set_runtime_notes.
      * apply sound_initialize_config_after_import.
    + unfold senzing_python_net_example, mbind, M_bind.
      rewrite (after_set_pydll cfg dll
                 (fun CONFIG => bind example_set_runtime
                    (fun _ => bind (call (Import "clr"))
                       (fun _ => example_after_import CONFIG)))
                 _ Hdll).
      apply (import_clr_follows tolerated_by_example).
      * apply example_set_runtime_silent.
      * apply sound_example_after_import.
Qed.

End RuntimeSelection.

Lemma runtime_fallback_is_not_fatal_witness :
  config_lookup sample_config "python" "dll_path" = inr "C:/Python312/python312.dll"
  /\ (1 <= count_calls (is_import_of "clr")
            (trace (snd (@run Fake.engine _ (initialize_config (Parsed sample_config))
                           netfx_unavailable))))%nat.
Proof.
  assert (Hdll : config_lookup sample_config "python" "dll_path"
                 = inr "C:/Python312/python312.dll") by (vm_compute; reflexivity).
  split; [exact Hdll|].
  destruct (@runtime_fallback_is_not_fatal Fake.engine sample_config
              "C:/Python312/python312.dll"
              (netfx_unavailable : @St Fake.engine)
              (@boot Fake.engine netfx_unavailable) Hdll)
    as (_ & _ & _ & Hreached).
  apply Hreached. right. left. reflexivity.
Defined.

(** C6, as the spec words it, fails for add_data_sources.py: the lookup of
    the runtime raises, the handler of lines 32-33 is [pass], and nothing
    is printed. *)
Lemma add_data_sources_prints_no_fallback_note :
  ~ @notes_runtime_fallback Fake.engine add_data_sources_set_runtime netfx_unavailable.
Proof.
  unfold notes_runtime_fallback. intros Hclaim.
  assert (Hfailed : failed is_runtime_selection
            (trace (snd (@run Fake.engine _ add_data_sources_set_runtime
                           netfx_unavailable))) = true)
    by (vm_compute; reflexivity).
  destruct (Hclaim Hfailed) as [_ Hprinted].
  apply Hprinted. vm_compute. reflexivity.
Qed.

(** ** Running a script step by step *)
Section Stepping.
Context `{Engine}.

Lemma via_holds {A : Type} (P : Outcome A * World -> Prop) (m : M A) (w : World) :
  via m (fun a w' => P (Done a, w')) (fun e w' => P (Raised e, w'))
    (fun code w' => P (Exited code, w')) w ->
  P (m w).
Proof. unfold via. destruct (m w) as [[a|e|code] w']; auto. Qed.

Context {R : Type}.
Implicit Types (kr : exn -> World -> R) (ke : Z -> World -> R).

Lemma via_start {A : Type} (m : M A) (w : World) :
  m w = via m (fun a w' => (Done a, w')) (fun e w' => (Raised e, w'))
          (fun code w' => (Exited code, w')) w.
Proof. unfold via. destruct (m w) as [[a|e|code] w']; reflexivity. Qed.

Lemma via_bind {A B : Type} (m : M A) (k : A -> M B) (kd : B -> World -> R) kr ke w :
  via (bind m k) kd kr ke w = via m (fun a => via (k a) kd kr ke) kr ke w.
Proof. unfold via, bind. destruct (m w) as [[a|e|code] w']; reflexivity. Qed.

Lemma via_try {A : Type} (m : M A) (h : exn -> M A) (kd : A -> World -> R) kr ke w :
  via (try_except m h) kd kr ke w = via m kd (fun e => via (h e) kd kr ke) ke w.
Proof. unfold via, try_except. destruct (m w) as [[a|e|code] w']; reflexivity. Qed.

Lemma via_pure {A : Type} (a : A) (kd : A -> World -> R) kr ke w :
  via (pure a) kd kr ke w = kd a w.
Proof. reflexivity. Qed.

Lemma via_print x (kd : unit -> World -> R) kr ke w :
  via (print x) kd kr ke w
  = kd tt {| engine := engine w; trace := trace w; raised := raised w;
             stdout := stdout w ++ [x] |}.
Proof. reflexivity. Qed.

Lemma via_exit {A : Type} code (kd : A -> World -> R) kr ke w :
  via (sys_exit code) kd kr ke w = ke code w.
Proof. reflexivity. Qed.

Lemma via_lift_ok {A : Type} (r : exn + A) a (kd : A -> World -> R) kr ke w :
  r = inr a -> via (lift r) kd kr ke w = kd a w.
Proof. intros ->. reflexivity. Qed.

Lemma via_lift_raise {A : Type} (r : exn + A) e (kd : A -> World -> R) kr ke w :
  r = inl e ->
  via (lift r) kd kr ke w
  = kr e {| engine := engine w; trace := trace w; raised := raised w ++ [e];
            stdout := stdout w |}.
Proof. intros ->. reflexivity. Qed.

Lemma via_call_ok c v st' (kd : ret c -> World -> R) kr ke w :
  respond c (engine w) = (inr v, st') ->
  via (call c) kd kr ke w
  = kd v {| engine := st';
            trace := trace w ++ [{| ev_call := c; ev_ok := true |}];
            raised := raised w; stdout := stdout w |}.
Proof. intros Hr. unfold via, call. rewrite Hr. reflexivity. Qed.

Lemma via_call_raise c e st' (kd : ret c -> World -> R) kr ke w :
  respond c (engine w) = (inl e, st') ->
  via (call c) kd kr ke w
  = kr e {| engine := st';
            trace := trace w ++ [{| ev_call := c; ev_ok := false |}];
            raised := raised w ++ [e]; stdout := stdout w |}.
Proof. intros Hr. unfold via, call. rewrite Hr. reflexivity. Qed.

End Stepping.

(** One step of a run written with [via]; [answer] proves what the
    engine or a pure operation answers. *)
Ltac step_head answer m kd kr ke w :=
  lazymatch m with
  | bind _ _ => rewrite via_bind
  | try_except _ _ => rewrite via_try
  | pure _ => rewrite via_pure
  | print _ => rewrite via_print; cbn [engine trace raised stdout]
  | sys_exit _ => rewrite via_exit
  | lift _ =>
      first [ erewrite via_lift_ok by answer
            | erewrite via_lift_raise by answer ];
      cbn [engine trace raised stdout]
  | call ?c =>
      change (via (call c) kd kr ke w) with (@via _ (ret c) _ (call c) kd kr ke w);
      first [ erewrite (via_call_ok c _ _ kd kr ke w) by answer
            | erewrite (via_call_raise c _ _ kd kr ke w) by answer ];
      cbn [engine trace raised stdout]
  end.

Ltac step_via answer :=
  cbv beta zeta;
  lazymatch goal with
  | |- via ?m ?kd ?kr ?ke ?w = _ => step_head answer m kd kr ke w
  | |- via ?m ?kd ?kr ?ke ?w => step_head answer m kd kr ke w
  end.

Section Registration.
#[local] Existing Instance Fake.engine.

Lemma collect_codes_registry codes : forall acc,
  collect_codes (map (fun code => JObj [ ("DSRC_CODE", JStr code) ]) codes) acc
  = inr (list_to_set codes ∪ acc).
Proof.
  induction codes as [|c codes IH]; intros acc; simpl.
  - f_equal. apply leibniz_equiv. rewrite (left_id ∅ (∪)). reflexivity.
  - rewrite IH. f_equal. apply leibniz_equiv.
    rewrite (assoc (∪)), (comm (∪) (list_to_set codes) {[c]}). reflexivity.
Qed.

Lemma existing_of_registry_doc codes :
  existing_data_sources (Fake.registry_doc codes) = inr (list_to_set codes).
Proof.
  unfold existing_data_sources, Fake.registry_doc. simpl.
  rewrite collect_codes_registry. f_equal. apply leibniz_equiv.
  rewrite (right_id ∅ (∪)). reflexivity.
Qed.

Lemma mapM_code_of codes :
  mapM Fake.code_of (map (fun code => JObj [ ("DSRC_CODE", JStr code) ]) codes)
  = Some codes.
Proof.
  induction codes as [|c codes IH]; [reflexivity|].
  cbn [map mapM]. rewrite IH. reflexivity.
Qed.

Lemma codes_of_registry_doc codes :
  Fake.codes_of_doc (Encoded (Fake.registry_doc codes)) = Some codes.
Proof. apply mapM_code_of. Qed.

#[local] Arguments Fake.registry_doc : simpl never.
#[local] Arguments Fake.codes_of_doc : simpl never.
#[local] Arguments existing_data_sources : simpl never.
#[local] Arguments missing_data_sources : simpl never.

Ltac not_listed :=
  rewrite ?elem_of_app, ?list_elem_of_singleton; intuition congruence.

Ltac answer :=
  first
    [ eassumption
    | cbn;
      rewrite ?lookup_singleton_eq, ?lookup_insert_eq;
      rewrite ?existing_of_registry_doc, ?codes_of_registry_doc;
      rewrite ?bool_decide_eq_false_2 by not_listed;
      rewrite ?bool_decide_eq_true_2 by assumption;
      cbn;
      reflexivity ].

Ltac run_to_end :=
  repeat (step_via ltac:(answer)).

(** Evaluate the run of add_data_sources.py in the goal, knowing which
    codes are missing. *)
Ltac evaluate Hmiss :=
  match goal with
  | |- context [run ?m ?s] =>
      let r := fresh "r" in
      let Hrun := fresh "Hrun" in
      evar (r : (Outcome unit * World)%type);
      assert (Hrun : run m s = r);
      [ unfold run, boot; rewrite via_start;
        unfold add_data_sources, add_data_sources_after_import, load_config,
          set_pydll, add_data_sources_set_runtime, add_data_sources_try,
          top_level_handler, register_each;
        unfold mbind, M_bind, mret, M_ret, say;
        run_to_end; rewrite Hmiss; cbn [for_each]; run_to_end;
        subst r; reflexivity
      | subst r; rewrite Hrun; clear Hrun ]
  end.

Lemma required_keys cfg :
  required_keys_present cfg = true ->
  exists dll root,
    config_lookup cfg "python" "dll_path" = inr dll
    /\ config_lookup cfg "senzing" "senzing_root" = inr root.
Proof.
  unfold required_keys_present.
  destruct (config_lookup cfg "python" "dll_path") as [|dll]; [discriminate|].
  destruct (config_lookup cfg "senzing" "senzing_root") as [|root]; [discriminate|].
  eauto.
Qed.

Lemma missing_cases (existing : gset string) :
  missing_data_sources existing wanted_data_sources
  = ((if bool_decide ("CUSTOMERS" ∈ existing) then [] else ["CUSTOMERS"])
     ++ (if bool_decide ("EMPLOYEES" ∈ existing) then [] else ["EMPLOYEES"]))%list.
Proof.
  unfold missing_data_sources, wanted_data_sources. simpl.
  destruct (bool_decide ("CUSTOMERS" ∈ existing)),
           (bool_decide ("EMPLOYEES" ∈ existing)); reflexivity.
Qed.

Ltac tally :=
  cbn [fst snd trace engine exit_code];
  rewrite ?count_calls_app, ?count_calls_cons, ?count_calls_nil;
  cbn [ev_call is_RegisterDataSource is_registration_of length Nat.add].

(** C1. Running add_data_sources.py against a registry holding [codes]
    issues one [RegisterDataSource] call for each wanted code that is not
    yet registered and none for a code that is, and leaves as default a
    configuration whose registry is the union of the old registry and the
    new codes. *)
Theorem data_source_registration_is_idempotent
    (cfg : Config) (codes : list string)
    (Hcfg : required_keys_present cfg = true) :
  let existing : gset string := list_to_set codes in
  let new := missing_data_sources existing wanted_data_sources in
  let r := run (add_data_sources (Parsed cfg)) (Fake.start codes) in
  let final := engine (snd r) in
  count_calls is_RegisterDataSource (trace (snd r)) = length new
  /\ (forall code, code ∈ existing ->
      count_calls (is_registration_of code) (trace (snd r)) = 0%nat)
  /\ (forall code, code ∈ new ->
      count_calls (is_registration_of code) (trace (snd r)) = 1%nat)
  /\ exit_code (fst r) = 0
  /\ exists registry,
       Fake.configs final !! Fake.default_id final = Some registry
       /\ (list_to_set registry : gset string) = existing ∪ list_to_set new.
Proof.
  intros existing new r final. subst final r new existing.
  destruct (required_keys cfg Hcfg) as (dll & root & Hdll & Hroot).
  assert (Hmiss := missing_cases (list_to_set codes)).
  assert (Hin : forall c, c ∈ (list_to_set codes : gset string) <-> c ∈ codes)
    by (intros c; apply elem_of_list_to_set).
  assert (Hnot : forall c code, c ∉ codes -> code ∈ (list_to_set codes : gset string) ->
                   (c =? code)%string = false).
  { intros c code Hc Hcode. apply String.eqb_neq. intros ->.
    apply Hc, Hin, Hcode. }
  destruct (decide ("CUSTOMERS" ∈ codes)) as [Hc|Hc];
    destruct (decide ("EMPLOYEES" ∈ codes)) as [He|He].
  - rewrite !bool_decide_eq_true_2 in Hmiss by (apply Hin; assumption).
    simpl in Hmiss. evaluate Hmiss. rewrite Hmiss.
    split; [|split; [|split; [|split]]].
    + tally. reflexivity.
    + intros code Hcode. tally. reflexivity.
    + intros code Hcode. inversion Hcode.
    + reflexivity.
    + exists codes. split.
      * cbn. apply lookup_singleton_eq.
      * simpl. rewrite (right_id_L ∅ (∪)). reflexivity.
  - rewrite bool_decide_eq_true_2, bool_decide_eq_false_2 in Hmiss
      by (rewrite Hin; assumption).
    simpl in Hmiss. evaluate Hmiss. rewrite Hmiss.
    split; [|split; [|split; [|split]]].
    + tally. reflexivity.
    + intros code Hcode. tally. rewrite (Hnot _ _ He Hcode). reflexivity.
    + intros code Hcode. apply list_elem_of_singleton in Hcode. subst code.
      tally. reflexivity.
    + reflexivity.
    + eexists. split.
      * cbn. apply lookup_insert_eq.
      * rewrite list_to_set_app_L. reflexivity.
  - rewrite bool_decide_eq_false_2, bool_decide_eq_true_2 in Hmiss
      by (rewrite Hin; assumption).
    simpl in Hmiss. evaluate Hmiss. rewrite Hmiss.
    split; [|split; [|split; [|split]]].
    + tally. reflexivity.
    + intros code Hcode. tally. rewrite (Hnot _ _ Hc Hcode). reflexivity.
    + intros code Hcode. apply list_elem_of_singleton in Hcode. subst code.
      tally. reflexivity.
    + reflexivity.
    + eexists. split.
      * cbn. apply lookup_insert_eq.
      * rewrite list_to_set_app_L. reflexivity.
  - rewrite !bool_decide_eq_false_2 in Hmiss by (rewrite Hin; assumption).
    simpl in Hmiss. evaluate Hmiss. rewrite Hmiss.
    split; [|split; [|split; [|split]]].
    + tally. reflexivity.
    + intros code Hcode. tally.
      rewrite (Hnot _ _ Hc Hcode), (Hnot _ _ He Hcode). reflexivity.
    + intros code Hcode.
      apply elem_of_cons in Hcode as [->|Hcode];
        [|apply list_elem_of_singleton in Hcode; subst code];
        tally; reflexivity.
    + reflexivity.
    + eexists. split.
      * cbn. apply lookup_insert_eq.
      * rewrite <- app_assoc, list_to_set_app_L. reflexivity.
Qed.

End Registration.

Lemma data_source_registration_is_idempotent_witness :
  required_keys_present sample_config = true
  /\ let r := @run Fake.engine _ (add_data_sources (Parsed sample_config))
                (Fake.start ["TEST"; "EMPLOYEES"]) in
     count_calls is_RegisterDataSource (trace (snd r))
     = length (missing_data_sources (list_to_set ["TEST"; "EMPLOYEES"])
                 wanted_data_sources)
     /\ exit_code (fst r) = 0.
Proof.
  assert (Hcfg : required_keys_present sample_config = true)
    by (vm_compute; reflexivity).
  split; [exact Hcfg|].
  destruct (data_source_registration_is_idempotent sample_config
              ["TEST"; "EMPLOYEES"] Hcfg) as (Hcount & _ & _ & Hexit & _).
  split; [exact Hcount | exact Hexit].
Defined.

(** ** Replacing the default configuration under a concurrent writer *)
Section CompareAndSwap.
#[local] Existing Instance Fake.engine.

#[local] Arguments Fake.registry_doc : simpl never.
#[local] Arguments Fake.codes_of_doc : simpl never.
#[local] Arguments existing_data_sources : simpl never.
#[local] Arguments missing_data_sources : simpl never.

Ltac not_listed :=
  rewrite ?elem_of_app, ?list_elem_of_singleton; intuition congruence.

(** Engine states are kept as record literals from one call to the next. *)
Ltac flatten :=
  cbv [Fake.set_rival Fake.set_default Fake.set_working Fake.add_config
       Fake.with_rival Fake.start Fake.default_id Fake.configs Fake.next_id
       Fake.working Fake.rival Fake.broken Fake.report Fake.next_handle
       Fake.cursor Fake.redo].

Ltac answer :=
  first
    [ eassumption
    | cbn; flatten;
      rewrite ?lookup_singleton_eq, ?lookup_insert_eq;
      rewrite ?existing_of_registry_doc, ?codes_of_registry_doc;
      rewrite ?bool_decide_eq_false_2 by not_listed;
      rewrite ?bool_decide_eq_true_2 by assumption;
      repeat match goal with
             | Hz : (_ =? _)%Z = false |- _ => rewrite Hz
             end;
      cbn;
      reflexivity ].

Ltac run_on :=
  repeat (step_via ltac:(answer)).

Ltac go Hmiss :=
  repeat first [ step_via ltac:(answer) | rewrite Hmiss; cbn [for_each] ].

Ltac settle :=
  cbv beta; cbn [fst snd trace engine exit_code];
  split; [|split; [|split]]; reflexivity.



End CompareAndSwap.


(** ** Running a script against an arbitrary engine

    Against an engine that is not known, a run is followed along every
    answer the engine can give: each call either returns or raises. *)

Lemma succeeded_app p a b : succeeded p (a ++ b) = succeeded p a || succeeded p b.
Proof. unfold succeeded. apply existsb_app. Qed.

(** Calls that lie outside [p] leave no mark on what is counted by [p]. *)
Lemma calls_outside (allowed p : Call -> bool) (dt : list Event) :
  (forall c, allowed c = true -> p c = false) ->
  Forall (fun ev => allowed (ev_call ev) = true) dt ->
  count_calls p dt = 0%nat /\ succeeded p dt = false /\ failed p dt = false.
Proof.
  intros Hout Hdt. induction Hdt as [|ev dt Hev _ IH].
  - repeat split.
  - destruct IH as (Hc & Hs & Hf).
    rewrite count_calls_cons. unfold succeeded, failed in *. simpl.
    rewrite (Hout _ Hev), Hc, Hs, Hf, !andb_false_r. repeat split.
Qed.

Section Symbolic.
Context `{Engine}.

Lemma via_raise {A R : Type} (e : exn) (kd : A -> World -> R) kr ke w :
  via (raise e) kd kr ke w
  = kr e {| engine := engine w; trace := trace w; raised := raised w ++ [e];
            stdout := stdout w |}.
Proof. reflexivity. Qed.

Lemma via_finally {A R : Type} (m : M A) (cleanup : M unit)
    (kd : A -> World -> R) kr ke w :
  via (finally m cleanup) kd kr ke w
  = via m (fun a => via cleanup (fun _ => kd a) kr ke)
          (fun e => via cleanup (fun _ => kr e) kr ke)
          (fun code => via cleanup (fun _ => ke code) kr ke) w.
Proof.
  unfold via, finally. destruct (m w) as [[a|e|code] w'];
    destruct (cleanup w') as [[[]|e'|code'] w'']; reflexivity.
Qed.

Lemma via_bind_then {A B : Type} (m : M A) (k : A -> M B)
    (kd : B -> World -> Prop) kr ke w :
  via m (fun a => via (k a) kd kr ke) kr ke w -> via (bind m k) kd kr ke w.
Proof. rewrite via_bind. auto. Qed.

Lemma via_try_then {A : Type} (m : M A) (h : exn -> M A)
    (kd : A -> World -> Prop) kr ke w :
  via m kd (fun e => via (h e) kd kr ke) ke w -> via (try_except m h) kd kr ke w.
Proof. rewrite via_try. auto. Qed.

Lemma via_finally_then {A : Type} (m : M A) (cleanup : M unit)
    (kd : A -> World -> Prop) kr ke w :
  via m (fun a => via cleanup (fun _ => kd a) kr ke)
        (fun e => via cleanup (fun _ => kr e) kr ke)
        (fun code => via cleanup (fun _ => ke code) kr ke) w ->
  via (finally m cleanup) kd kr ke w.
Proof. rewrite via_finally. auto. Qed.

Lemma via_pure_then {A : Type} (a : A) (kd : A -> World -> Prop) kr ke w :
  kd a w -> via (pure a) kd kr ke w.
Proof. auto. Qed.

Lemma via_print_then x (kd : unit -> World -> Prop) kr ke w :
  kd tt {| engine := engine w; trace := trace w; raised := raised w;
           stdout := stdout w ++ [x] |} ->
  via (print x) kd kr ke w.
Proof. auto. Qed.

Lemma via_exit_then {A : Type} code (kd : A -> World -> Prop) kr ke w :
  ke code w -> via (sys_exit code) kd kr ke w.
Proof. auto. Qed.

Lemma via_raise_then {A : Type} (e : exn) (kd : A -> World -> Prop) kr ke w :
  kr e {| engine := engine w; trace := trace w; raised := raised w ++ [e];
          stdout := stdout w |} ->
  via (raise e) kd kr ke w.
Proof. auto. Qed.

Lemma via_call_cases c (kd : ret c -> World -> Prop) kr ke w :
  (forall v st', respond c (engine w) = (inr v, st') ->
     kd v {| engine := st';
             trace := trace w ++ [{| ev_call := c; ev_ok := true |}];
             raised := raised w; stdout := stdout w |}) ->
  (forall e st', respond c (engine w) = (inl e, st') ->
     kr e {| engine := st';
             trace := trace w ++ [{| ev_call := c; ev_ok := false |}];
             raised := raised w ++ [e]; stdout := stdout w |}) ->
  via (call c) kd kr ke w.
Proof.
  intros Hok Hko. unfold via, call.
  destruct (respond c (engine w)) as [[e|v] st'] eqn:E; auto.
Qed.

Lemma via_lift_cases {A : Type} (r : exn + A) (kd : A -> World -> Prop) kr ke w :
  (forall a, r = inr a -> kd a w) ->
  (forall e, r = inl e ->
     kr e {| engine := engine w; trace := trace w; raised := raised w ++ [e];
             stdout := stdout w |}) ->
  via (lift r) kd kr ke w.
Proof.
  intros Hok Hko. destruct r as [e|a].
  - apply (Hko e eq_refl).
  - apply (Hok a eq_refl).
Qed.

Lemma via_over {A : Type} allowed (m : M A) (kd : A -> World -> Prop) kr ke w :
  steps_over allowed m ->
  (forall a w' dt,
     trace w' = (trace w ++ dt)%list ->
     Forall (fun ev => allowed (ev_call ev) = true) dt ->
     kd a w') ->
  via m kd kr ke w.
Proof.
  intros Hm Hk. destruct (Hm w) as (a & w' & dt & Hrun & Ht & Hdt).
  unfold via. rewrite Hrun. eauto.
Qed.

End Symbolic.

(** One step of a run against an arbitrary engine; [block] steps over the
    blocks it knows. *)
Ltac sym_head block m :=
  first
    [ block m
    | lazymatch m with
      | bind _ _ => apply via_bind_then
      | try_except _ _ => apply via_try_then
      | finally _ _ => apply via_finally_then
      | pure _ => apply via_pure_then
      | print _ => apply via_print_then; cbn [engine trace raised stdout]
      | sys_exit _ => apply via_exit_then
      | raise _ => apply via_raise_then; cbn [engine trace raised stdout]
      | lift _ =>
          apply via_lift_cases; [intros ? ? | intros ? ?];
          cbn [engine trace raised stdout]
      | call ?c =>
          apply (via_call_cases c); [intros ? ? ? | intros ? ? ?];
          cbn [engine trace raised stdout]
      | match ?x with _ => _ end => destruct x eqn:?
      end ].

Ltac sym_step block :=
  cbv beta zeta;
  lazymatch goal with
  | |- via ?m _ _ _ _ => sym_head block m
  end.

Ltac no_block m := fail.

(** The end of a block proof: the block completed, and [dt] is what it
    added to the trace. *)
Ltac block_done :=
  cbv beta; eexists _, _, _;
  split; [reflexivity|];
  cbn [trace];
  split;
  [ first [ symmetry; apply app_nil_r | rewrite <- ?app_assoc; reflexivity ]
  | simpl; repeat constructor ].

Section Blocks.
Context `{Engine}.

Lemma add_data_sources_set_runtime_steps_over :
  steps_over is_runtime_selection add_data_sources_set_runtime.
Proof.
  intros w.
  apply (via_holds (fun r => exists a w' dt,
           r = (Done a, w') /\ trace w' = (trace w ++ dt)%list
           /\ Forall (fun ev => is_runtime_selection (ev_call ev) = true) dt)).
  unfold add_data_sources_set_runtime, mbind, M_bind, mret, M_ret.
  repeat sym_step ltac:(fun m => no_block m); block_done.
Qed.

Lemma example_set_runtime_steps_over :
  steps_over is_runtime_selection example_set_runtime.
Proof. apply add_data_sources_set_runtime_steps_over. Qed.

Lemma initialize_config_set_runtime_steps_over :
  steps_over is_runtime_selection initialize_config_set_runtime.
Proof.
  intros w.
  apply (via_holds (fun r => exists a w' dt,
           r = (Done a, w') /\ trace w' = (trace w ++ dt)%list
           /\ Forall (fun ev => is_runtime_selection (ev_call ev) = true) dt)).
  unfold initialize_config_set_runtime, mbind, M_bind, mret, M_ret, say.
  repeat sym_step ltac:(fun m => no_block m); block_done.
Qed.

Lemma register_each_steps_over (data_sources_to_add : list string) :
  steps_over is_RegisterDataSource (register_each data_sources_to_add).
Proof.
  induction data_sources_to_add as [|ds_code rest IH]; intros w.
  - exists tt, w, []. rewrite app_nil_r. repeat split. constructor.
  - unfold register_each. cbn [for_each]. fold (register_each rest).
    apply (via_holds (fun r => exists a w' dt,
             r = (Done a, w') /\ trace w' = (trace w ++ dt)%list
             /\ Forall (fun ev => is_RegisterDataSource (ev_call ev) = true) dt)).
    unfold mbind, M_bind, mret, M_ret, say.
    repeat sym_step ltac:(fun m =>
      lazymatch m with
      | register_each _ =>
          apply (via_over is_RegisterDataSource _ _ _ _ _ IH); intros ? ? ? ? ?
      end);
    cbv beta; eexists _, _, _; (split; [reflexivity|]);
    match goal with
    | Ht : trace _ = _ |- _ => cbn [trace] in Ht; rewrite Ht
    end;
    (split; [rewrite <- ?app_assoc; reflexivity|]);
    simpl; (constructor; [reflexivity | assumption]).
Qed.

End Blocks.

(** ** Following a run by what its trace shows

    For a whole script the trace itself is not kept: each call updates
    the tallies of the calls that matter to the statement at hand. *)
#[local] Arguments tally _ _ : simpl never.

Lemma tally_step p tr tr' c ok n s f :
  tr' = (tr ++ [{| ev_call := c; ev_ok := ok |}])%list ->
  tally p tr = (n, s, f) ->
  tally p tr' = (if p c then S n else n, s || (ok && p c), f || (negb ok && p c)).
Proof.
  unfold tally. intros -> Htr. inversion Htr; subst; clear Htr.
  rewrite count_calls_app, succeeded_app, failed_app.
  unfold count_calls at 2, succeeded at 2, failed at 2. simpl.
  rewrite !orb_false_r.
  destruct (p c); simpl; rewrite ?Nat.add_0_r, ?Nat.add_1_r; reflexivity.
Qed.

Lemma tally_over allowed p tr tr' dt x :
  (forall c, allowed c = true -> p c = false) ->
  tr' = (tr ++ dt)%list ->
  Forall (fun ev => allowed (ev_call ev) = true) dt ->
  tally p tr = x ->
  tally p tr' = x.
Proof.
  unfold tally. intros Hout -> Hdt <-.
  destruct (calls_outside allowed p dt Hout Hdt) as (Hc & Hs & Hf).
  rewrite count_calls_app, succeeded_app, failed_app, Hc, Hs, Hf.
  rewrite !orb_false_r, Nat.add_0_r. reflexivity.
Qed.

Lemma tally_read p tr n s f :
  tally p tr = (n, s, f) ->
  count_calls p tr = n /\ succeeded p tr = s /\ failed p tr = f.
Proof. unfold tally. intros Htr. inversion Htr. auto. Qed.

Section Forgetful.
Context `{Engine}.

Lemma via_call_fresh c (kd : ret c -> World -> Prop) kr ke st tr rs out :
  (forall v st' tr',
     tr' = (tr ++ [{| ev_call := c; ev_ok := true |}])%list ->
     kd v {| engine := st'; trace := tr'; raised := rs; stdout := out |}) ->
  (forall e st' tr' rs',
     tr' = (tr ++ [{| ev_call := c; ev_ok := false |}])%list ->
     kr e {| engine := st'; trace := tr'; raised := rs'; stdout := out |}) ->
  via (call c) kd kr ke {| engine := st; trace := tr; raised := rs; stdout := out |}.
Proof.
  intros Hok Hko. apply via_call_cases; cbn [engine trace raised stdout]; intros.
  - apply Hok. reflexivity.
  - apply Hko. reflexivity.
Qed.

Lemma via_print_fresh x (kd : unit -> World -> Prop) kr ke st tr rs out :
  (forall out', kd tt {| engine := st; trace := tr; raised := rs; stdout := out' |}) ->
  via (print x) kd kr ke {| engine := st; trace := tr; raised := rs; stdout := out |}.
Proof. intros Hk. apply via_print_then, Hk. Qed.

Lemma via_lift_fresh {A : Type} (r : exn + A) (kd : A -> World -> Prop) kr ke
    st tr rs out :
  (forall a, kd a {| engine := st; trace := tr; raised := rs; stdout := out |}) ->
  (forall e rs', kr e {| engine := st; trace := tr; raised := rs'; stdout := out |}) ->
  via (lift r) kd kr ke {| engine := st; trace := tr; raised := rs; stdout := out |}.
Proof.
  intros Hok Hko. apply via_lift_cases; cbn [engine trace raised stdout]; intros.
  - apply Hok.
  - apply Hko.
Qed.

Lemma via_raise_fresh {A : Type} (e : exn) (kd : A -> World -> Prop) kr ke
    st tr rs out :
  (forall rs', kr e {| engine := st; trace := tr; raised := rs'; stdout := out |}) ->
  via (raise e) kd kr ke {| engine := st; trace := tr; raised := rs; stdout := out |}.
Proof. intros Hk. apply via_raise_then, Hk. Qed.

Lemma via_over_fresh {A : Type} allowed (m : M A) (kd : A -> World -> Prop) kr ke
    st tr rs out :
  steps_over allowed m ->
  (forall a st' tr' rs' out' dt,
     tr' = (tr ++ dt)%list ->
     Forall (fun ev => allowed (ev_call ev) = true) dt ->
     kd a {| engine := st'; trace := tr'; raised := rs'; stdout := out' |}) ->
  via m kd kr ke {| engine := st; trace := tr; raised := rs; stdout := out |}.
Proof.
  intros Hm Hk. apply (via_over allowed); [exact Hm|].
  intros a [st' tr' rs' out'] dt Ht Hdt. cbn [trace] in Ht. eauto.
Qed.

End Forgetful.

Lemma handle_after_app h tr dt :
  handle_after h (tr ++ dt)
  = match handle_after h tr with
    | Some h' => handle_after h' dt
    | None => None
    end.
Proof.
  revert h. induction tr as [|ev tr IH]; intros h; simpl; [reflexivity|].
  destruct (handle_step h ev); [apply IH | reflexivity].
Qed.

Lemma handle_snoc h0 tr tr' c ok h :
  tr' = (tr ++ [{| ev_call := c; ev_ok := ok |}])%list ->
  handle_after h0 tr = Some h ->
  handle_after h0 tr' = handle_step h {| ev_call := c; ev_ok := ok |}.
Proof.
  intros -> Hh. rewrite handle_after_app, Hh. simpl.
  destruct (handle_step h _); reflexivity.
Qed.

(** A block whose calls all leave the handle as it is. *)
Lemma handle_over allowed h0 h tr tr' dt :
  (forall c ok, allowed c = true ->
     handle_step h {| ev_call := c; ev_ok := ok |} = Some h) ->
  tr' = (tr ++ dt)%list ->
  Forall (fun ev => allowed (ev_call ev) = true) dt ->
  handle_after h0 tr = Some h ->
  handle_after h0 tr' = Some h.
Proof.
  intros Hkeep -> Hdt Hh. rewrite handle_after_app, Hh. clear Hh.
  induction Hdt as [|[c ok] dt Hev _ IH]; [reflexivity|].
  simpl in *. rewrite (Hkeep c ok Hev). exact IH.
Qed.

Lemma unabsorbed_app cls before tr dt :
  unabsorbed cls before (tr ++ dt)
  = unabsorbed cls before tr || unabsorbed cls (before ++ tr) dt.
Proof.
  revert before. induction tr as [|ev tr IH]; intros before; simpl.
  - rewrite app_nil_r. reflexivity.
  - rewrite IH, <- app_assoc. simpl. rewrite orb_assoc. reflexivity.
Qed.

Lemma unabsorbed_step cls tr tr' c ok b a :
  tr' = (tr ++ [{| ev_call := c; ev_ok := ok |}])%list ->
  unabsorbed cls [] tr = b ->
  cls tr c = a ->
  unabsorbed cls [] tr' = b || (negb ok && negb a).
Proof.
  intros -> <- <-. rewrite unabsorbed_app. simpl.
  rewrite orb_false_r. reflexivity.
Qed.

(** A block all of whose calls are absorbed wherever they stand in it. *)
Lemma unabsorbed_over cls allowed tr tr' dt b :
  (forall pre c, allowed c = true -> cls (tr ++ pre)%list c = true) ->
  tr' = (tr ++ dt)%list ->
  Forall (fun ev => allowed (ev_call ev) = true) dt ->
  unabsorbed cls [] tr = b ->
  unabsorbed cls [] tr' = b.
Proof.
  intros Hall -> Hdt <-. rewrite unabsorbed_app. simpl.
  enough (forall pre, unabsorbed cls (tr ++ pre) dt = false) as E.
  { specialize (E []). rewrite app_nil_r in E. rewrite E, orb_false_r. reflexivity. }
  induction Hdt as [|ev dt Hev _ IH]; intros pre; simpl; [reflexivity|].
  rewrite (Hall pre _ Hev), andb_false_r. simpl.
  rewrite <- app_assoc. apply IH.
Qed.

(** What the tallies say of the trace [tr], put into the goal. *)
Ltac tally_facts tr :=
  repeat match goal with
         | Hp : tally ?p tr = (?n, ?s, ?f) |- _ =>
             progress (rewrite ?(proj1 (tally_read p tr n s f Hp)),
                         ?(proj1 (proj2 (tally_read p tr n s f Hp))))
         end.

(** The tallies, the state of the handle and the unabsorbed exceptions
    after one more call. *)
Ltac advance Htr :=
  lazymatch type of Htr with
  | ?tr' = (?tr ++ [ {| ev_call := ?c; ev_ok := ?ok |} ])%list =>
      repeat match goal with
             | Hu : unabsorbed ?cls [] tr = ?b |- _ =>
                 let Hn := fresh "Hu" in
                 let Ha := fresh "Ha" in
                 eassert (Ha : cls tr c = _) by
                   (cbv [absorbed_by_add_data_sources absorbed_by_initialize_config
                         absorbed_by_example];
                    tally_facts tr; simpl; reflexivity);
                 pose proof (unabsorbed_step cls tr tr' c ok b _ Htr Hu Ha) as Hn;
                 simpl in Hn; clear Hu Ha
             | Hp : tally ?p tr = (?n, ?s, ?f) |- _ =>
                 let Hn := fresh "Hp" in
                 pose proof (tally_step p tr tr' c ok n s f Htr Hp) as Hn;
                 simpl in Hn; clear Hp
             | Hh : handle_after ?h0 tr = Some ?h |- _ =>
                 let Hn := fresh "Hh" in
                 pose proof (handle_snoc h0 tr tr' c ok h Htr Hh) as Hn;
                 cbv [handle_step negb is_engine_call ev_call ev_ok] in Hn;
                 clear Hh
             end;
      clear Htr
  end.

(** The same after a block whose calls count for nothing. *)
Ltac advance_over Htr Hdt :=
  lazymatch type of Htr with
  | ?tr' = (?tr ++ ?dt)%list =>
      lazymatch type of Hdt with
      | Forall (fun ev => ?allowed (ev_call ev) = true) _ =>
          repeat match goal with
                 | Hu : unabsorbed ?cls [] tr = ?b |- _ =>
                     let Hn := fresh "Hu" in
                     pose proof (unabsorbed_over cls allowed tr tr' dt b
                                   ltac:(let pre := fresh "pre" in
                                         let c := fresh "c" in
                                         let Hin := fresh "Hin" in
                                         intros pre c Hin;
                                         cbv [absorbed_by_add_data_sources
                                              absorbed_by_initialize_config
                                              absorbed_by_example];
                                         rewrite ?succeeded_app, ?count_calls_app;
                                         tally_facts tr;
                                         destruct c; simpl in Hin |- *;
                                         first [ discriminate Hin
                                               | rewrite Hin; reflexivity
                                               | reflexivity ])
                                   Htr Hdt Hu) as Hn;
                     clear Hu
                 | Hp : tally ?p tr = ?x |- _ =>
                     let Hn := fresh "Hp" in
                     pose proof (tally_over allowed p tr tr' dt x
                                   ltac:(let c := fresh "c" in
                                         let Hin := fresh "Hin" in
                                         intros c Hin; destruct c; simpl in *; congruence)
                                   Htr Hdt Hp) as Hn;
                     clear Hp
                 | Hh : handle_after ?h0 tr = Some ?h |- _ =>
                     let Hn := fresh "Hh" in
                     pose proof (handle_over allowed h0 h tr tr' dt
                                   ltac:(let c := fresh "c" in
                                         let ok := fresh "ok" in
                                         let Hin := fresh "Hin" in
                                         intros c ok Hin; destruct c; simpl in Hin;
                                         first [ discriminate Hin | reflexivity ])
                                   Htr Hdt Hh) as Hn;
                     clear Hh
                 end
      end;
      clear Htr Hdt
  end.

Ltac over lemma :=
  eapply via_over_fresh; [ apply lemma | ];
  let tr' := fresh "tr" in
  let Htr := fresh "Htr" in
  let Hdt := fresh "Hdt" in
  intros ? ? tr' ? ? ? Htr Hdt; advance_over Htr Hdt.

(** One step of a whole script; [known] steps over the blocks it knows. *)
Ltac run_head known m :=
  first
    [ known m
    | lazymatch m with
      | bind _ _ => apply via_bind_then
      | try_except _ _ => apply via_try_then
      | finally _ _ => apply via_finally_then
      | pure _ => apply via_pure_then
      | sys_exit _ => apply via_exit_then
      | print _ => apply via_print_fresh; intros ?
      | raise _ => apply via_raise_fresh; intros ?
      | lift _ => apply via_lift_fresh; [ intros ? | intros ? ? ]
      | call ?c =>
          apply (via_call_fresh c);
          [ let tr' := fresh "tr" in
            let Htr := fresh "Htr" in
            intros ? ? tr' Htr; advance Htr
          | let tr' := fresh "tr" in
            let Htr := fresh "Htr" in
            intros ? ? tr' ? Htr; advance Htr ]
      | match ?x with _ => _ end => destruct x
      end ].

Ltac run_step known :=
  cbv beta zeta;
  lazymatch goal with
  | |- via ?m _ _ _ _ => run_head known m
  end.

(** At the end of a run the statement is read off the tallies. *)
Ltac read_tallies :=
  cbv beta; cbn [fst snd trace exit_code];
  repeat match goal with
         | Hu : unabsorbed _ _ _ = _ |- _ => rewrite ?Hu; clear Hu
         end;
  repeat match goal with
         | Hp : tally _ _ = _ |- _ =>
             let Hc := fresh "Hc" in
             let Hs := fresh "Hs" in
             let Hf := fresh "Hf" in
             destruct (tally_read _ _ _ _ _ Hp) as (Hc & Hs & Hf); clear Hp;
             rewrite ?Hc, ?Hs, ?Hf; clear Hc Hs Hf
         end;
  repeat match goal with H : _ |- _ => clear H end;
  repeat split; intros; first [ lia | discriminate | reflexivity | congruence ].

(** ** Releasing the environment: add_data_sources.py *)
Section DestroyAddDataSources.
Context `{Engine}.

Ltac known m :=
  lazymatch m with
  | add_data_sources_set_runtime => over add_data_sources_set_runtime_steps_over
  | register_each _ => over register_each_steps_over
  end.

(** X4. Whatever the engine answers, add_data_sources.py calls [Destroy]
    at most once, and the environment is released exactly on the runs
    that end with status 0: a run that ends with status 1 has released
    nothing, and unless it was [Destroy] itself that raised it has not
    even tried to. *)
Theorem add_data_sources_releases_only_on_success (file : ConfigFile) (st : St) :
  let r := run (add_data_sources file) st in
  (count_calls is_Destroy (trace (snd r)) <= 1)%nat
  /\ (exit_code (fst r) = 0 <-> succeeded is_Destroy (trace (snd r)) = true)
  /\ (failed is_Destroy (trace (snd r)) = false ->
      exit_code (fst r) = 1 ->
      count_calls is_Destroy (trace (snd r)) = 0%nat).
Proof.
  intros r. subst r. unfold run, boot.
  set (Post := fun r : Outcome unit * World =>
           (count_calls is_Destroy (trace (snd r)) <= 1)%nat
           /\ (exit_code (fst r) = 0 <-> succeeded is_Destroy (trace (snd r)) = true)
           /\ (failed is_Destroy (trace (snd r)) = false ->
               exit_code (fst r) = 1 ->
               count_calls is_Destroy (trace (snd r)) = 0%nat)).
  apply (via_holds Post).
  assert (Hp : tally is_Destroy [] = (0%nat, false, false)) by reflexivity.
  unfold add_data_sources, add_data_sources_after_import, load_config,
    set_pydll, add_data_sources_try, top_level_handler.
  unfold mbind, M_bind, mret, M_ret, say.
  repeat run_step ltac:(fun m => known m).
  all: (subst Post; read_tallies).
Qed.

End DestroyAddDataSources.

(** ** Releasing the environment: initialize_config.py *)
Section DestroyInitializeConfig.
Context `{Engine}.

Ltac known m :=
  lazymatch m with
  | initialize_config_set_runtime => over initialize_config_set_runtime_steps_over
  end.

(** X5. Whatever the engine answers, every run of initialize_config.py
    that obtained the configuration manager goes on to call [Destroy],
    once, or twice when the first call, the one of line 99, raised; a run
    that did not get that far never calls it.  A run that ends with
    status 0 has released the environment. *)
Theorem initialize_config_releases_once_managed (file : ConfigFile) (st : St) :
  let r := run (initialize_config file) st in
  (succeeded is_GetConfigManager (trace (snd r)) = true ->
   (1 <= count_calls is_Destroy (trace (snd r)) <= 2)%nat)
  /\ (succeeded is_GetConfigManager (trace (snd r)) = false ->
      count_calls is_Destroy (trace (snd r)) = 0%nat)
  /\ (count_calls is_Destroy (trace (snd r)) = 2%nat ->
      failed is_Destroy (trace (snd r)) = true)
  /\ (exit_code (fst r) = 0 -> succeeded is_Destroy (trace (snd r)) = true).
Proof.
  intros r. subst r. unfold run, boot.
  set (Post := fun r : Outcome unit * World =>
    (succeeded is_GetConfigManager (trace (snd r)) = true ->
     (1 <= count_calls is_Destroy (trace (snd r)) <= 2)%nat)
    /\ (succeeded is_GetConfigManager (trace (snd r)) = false ->
        count_calls is_Destroy (trace (snd r)) = 0%nat)
    /\ (count_calls is_Destroy (trace (snd r)) = 2%nat ->
        failed is_Destroy (trace (snd r)) = true)
    /\ (exit_code (fst r) = 0 -> succeeded is_Destroy (trace (snd r)) = true)).
  apply (via_holds Post).
  assert (Hp : tally is_Destroy [] = (0%nat, false, false)) by reflexivity.
  assert (Hq : tally is_GetConfigManager [] = (0%nat, false, false)) by reflexivity.
  unfold initialize_config, initialize_config_after_import, load_config,
    set_pydll, initialize_config_try, top_level_handler.
  unfold mbind, M_bind, mret, M_ret, say.
  repeat run_step ltac:(fun m => known m).
  all: (subst Post; read_tallies).
Qed.

End DestroyInitializeConfig.

(** ** The why/how analysis of the example *)
Section Analysis.
Context `{Engine}.

Ltac analysed :=
  cbv beta; eexists _, _, _;
  split; [reflexivity|];
  cbn [trace stdout];
  split; [rewrite <- ?app_assoc; reflexivity|];
  split; [rewrite <- ?app_assoc; reflexivity|];
  unfold count_calls; simpl;
  repeat split; first [ lia | discriminate | repeat constructor ].

Lemma why_how_analysis_absorbs (w : World) :
  exists w' dt out,
    why_how_analysis w = (Done tt, w')
    /\ trace w' = (trace w ++ dt)%list
    /\ stdout w' = (stdout w ++ out)%list
    /\ Forall (fun ev => is_analysis_call (ev_call ev) = true) dt
    /\ (1 <= length dt <= 3)%nat
    /\ (count_calls is_explanation dt <= 1)%nat
    /\ out <> [].
Proof.
  apply (via_holds (fun r => exists w' dt out,
    r = (Done tt, w')
    /\ trace w' = (trace w ++ dt)%list
    /\ stdout w' = (stdout w ++ out)%list
    /\ Forall (fun ev => is_analysis_call (ev_call ev) = true) dt
    /\ (1 <= length dt <= 3)%nat
    /\ (count_calls is_explanation dt <= 1)%nat
    /\ out <> [])).
  unfold why_how_analysis, get_entity_by_record, why_entities, how_entity.
  unfold mbind, M_bind, mret, M_ret, say.
  repeat sym_step ltac:(fun m => no_block m); analysed.
Qed.

Lemma why_how_analysis_steps_over : steps_over is_analysis_call why_how_analysis.
Proof.
  intros w. destruct (why_how_analysis_absorbs w) as (w' & dt & out & Hrun & Ht & _ & Hdt & _).
  exists tt, w', dt. auto.
Qed.

(** X7. The why/how analysis of the example never ends the run: whatever
    the engine answers, and whatever the documents it returns hold, the
    block completes.  It issues between one and three calls, all of them
    [GetEntity], [WhyEntities] or [HowEntity], at most one of them an
    explanation, and it prints something. *)
Theorem why_how_analysis_never_aborts (w : World) :
  let r := why_how_analysis w in
  fst r = Done tt
  /\ exists dt out,
       trace (snd r) = (trace w ++ dt)%list
       /\ stdout (snd r) = (stdout w ++ out)%list
       /\ Forall (fun ev => is_analysis_call (ev_call ev) = true) dt
       /\ (1 <= length dt <= 3)%nat
       /\ (count_calls is_explanation dt <= 1)%nat
       /\ out <> [].
Proof.
  intros r. subst r.
  destruct (why_how_analysis_absorbs w) as (w' & dt & out & Hrun & Hrest).
  rewrite Hrun. split; [reflexivity|]. exists dt, out. exact Hrest.
Qed.

End Analysis.

(** ** Releasing the environment: the example *)
Section DestroyExample.
Context `{Engine}.

Ltac known m :=
  lazymatch m with
  | example_set_runtime => over example_set_runtime_steps_over
  | why_how_analysis => over why_how_analysis_steps_over
  | cleanup _ => unfold cleanup; cbn [client_env]
  end.

(** X6. Whatever the engine answers, the example calls [Destroy] exactly
    once when the client was constructed, that is when [GetProduct], the
    last call of [__init__], returned, and never otherwise: the [with]
    block releases the environment however its body ends, but a
    constructor that raises after [Build] releases nothing.  A run that
    ends with status 0 has released the environment. *)
Theorem example_releases_what_it_constructed (file : ConfigFile) (st : St) :
  let r := run (senzing_python_net_example file) st in
  (succeeded is_GetProduct (trace (snd r)) = true ->
   count_calls is_Destroy (trace (snd r)) = 1%nat)
  /\ (succeeded is_GetProduct (trace (snd r)) = false ->
      count_calls is_Destroy (trace (snd r)) = 0%nat)
  /\ (exit_code (fst r) = 0 -> succeeded is_Destroy (trace (snd r)) = true).
Proof.
  intros r. subst r. unfold run, boot.
  set (Post := fun r : Outcome unit * World =>
    (succeeded is_GetProduct (trace (snd r)) = true ->
     count_calls is_Destroy (trace (snd r)) = 1%nat)
    /\ (succeeded is_GetProduct (trace (snd r)) = false ->
        count_calls is_Destroy (trace (snd r)) = 0%nat)
    /\ (exit_code (fst r) = 0 -> succeeded is_Destroy (trace (snd r)) = true)).
  apply (via_holds Post).
  assert (Hp : tally is_Destroy [] = (0%nat, false, false)) by reflexivity.
  assert (Hq : tally is_GetProduct [] = (0%nat, false, false)) by reflexivity.
  unfold senzing_python_net_example, example_after_import, main, load_config,
    set_pydll, with_SenzingClient, SenzingClient_init, main_with_body,
    get_version, add_record, get_entity_by_record, search_by_attributes,
    get_record, delete_record.
  unfold mbind, M_bind, mret, M_ret, say.
  repeat run_step ltac:(fun m => known m).
  all: (subst Post; read_tallies).
Qed.

End DestroyExample.

(** ** Exit codes and the handlers of each script *)
Section Unabsorbed.
Context `{Engine}.

Ltac known m :=
  lazymatch m with
  | add_data_sources_set_runtime => over add_data_sources_set_runtime_steps_over
  | initialize_config_set_runtime => over initialize_config_set_runtime_steps_over
  | example_set_runtime => over example_set_runtime_steps_over
  | register_each _ => over register_each_steps_over
  | why_how_analysis => over why_how_analysis_steps_over
  | cleanup _ => unfold cleanup; cbn [client_env]
  end.





End Unabsorbed.


(** ** The environment handle in every script *)
Section HandleProtocol.
Context `{Engine}.

Ltac known m :=
  lazymatch m with
  | add_data_sources_set_runtime => over add_data_sources_set_runtime_steps_over
  | initialize_config_set_runtime => over initialize_config_set_runtime_steps_over
  | example_set_runtime => over example_set_runtime_steps_over
  | register_each _ => over register_each_steps_over
  | why_how_analysis => over why_how_analysis_steps_over
  | cleanup _ => unfold cleanup; cbn [client_env]
  end.

Ltac handled :=
  cbv beta; cbn [fst snd trace];
  split; [ eexists; eassumption | read_tallies ].

Lemma add_data_sources_respects_the_handle (file : ConfigFile) (st : St) :
  let tr := trace (snd (run (add_data_sources file) st)) in
  (exists h, handle_after NotBuilt tr = Some h)
  /\ (count_calls is_Build tr <= 1)%nat.
Proof.
  intros tr. subst tr. unfold run, boot.
  set (Post := fun r : Outcome unit * World =>
         (exists h, handle_after NotBuilt (trace (snd r)) = Some h)
         /\ (count_calls is_Build (trace (snd r)) <= 1)%nat).
  apply (via_holds Post).
  assert (Hh : handle_after NotBuilt [] = Some NotBuilt) by reflexivity.
  assert (Hp : tally is_Build [] = (0%nat, false, false)) by reflexivity.
  unfold add_data_sources, add_data_sources_after_import, load_config,
    set_pydll, add_data_sources_try, top_level_handler.
  unfold mbind, M_bind, mret, M_ret, say.
  repeat run_step ltac:(fun m => known m).
  all: (subst Post; handled).
Qed.

Lemma initialize_config_respects_the_handle (file : ConfigFile) (st : St) :
  let tr := trace (snd (run (initialize_config file) st)) in
  (exists h, handle_after NotBuilt tr = Some h)
  /\ (count_calls is_Build tr <= 1)%nat.
Proof.
  intros tr. subst tr. unfold run, boot.
  set (Post := fun r : Outcome unit * World =>
         (exists h, handle_after NotBuilt (trace (snd r)) = Some h)
         /\ (count_calls is_Build (trace (snd r)) <= 1)%nat).
  apply (via_holds Post).
  assert (Hh : handle_after NotBuilt [] = Some NotBuilt) by reflexivity.
  assert (Hp : tally is_Build [] = (0%nat, false, false)) by reflexivity.
  unfold initialize_config, initialize_config_after_import, load_config,
    set_pydll, initialize_config_try, top_level_handler.
  unfold mbind, M_bind, mret, M_ret, say.
  repeat run_step ltac:(fun m => known m).
  all: (subst Post; handled).
Qed.

Lemma example_respects_the_handle (file : ConfigFile) (st : St) :
  let tr := trace (snd (run (senzing_python_net_example file) st)) in
  (exists h, handle_after NotBuilt tr = Some h)
  /\ (count_calls is_Build tr <= 1)%nat.
Proof.
  intros tr. subst tr. unfold run, boot.
  set (Post := fun r : Outcome unit * World =>
         (exists h, handle_after NotBuilt (trace (snd r)) = Some h)
         /\ (count_calls is_Build (trace (snd r)) <= 1)%nat).
  apply (via_holds Post).
  assert (Hh : handle_after NotBuilt [] = Some NotBuilt) by reflexivity.
  assert (Hp : tally is_Build [] = (0%nat, false, false)) by reflexivity.
  unfold senzing_python_net_example, example_after_import, main, load_config,
    set_pydll, with_SenzingClient, SenzingClient_init, main_with_body,
    get_version, add_record, get_entity_by_record, search_by_attributes,
    get_record, delete_record.
  unfold mbind, M_bind, mret, M_ret, say.
  repeat run_step ltac:(fun m => known m).
  all: (subst Post; handled).
Qed.

(** X8. Whatever the engine answers, every script uses the environment
    handle in order: no engine service is called before [Build] has
    returned, [Build] is called at most once, whether it returns or
    raises, nothing but bridge and host calls follows a [Build] that
    raised, and nothing is called on the environment once a [Destroy]
    has returned. *)
Theorem scripts_respect_the_handle (file : ConfigFile) (st : St) :
  Forall (fun script : ConfigFile -> M unit =>
            let tr := trace (snd (run (script file) st)) in
            (exists h, handle_after NotBuilt tr = Some h)
            /\ (count_calls is_Build tr <= 1)%nat)
    scripts.
Proof.
  unfold scripts.
  constructor; [apply add_data_sources_respects_the_handle|].
  constructor; [apply initialize_config_respects_the_handle|].
  constructor; [apply example_respects_the_handle|].
  constructor.
Qed.

End HandleProtocol.

(** ** What each script does to the configuration *)
Section Footprint.
Context `{Engine}.

Ltac known m :=
  lazymatch m with
  | add_data_sources_set_runtime => over add_data_sources_set_runtime_steps_over
  | initialize_config_set_runtime => over initialize_config_set_runtime_steps_over
  | example_set_runtime => over example_set_runtime_steps_over
  | register_each _ => over register_each_steps_over
  | why_how_analysis => over why_how_analysis_steps_over
  | cleanup _ => unfold cleanup; cbn [client_env]
  end.

Lemma add_data_sources_footprint (file : ConfigFile) (st : St) :
  let tr := trace (snd (run (add_data_sources file) st)) in
  count_calls is_SetDefaultConfigID tr = 0%nat
  /\ (count_calls is_RegisterConfig tr <= 1)%nat
  /\ (count_calls is_ReplaceDefaultConfigID tr <= 1)%nat
  /\ (succeeded is_RegisterConfig tr = false ->
      count_calls is_ReplaceDefaultConfigID tr = 0%nat).
Proof.
  intros tr. subst tr. unfold run, boot.
  set (Post := fun r : Outcome unit * World =>
    count_calls is_SetDefaultConfigID (trace (snd r)) = 0%nat
    /\ (count_calls is_RegisterConfig (trace (snd r)) <= 1)%nat
    /\ (count_calls is_ReplaceDefaultConfigID (trace (snd r)) <= 1)%nat
    /\ (succeeded is_RegisterConfig (trace (snd r)) = false ->
        count_calls is_ReplaceDefaultConfigID (trace (snd r)) = 0%nat)).
  apply (via_holds Post).
  assert (H1 : tally is_SetDefaultConfigID [] = (0%nat, false, false)) by reflexivity.
  assert (H2 : tally is_RegisterConfig [] = (0%nat, false, false)) by reflexivity.
  assert (H3 : tally is_ReplaceDefaultConfigID [] = (0%nat, false, false)) by reflexivity.
  unfold add_data_sources, add_data_sources_after_import, load_config,
    set_pydll, add_data_sources_try, top_level_handler.
  unfold mbind, M_bind, mret, M_ret, say.
  repeat run_step ltac:(fun m => known m).
  all: (subst Post; read_tallies).
Qed.

Lemma initialize_config_footprint (file : ConfigFile) (st : St) :
  let tr := trace (snd (run (initialize_config file) st)) in
  count_calls is_ReplaceDefaultConfigID tr = 0%nat
  /\ count_calls is_RegisterDataSource tr = 0%nat
  /\ (count_calls is_RegisterConfig tr <= 1)%nat
  /\ (count_calls is_SetDefaultConfigID tr <= 1)%nat
  /\ (succeeded is_ReadTextFile tr = false ->
      count_calls is_RegisterConfig tr = 0%nat)
  /\ (succeeded is_RegisterConfig tr = false ->
      count_calls is_SetDefaultConfigID tr = 0%nat).
Proof.
  intros tr. subst tr. unfold run, boot.
  set (Post := fun r : Outcome unit * World =>
    count_calls is_ReplaceDefaultConfigID (trace (snd r)) = 0%nat
    /\ count_calls is_RegisterDataSource (trace (snd r)) = 0%nat
    /\ (count_calls is_RegisterConfig (trace (snd r)) <= 1)%nat
    /\ (count_calls is_SetDefaultConfigID (trace (snd r)) <= 1)%nat
    /\ (succeeded is_ReadTextFile (trace (snd r)) = false ->
        count_calls is_RegisterConfig (trace (snd r)) = 0%nat)
    /\ (succeeded is_RegisterConfig (trace (snd r)) = false ->
        count_calls is_SetDefaultConfigID (trace (snd r)) = 0%nat)).
  apply (via_holds Post).
  assert (H1 : tally is_ReplaceDefaultConfigID [] = (0%nat, false, false)) by reflexivity.
  assert (H2 : tally is_RegisterDataSource [] = (0%nat, false, false)) by reflexivity.
  assert (H3 : tally is_RegisterConfig [] = (0%nat, false, false)) by reflexivity.
  assert (H4 : tally is_SetDefaultConfigID [] = (0%nat, false, false)) by reflexivity.
  assert (H5 : tally is_ReadTextFile [] = (0%nat, false, false)) by reflexivity.
  unfold initialize_config, initialize_config_after_import, load_config,
    set_pydll, initialize_config_try, top_level_handler.
  unfold mbind, M_bind, mret, M_ret, say.
  repeat run_step ltac:(fun m => known m).
  all: (subst Post; read_tallies).
Qed.

Lemma example_footprint (file : ConfigFile) (st : St) :
  count_calls changes_configuration
    (trace (snd (run (senzing_python_net_example file) st))) = 0%nat.
Proof.
  unfold run, boot.
  set (Post := fun r : Outcome unit * World =>
    count_calls changes_configuration (trace (snd r)) = 0%nat).
  apply (via_holds Post).
  assert (H1 : tally changes_configuration [] = (0%nat, false, false)) by reflexivity.
  unfold senzing_python_net_example, example_after_import, main, load_config,
    set_pydll, with_SenzingClient, SenzingClient_init, main_with_body,
    get_version, add_record, get_entity_by_record, search_by_attributes,
    get_record, delete_record.
  unfold mbind, M_bind, mret, M_ret, say.
  repeat run_step ltac:(fun m => known m).
  all: (subst Post; read_tallies).
Qed.

(** X9. Whatever the engine answers: add_data_sources.py never sets the
    default configuration blindly, it registers at most one configuration
    and attempts at most one compare-and-swap replacement, and only after
    the registration returned; initialize_config.py never registers a data
    source and never uses the compare-and-swap replacement, it registers
    at most one configuration, only after the template was read, and sets
    the default at most once, only after the registration returned; the
    example changes nothing in the configuration. *)
Theorem configuration_footprint (file : ConfigFile) (st : St) :
  (let tr := trace (snd (run (add_data_sources file) st)) in
   count_calls is_SetDefaultConfigID tr = 0%nat
   /\ (count_calls is_RegisterConfig tr <= 1)%nat
   /\ (count_calls is_ReplaceDefaultConfigID tr <= 1)%nat
   /\ (succeeded is_RegisterConfig tr = false ->
       count_calls is_ReplaceDefaultConfigID tr = 0%nat))
  /\ (let tr := trace (snd (run (initialize_config file) st)) in
      count_calls is_ReplaceDefaultConfigID tr = 0%nat
      /\ count_calls is_RegisterDataSource tr = 0%nat
      /\ (count_calls is_RegisterConfig tr <= 1)%nat
      /\ (count_calls is_SetDefaultConfigID tr <= 1)%nat
      /\ (succeeded is_ReadTextFile tr = false ->
          count_calls is_RegisterConfig tr = 0%nat)
      /\ (succeeded is_RegisterConfig tr = false ->
          count_calls is_SetDefaultConfigID tr = 0%nat))
  /\ count_calls changes_configuration
       (trace (snd (run (senzing_python_net_example file) st))) = 0%nat.
Proof.
  split; [apply add_data_sources_footprint|].
  split; [apply initialize_config_footprint | apply example_footprint].
Qed.

End Footprint.

(** ** Initialising the configuration *)
Section Initialisation.
#[local] Existing Instance Fake.engine.

#[local] Arguments Fake.registry_doc : simpl never.
#[local] Arguments Fake.codes_of_doc : simpl never.

Ltac flatten :=
  cbv [Fake.set_rival Fake.set_default Fake.set_working Fake.add_config
       Fake.with_rival Fake.with_broken Fake.start Fake.default_id Fake.configs
       Fake.next_id Fake.working Fake.rival Fake.broken Fake.report
       Fake.next_handle Fake.cursor Fake.redo].

Ltac answer :=
  first
    [ eassumption
    | cbn; flatten;
      rewrite ?codes_of_registry_doc;
      cbn;
      reflexivity ].

(** The tests of lines 97 and 156. *)
Ltac decide_if :=
  lazymatch goal with
  | |- via (if ?b then _ else _) _ _ _ _ =>
      first [ match goal with Hb : b = _ |- _ => rewrite Hb end
            | let b' := eval vm_compute in b in change b with b' ];
      cbv iota
  end.

Ltac decide_same :=
  lazymatch goal with
  | |- via (if (?x =? ?x)%Z then _ else _) _ _ _ _ => rewrite Z.eqb_refl; cbv iota
  end.

Ltac go := repeat first [ step_via ltac:(answer) | decide_same | decide_if ].

Ltac unfold_script :=
  unfold run, boot, initialize_config, initialize_config_after_import, load_config,
    set_pydll, initialize_config_set_runtime, initialize_config_try,
    top_level_handler;
  unfold mbind, M_bind, mret, M_ret, say.

(** With a valid default configuration the script changes nothing. *)
Lemma initialize_config_finds_a_configuration cfg d cs n wk rp nh cu rd :
  required_keys_present cfg = true ->
  0 < d ->
  let s := {| Fake.default_id := d; Fake.configs := cs; Fake.next_id := n;
              Fake.working := wk; Fake.rival := None;
              Fake.broken := fun _ => false; Fake.report := rp;
              Fake.next_handle := nh; Fake.cursor := cu; Fake.redo := rd |} in
  let r := run (initialize_config (Parsed cfg)) s in
  exit_code (fst r) = 0
  /\ engine (snd r) = s
  /\ count_calls is_Destroy (trace (snd r)) = 1%nat
  /\ count_calls changes_configuration (trace (snd r)) = 0%nat.
Proof.
  intros Hcfg Hd s r. subst r s.
  destruct (required_keys cfg Hcfg) as (dll & root & Hdll & Hroot).
  apply Z.ltb_lt in Hd.
  match goal with
  | |- context [run ?m ?s] =>
      apply (via_holds (fun r : Outcome unit * @World Fake.engine =>
        exit_code (fst r) = 0
        /\ engine (snd r) = s
        /\ count_calls is_Destroy (trace (snd r)) = 1%nat
        /\ count_calls changes_configuration (trace (snd r)) = 0%nat) m (@boot Fake.engine s))
  end.
  unfold_script. go.
  cbv beta. cbn [fst snd exit_code engine trace]. repeat split.
Qed.

(** Without one it registers the template and makes it the default. *)
Lemma initialize_config_registers_the_template cfg d cs n wk rp nh cu rd :
  required_keys_present cfg = true ->
  d <= 0 ->
  let s := {| Fake.default_id := d; Fake.configs := cs; Fake.next_id := n;
              Fake.working := wk; Fake.rival := None;
              Fake.broken := fun _ => false; Fake.report := rp;
              Fake.next_handle := nh; Fake.cursor := cu; Fake.redo := rd |} in
  let r := run (initialize_config (Parsed cfg)) s in
  exit_code (fst r) = 0
  /\ engine (snd r)
     = {| Fake.default_id := n; Fake.configs := <[ n := [] ]> cs;
          Fake.next_id := n + 1;
          Fake.working := wk; Fake.rival := None;
          Fake.broken := fun _ => false; Fake.report := rp;
          Fake.next_handle := nh; Fake.cursor := cu; Fake.redo := rd |}
  /\ count_calls is_Destroy (trace (snd r)) = 1%nat
  /\ count_calls is_RegisterConfig (trace (snd r)) = 1%nat
  /\ count_calls is_SetDefaultConfigID (trace (snd r)) = 1%nat.
Proof.
  intros Hcfg Hd s r. subst r s.
  destruct (required_keys cfg Hcfg) as (dll & root & Hdll & Hroot).
  apply Z.ltb_ge in Hd.
  match goal with
  | |- context [run ?m ?s] =>
      apply (via_holds (fun r : Outcome unit * @World Fake.engine =>
        exit_code (fst r) = 0
        /\ engine (snd r)
           = {| Fake.default_id := n; Fake.configs := <[ n := [] ]> cs;
                Fake.next_id := n + 1;
                Fake.working := wk; Fake.rival := None;
                Fake.broken := fun _ => false; Fake.report := rp;
                Fake.next_handle := nh; Fake.cursor := cu; Fake.redo := rd |}
        /\ count_calls is_Destroy (trace (snd r)) = 1%nat
        /\ count_calls is_RegisterConfig (trace (snd r)) = 1%nat
        /\ count_calls is_SetDefaultConfigID (trace (snd r)) = 1%nat) m (@boot Fake.engine s))
  end.
  unfold_script. go.
  cbv beta. cbn [fst snd exit_code engine trace]. repeat split.
Qed.

(** X10. Against the substitute engine, with no concurrent writer and no
    failure: initialize_config.py leaves the repository alone when the
    default configuration id is positive; otherwise it registers the
    template once and makes the new id the default; and run again on what
    it left, it changes nothing, provided the engine numbers its
    configurations from a positive id.  Every such run calls [Destroy]
    once and ends with status 0. *)
Theorem initialize_config_is_idempotent (cfg : Config) (s : Fake.state)
    (Hcfg : required_keys_present cfg = true)
    (Hrival : Fake.rival s = None)
    (Hbroken : Fake.broken s = fun _ => false)
    (Hnext : 0 < Fake.next_id s) :
  let r1 := run (initialize_config (Parsed cfg)) s in
  let s1 := engine (snd r1) in
  let r2 := run (initialize_config (Parsed cfg)) s1 in
  exit_code (fst r1) = 0
  /\ count_calls is_Destroy (trace (snd r1)) = 1%nat
  /\ (0 < Fake.default_id s ->
      s1 = s /\ count_calls changes_configuration (trace (snd r1)) = 0%nat)
  /\ (Fake.default_id s <= 0 ->
      Fake.default_id s1 = Fake.next_id s
      /\ Fake.configs s1 = <[ Fake.next_id s := [] ]> (Fake.configs s)
      /\ count_calls is_RegisterConfig (trace (snd r1)) = 1%nat
      /\ count_calls is_SetDefaultConfigID (trace (snd r1)) = 1%nat)
  /\ exit_code (fst r2) = 0
  /\ engine (snd r2) = s1
  /\ count_calls changes_configuration (trace (snd r2)) = 0%nat.
Proof.
  destruct s as [d cs n wk rv br rp nh cu rd]. simpl in Hrival, Hbroken, Hnext.
  subst rv br. intros r1 s1 r2.
  destruct (Z.lt_ge_cases 0 d) as [Hd|Hd].
  - destruct (initialize_config_finds_a_configuration cfg d cs n wk rp nh cu rd Hcfg Hd)
      as (Hexit & Hs & Hdestroy & Hnone).
    fold r1 in Hexit, Hs, Hdestroy, Hnone. fold s1 in Hs.
    assert (Hr2 : r2 = r1) by (subst r2; rewrite Hs; reflexivity).
    rewrite Hr2. cbn [Fake.default_id Fake.next_id Fake.configs].
    repeat split; try assumption; try (intros; exfalso; lia).
  - destruct (initialize_config_registers_the_template cfg d cs n wk rp nh cu rd Hcfg Hd)
      as (Hexit & Hs & Hdestroy & Hreg & Hset).
    fold r1 in Hexit, Hs, Hdestroy, Hreg, Hset. fold s1 in Hs.
    destruct (initialize_config_finds_a_configuration cfg n (<[ n := [] ]> cs) (n + 1)
                wk rp nh cu rd Hcfg Hnext) as (Hexit2 & Hs2 & _ & Hnone2).
    rewrite <- Hs in Hexit2, Hs2, Hnone2. fold r2 in Hexit2, Hs2, Hnone2.
    cbn [Fake.default_id Fake.next_id Fake.configs].
    repeat split; try assumption; try (intros; exfalso; lia);
      rewrite Hs; reflexivity.
Qed.

(** A [Destroy] that raises at line 99 is caught by the handler of line
    104, which is there for a missing configuration. *)
Lemma initialize_config_with_a_failing_release cfg d cs n wk rp nh cu rd :
  required_keys_present cfg = true ->
  0 < d ->
  let s := {| Fake.default_id := d; Fake.configs := cs; Fake.next_id := n;
              Fake.working := wk; Fake.rival := None;
              Fake.broken := is_Destroy; Fake.report := rp;
              Fake.next_handle := nh; Fake.cursor := cu; Fake.redo := rd |} in
  let r := run (initialize_config (Parsed cfg)) s in
  exit_code (fst r) = 1
  /\ Fake.default_id (engine (snd r)) = n
  /\ Fake.configs (engine (snd r)) = <[ n := [] ]> cs
  /\ succeeded is_RegisterConfig (trace (snd r)) = true
  /\ succeeded is_SetDefaultConfigID (trace (snd r)) = true
  /\ count_calls is_Destroy (trace (snd r)) = 2%nat.
Proof.
  intros Hcfg Hd s r. subst r s.
  destruct (required_keys cfg Hcfg) as (dll & root & Hdll & Hroot).
  apply Z.ltb_lt in Hd.
  match goal with
  | |- context [run ?m ?s] =>
      apply (via_holds (fun r : Outcome unit * @World Fake.engine =>
        exit_code (fst r) = 1
        /\ Fake.default_id (engine (snd r)) = n
        /\ Fake.configs (engine (snd r)) = <[ n := [] ]> cs
        /\ succeeded is_RegisterConfig (trace (snd r)) = true
        /\ succeeded is_SetDefaultConfigID (trace (snd r)) = true
        /\ count_calls is_Destroy (trace (snd r)) = 2%nat) m (@boot Fake.engine s))
  end.
  unfold_script. go.
  cbv beta. cbn [fst snd exit_code engine trace]. repeat split.
Qed.

(** X11. When [Destroy] raises at line 99, initialize_config.py takes the
    failure for a missing configuration: against the substitute engine
    with a valid default configuration and a [Destroy] that always
    raises, the script goes on to register the template and to make it
    the default in place of the valid one, calls [Destroy] a second time,
    and ends with status 1. *)
Theorem failed_release_is_taken_for_no_configuration (cfg : Config) (s : Fake.state)
    (Hcfg : required_keys_present cfg = true)
    (Hrival : Fake.rival s = None)
    (Hbroken : Fake.broken s = is_Destroy)
    (Hvalid : 0 < Fake.default_id s) :
  let r := run (initialize_config (Parsed cfg)) s in
  exit_code (fst r) = 1
  /\ Fake.default_id (engine (snd r)) = Fake.next_id s
  /\ Fake.configs (engine (snd r)) = <[ Fake.next_id s := [] ]> (Fake.configs s)
  /\ succeeded is_RegisterConfig (trace (snd r)) = true
  /\ succeeded is_SetDefaultConfigID (trace (snd r)) = true
  /\ count_calls is_Destroy (trace (snd r)) = 2%nat.
Proof.
  destruct s as [d cs n wk rv br rp nh cu rd]. simpl in Hrival, Hbroken, Hvalid.
  subst rv br.
  apply (initialize_config_with_a_failing_release cfg d cs n wk rp nh cu rd Hcfg Hvalid).
Qed.

End Initialisation.

Lemma initialize_config_is_idempotent_witness :
  required_keys_present sample_config = true
  /\ let s := Fake.set_default 0 (Fake.start ["TEST"]) in
     let r1 := @run Fake.engine _ (initialize_config (Parsed sample_config)) s in
     let r2 := @run Fake.engine _ (initialize_config (Parsed sample_config))
                 (engine (snd r1)) in
     exit_code (fst r1) = 0 /\ engine (snd r2) = engine (snd r1).
Proof.
  assert (Hcfg : required_keys_present sample_config = true)
    by (vm_compute; reflexivity).
  split; [exact Hcfg|].
  destruct (initialize_config_is_idempotent sample_config
              (Fake.set_default 0 (Fake.start ["TEST"])) Hcfg eq_refl eq_refl
              ltac:(simpl; lia))
    as (Hexit & _ & _ & _ & _ & Hsame & _).
  split; [exact Hexit | exact Hsame].
Defined.

Lemma failed_release_is_taken_for_no_configuration_witness :
  required_keys_present sample_config = true
  /\ let s := Fake.with_broken is_Destroy (Fake.start ["TEST"]) in
     let r := @run Fake.engine _ (initialize_config (Parsed sample_config)) s in
     exit_code (fst r) = 1 /\ Fake.default_id (engine (snd r)) = 2.
Proof.
  assert (Hcfg : required_keys_present sample_config = true)
    by (vm_compute; reflexivity).
  split; [exact Hcfg|].
  destruct (failed_release_is_taken_for_no_configuration sample_config
              (Fake.with_broken is_Destroy (Fake.start ["TEST"])) Hcfg eq_refl eq_refl
              ltac:(simpl; lia))
    as (Hexit & Hdefault & _).
  split; [exact Hexit | exact Hdefault].
Defined.

(** ** Exporting with a cap *)
Section ExportCap.
#[local] Existing Instance Fake.engine.

Lemma drain_export_suspended cap fuel h count w :
  drain (S fuel) (export_next cap) (ExportSuspended h count) w
  = export_after cap fuel h (count + 1) w.
Proof. reflexivity. Qed.

#[local] Arguments drain : simpl never.

(** With [n] the smaller of what is left of the report and of the cap,
    the generator yields the next [n] entities out of [n + 1] fetches and
    then closes the cursor. *)
Lemma export_after_counts (entities : list json) : forall fuel N count h s tr rs out,
  0 < N ->
  Fake.quiet s ->
  Fake.cursor s = Some (h, map Encoded entities) ->
  let n := Nat.min (length entities) (Z.to_nat (N - count)) in
  (n <= fuel)%nat ->
  exists w',
    export_after (Some N) fuel h count
      {| engine := s; trace := tr; raised := rs; stdout := out |}
    = (Done (Some (firstn n entities)), w')
    /\ count_calls is_FetchNext (trace w') = (count_calls is_FetchNext tr + n + 1)%nat
    /\ count_calls is_CloseExport (trace w') = (count_calls is_CloseExport tr + 1)%nat
    /\ Fake.cursor (engine w') = None.
Proof.
  induction entities as [|x rest IH]; intros fuel N count h s tr rs out HN Hq Hc n Hf.
  - unfold export_after, export_stretch. unfold_m. simpl.
    rewrite (FakeFacts.answer_quiet _ _ Hq). simpl. rewrite Hc, Z.eqb_refl. simpl.
    rewrite (FakeFacts.answer_quiet _ _ Hq). simpl. rewrite Hc, Z.eqb_refl. simpl.
    eexists. split; [reflexivity|]. subst n. simpl.
    rewrite !count_calls_app, !count_calls_cons, !count_calls_nil. simpl.
    repeat split; lia.
  - unfold export_after, export_stretch. unfold_m. simpl.
    rewrite (FakeFacts.answer_quiet _ _ Hq). simpl. rewrite Hc, Z.eqb_refl. simpl.
    unfold cap_reached.
    replace (N =? 0)%Z with false by (symmetry; apply Z.eqb_neq; lia). simpl.
    destruct (N <=? count)%Z eqn:Hcap; simpl.
    + apply Z.leb_le in Hcap.
      assert (Hn : n = 0%nat) by (subst n; lia).
      rewrite (FakeFacts.answer_quiet _ _ (FakeFacts.quiet_set_cursor _ s Hq)).
      simpl. rewrite Z.eqb_refl. simpl.
      eexists. split; [rewrite Hn; reflexivity|]. simpl.
      rewrite !count_calls_app, !count_calls_cons, !count_calls_nil. simpl. rewrite Hn.
      repeat split; lia.
    + apply Z.leb_gt in Hcap.
      assert (Hn : n = S (Nat.min (length rest) (Z.to_nat (N - (count + 1))))).
      { subst n. simpl length.
        replace (Z.to_nat (N - count)) with (S (Z.to_nat (N - (count + 1)))) by lia.
        reflexivity. }
      destruct fuel as [|fuel]; [exfalso; lia|].
      rewrite drain_export_suspended.
      match goal with
      | |- context [export_after _ _ _ _ ?w0] =>
          destruct (IH fuel N (count + 1) h (engine w0) (trace w0) (raised w0) (stdout w0))
            as (w' & Hrun & Hfetch & Hclose & Hcur)
      end.
      * exact HN.
      * cbn [engine]. auto with quiet.
      * reflexivity.
      * lia.
      * cbn [engine trace raised stdout] in Hrun. rewrite Hrun. simpl.
        eexists. split; [rewrite Hn; reflexivity|].
        rewrite Hfetch, Hclose, Hcur. cbn [trace].
        rewrite !count_calls_app, !count_calls_cons, !count_calls_nil. simpl. rewrite Hn.
        repeat split; lia.
Qed.

(** X12. With a cap [N > 0] over a report of [A] entities, iterating
    [export_json_entities(max_entities=N)] to its end yields the first
    [min(A, N)] entities of the report, in order.  It fetches
    [min(A, N) + 1] times: when the report is longer than the cap, one
    record is fetched and dropped.  The cursor is then closed, by one
    [CloseExport] call. *)
Theorem export_yields_the_first_entities_up_to_the_cap
    (N : Z) (entities : list json) (codes : list string) (fuel : nat)
    (Hcap : 0 < N)
    (Hfuel : (Nat.min (length entities) (Z.to_nat N) < fuel)%nat) :
  exists w',
    run (drain fuel (export_next (Some N)) ExportCreated)
      (Fake.with_report (map Encoded entities) (Fake.start codes))
    = (Done (Some (firstn (Z.to_nat N) entities)), w')
    /\ Z.of_nat (count_calls is_FetchNext (trace w'))
       = Z.min (Z.of_nat (length entities)) N + 1
    /\ count_calls is_CloseExport (trace w') = 1%nat
    /\ Fake.cursor (engine w') = None.
Proof.
  destruct fuel as [|fuel]; [exfalso; lia|].
  unfold run.
  change (drain (S fuel) (export_next (Some N)) ExportCreated (boot _))
    with (bind (call (ExportJsonEntityReport export_flags))
            (fun h => export_after (Some N) fuel h 0)
            (boot (Fake.with_report (map Encoded entities) (Fake.start codes)))).
  unfold bind at 1, call at 1. simpl.
  match goal with
  | |- context [export_after _ _ ?h _ ?w0] =>
      destruct (export_after_counts entities fuel N 0 h
                  (engine w0) (trace w0) (raised w0) (stdout w0))
        as (w' & Hrun & Hfetch & Hclose & Hcur)
  end.
  - exact Hcap.
  - split; reflexivity.
  - reflexivity.
  - rewrite Z.sub_0_r. lia.
  - cbn [engine trace raised stdout] in Hrun. rewrite Hrun.
    exists w'. rewrite Z.sub_0_r in *.
    split.
    + f_equal. f_equal. f_equal.
      destruct (Nat.le_ge_cases (length entities) (Z.to_nat N)) as [Hle|Hge].
      * rewrite Nat.min_l by exact Hle.
        rewrite !firstn_all2 by lia. reflexivity.
      * rewrite Nat.min_r by exact Hge. reflexivity.
    + rewrite Hfetch, Hclose, Hcur. cbn [trace].
      rewrite ?count_calls_cons, ?count_calls_nil. simpl.
      repeat split; lia.
Qed.

End ExportCap.

Lemma export_yields_the_first_entities_up_to_the_cap_witness :
  0 < 2
  /\ (Nat.min (length [JNum 1; JNum 2; JNum 3]) (Z.to_nat 2) < 5)%nat
  /\ exists w',
       @run Fake.engine _ (drain 5 (export_next (Some 2)) ExportCreated)
         (Fake.with_report (map Encoded [JNum 1; JNum 2; JNum 3]) (Fake.start []))
       = (Done (Some [JNum 1; JNum 2]), w')
       /\ Z.of_nat (count_calls is_FetchNext (trace w')) = 3.
Proof.
  assert (Hcap : 0 < 2) by lia.
  assert (Hfuel : (Nat.min (length [JNum 1; JNum 2; JNum 3]) (Z.to_nat 2) < 5)%nat)
    by (vm_compute; lia).
  split; [exact Hcap|]. split; [exact Hfuel|].
  destruct (export_yields_the_first_entities_up_to_the_cap 2 [JNum 1; JNum 2; JNum 3]
              [] 5%nat Hcap Hfuel) as (w' & Hrun & Hfetch & _).
  exists w'. split; [exact Hrun | exact Hfetch].
Defined.

(** ** A negative cap *)
Section NegativeCap.
Context `{Engine}.

Ltac ask :=
  match goal with
  | |- context [respond ?c ?s] =>
      let E := fresh "E" in
      destruct (respond c s) as [[?e|?v] ?st] eqn:E; simpl
  end.

Ltac nothing_yielded :=
  split; [ first [ reflexivity | exact I ] |];
  eexists; split; [ rewrite <- ?app_assoc; reflexivity |];
  unfold count_calls; simpl; lia.

(** X13. A negative [max_entities] is true and never above the count, so
    the test of line 342 breaks out of the loop before the first [yield]:
    whatever the engine answers, the iteration yields nothing, after at
    most one fetch. *)
Theorem export_with_a_negative_cap_yields_nothing
    (max_entities : Z) (fuel : nat) (w : World)
    (Hneg : max_entities < 0) :
  let r := drain (S fuel) (export_next (Some max_entities)) ExportCreated w in
  match fst r with
  | Done (Some items) => items = []
  | Done None => False
  | Raised _ => True
  | Exited _ => False
  end
  /\ exists dt,
       trace (snd r) = (trace w ++ dt)%list
       /\ (count_calls is_FetchNext dt <= 1)%nat.
Proof.
  intros r. subst r.
  assert (Hcap : cap_reached (Some max_entities) 0 = true).
  { unfold cap_reached.
    replace (max_entities =? 0)%Z with false by (symmetry; apply Z.eqb_neq; lia).
    replace (max_entities <=? 0)%Z with true by (symmetry; apply Z.leb_le; lia).
    reflexivity. }
  cbn [drain export_next].
  unfold export_stretch, export_loop. unfold_m. simpl.
  ask; [nothing_yielded|].
  ask; [ask; nothing_yielded|].
  unfold cap_reached in Hcap.
  destruct v0 as [data|]; simpl; rewrite ?Hcap; simpl; ask; nothing_yielded.
Qed.

End NegativeCap.

Lemma export_with_a_negative_cap_yields_nothing_witness :
  -1 < 0
  /\ let r := @drain Fake.engine _ 3 (export_next (Some (-1))) ExportCreated
               (@boot Fake.engine
                  (Fake.with_report [Encoded (JNum 1); Encoded (JNum 2)]
                     (Fake.start []))) in
     match fst r with
     | Done (Some items) => items = []
     | Done None => False
     | Raised _ => True
     | Exited _ => False
     end.
Proof.
  assert (Hneg : -1 < 0) by lia.
  split; [exact Hneg|].
  exact (proj1 (@export_with_a_negative_cap_yields_nothing Fake.engine (-1) 2
                  (@boot Fake.engine
                     (Fake.with_report [Encoded (JNum 1); Encoded (JNum 2)]
                        (Fake.start []))) Hneg)).
Defined.
(** ** Reading the registry of data sources *)

Lemma collect_codes_reads (items : list json) (codes : list string) :
  Forall2 (fun ds code => py_getitem ds "DSRC_CODE" = inr (JStr code)) items codes ->
  forall acc, collect_codes items acc = inr (list_to_set codes ∪ acc).
Proof.
  induction 1 as [|ds code items codes Hds _ IH]; intros acc; simpl.
  - f_equal. apply leibniz_equiv. rewrite (left_id ∅ (∪)). reflexivity.
  - rewrite Hds, IH. f_equal. apply leibniz_equiv.
    rewrite (assoc (∪)), (comm (∪) (list_to_set codes) {[code]}). reflexivity.
Qed.

Lemma collect_codes_refuses (good : list json) (bad : json) (rest : list json) (e : exn) :
  Forall (fun ds => exists code, py_getitem ds "DSRC_CODE" = inr (JStr code)) good ->
  py_getitem bad "DSRC_CODE" = inl e ->
  forall acc, collect_codes (good ++ bad :: rest) acc = inl e.
Proof.
  intros Hgood Hbad. induction Hgood as [|ds good [code Hds] _ IH]; intros acc; simpl.
  - rewrite Hbad. reflexivity.
  - rewrite Hds. apply IH.
Qed.

(** X14. Line 89 of add_data_sources.py on the decoded registry.  When
    every entry under [DATA_SOURCES] carries a string [DSRC_CODE], the
    set read is the set of those codes.  A registry without the
    [DATA_SOURCES] key reads as empty, so that both codes will be added;
    the first entry without a [DSRC_CODE] raises, and that exception is
    what the comprehension raises. *)
Theorem existing_data_sources_reads_the_codes
    (data_source_registry : json) (items : list json) (codes : list string)
    (Hsources : py_get data_source_registry "DATA_SOURCES" (JArr []) = inr (JArr items))
    (Hcodes : Forall2 (fun ds code => py_getitem ds "DSRC_CODE" = inr (JStr code))
                items codes) :
  existing_data_sources data_source_registry = inr (list_to_set codes)
  /\ (forall fields,
        dict_get "DATA_SOURCES" fields = None ->
        existing_data_sources (JObj fields) = inr ∅
        /\ missing_data_sources ∅ wanted_data_sources = wanted_data_sources)
  /\ (forall registry good bad rest e,
        py_get registry "DATA_SOURCES" (JArr []) = inr (JArr (good ++ bad :: rest)) ->
        Forall (fun ds => exists code, py_getitem ds "DSRC_CODE" = inr (JStr code)) good ->
        py_getitem bad "DSRC_CODE" = inl e ->
        existing_data_sources registry = inl e).
Proof.
  split; [|split].
  - unfold existing_data_sources. rewrite Hsources. simpl.
    rewrite (collect_codes_reads items codes Hcodes). f_equal.
    apply leibniz_equiv. rewrite (right_id ∅ (∪)). reflexivity.
  - intros fields Hnone. split; [|reflexivity].
    unfold existing_data_sources, py_get. rewrite Hnone. reflexivity.
  - intros registry good bad rest e Hget Hgood Hbad.
    unfold existing_data_sources. rewrite Hget. simpl.
    apply collect_codes_refuses; assumption.
Qed.

Lemma existing_data_sources_reads_the_codes_witness :
  existing_data_sources (Fake.registry_doc ["CUSTOMERS"; "TEST"])
  = inr (list_to_set ["CUSTOMERS"; "TEST"]).
Proof.
  refine (proj1 (existing_data_sources_reads_the_codes
                   (Fake.registry_doc ["CUSTOMERS"; "TEST"])
                   [JObj [("DSRC_CODE", JStr "CUSTOMERS")]; JObj [("DSRC_CODE", JStr "TEST")]]
                   ["CUSTOMERS"; "TEST"] _ _)).
  - reflexivity.
  - repeat constructor.
Defined.

(** ** A registration that fails *)
Section FailedRegistration.
#[local] Existing Instance Fake.engine.

#[local] Arguments Fake.registry_doc : simpl never.
#[local] Arguments Fake.codes_of_doc : simpl never.
#[local] Arguments existing_data_sources : simpl never.
#[local] Arguments missing_data_sources : simpl never.

Ltac not_listed :=
  rewrite ?elem_of_app, ?list_elem_of_singleton; intuition congruence.

Ltac flatten :=
  cbv [Fake.set_rival Fake.set_default Fake.set_working Fake.add_config
       Fake.with_rival Fake.with_broken Fake.start Fake.default_id Fake.configs
       Fake.next_id Fake.working Fake.rival Fake.broken Fake.report
       Fake.next_handle Fake.cursor Fake.redo].

Ltac answer :=
  first
    [ eassumption
    | cbn; flatten;
      rewrite ?lookup_singleton_eq, ?lookup_insert_eq;
      rewrite ?existing_of_registry_doc, ?codes_of_registry_doc;
      rewrite ?bool_decide_eq_false_2 by not_listed;
      rewrite ?bool_decide_eq_true_2 by assumption;
      cbn;
      reflexivity ].

(** X15. One registration failing does not stop add_data_sources.py:
    against the substitute engine, when registering CUSTOMERS raises and
    neither code is registered yet, the script still registers EMPLOYEES,
    registers the resulting configuration and makes it the default, and
    ends with status 0; the comment it registers the configuration under
    names both codes all the same. *)
Theorem failed_registration_is_passed_over
    (cfg : Config) (codes : list string)
    (Hcfg : required_keys_present cfg = true)
    (Hc : "CUSTOMERS" ∉ codes) (He : "EMPLOYEES" ∉ codes) :
  let r := run (add_data_sources (Parsed cfg))
             (Fake.with_broken (is_registration_of "CUSTOMERS") (Fake.start codes)) in
  exit_code (fst r) = 0
  /\ failed (is_registration_of "CUSTOMERS") (trace (snd r)) = true
  /\ succeeded (is_registration_of "EMPLOYEES") (trace (snd r)) = true
  /\ Fake.default_id (engine (snd r)) = 2
  /\ Fake.configs (engine (snd r)) !! 2 = Some (codes ++ ["EMPLOYEES"])%list
  /\ succeeded (is_RegisterConfig_with "Added data sources: CUSTOMERS, EMPLOYEES")
       (trace (snd r)) = true.
Proof.
  intros r. subst r.
  destruct (required_keys cfg Hcfg) as (dll & root & Hdll & Hroot).
  assert (Hmiss := missing_cases (list_to_set codes)).
  rewrite !bool_decide_eq_false_2 in Hmiss
    by (rewrite elem_of_list_to_set; assumption).
  simpl in Hmiss.
  match goal with
  | |- context [run ?m ?s] =>
      apply (via_holds (fun r : Outcome unit * @World Fake.engine =>
        exit_code (fst r) = 0
        /\ failed (is_registration_of "CUSTOMERS") (trace (snd r)) = true
        /\ succeeded (is_registration_of "EMPLOYEES") (trace (snd r)) = true
        /\ Fake.default_id (engine (snd r)) = 2
        /\ Fake.configs (engine (snd r)) !! 2 = Some (codes ++ ["EMPLOYEES"])%list
        /\ succeeded (is_RegisterConfig_with "Added data sources: CUSTOMERS, EMPLOYEES")
             (trace (snd r)) = true) m (@boot Fake.engine s))
  end.
  unfold add_data_sources, add_data_sources_after_import, load_config,
    set_pydll, add_data_sources_set_runtime, add_data_sources_try,
    top_level_handler, register_each.
  unfold mbind, M_bind, mret, M_ret, say.
  repeat first [ step_via ltac:(answer) | rewrite Hmiss; cbn [for_each] ].
  cbv beta. cbn [fst snd exit_code engine trace Fake.default_id Fake.configs].
  split; [reflexivity|]. split; [reflexivity|]. split; [reflexivity|].
  split; [reflexivity|]. split; [apply lookup_insert_eq | reflexivity].
Qed.

End FailedRegistration.

Lemma failed_registration_is_passed_over_witness :
  required_keys_present sample_config = true
  /\ ("CUSTOMERS" ∉ ["TEST"]) /\ ("EMPLOYEES" ∉ ["TEST"])
  /\ let r := @run Fake.engine _ (add_data_sources (Parsed sample_config))
                (Fake.with_broken (is_registration_of "CUSTOMERS") (Fake.start ["TEST"])) in
     exit_code (fst r) = 0
     /\ Fake.configs (engine (snd r)) !! 2 = Some ["TEST"; "EMPLOYEES"].
Proof.
  assert (Hcfg : required_keys_present sample_config = true)
    by (vm_compute; reflexivity).
  assert (Hc : "CUSTOMERS" ∉ ["TEST"])
    by (rewrite list_elem_of_singleton; discriminate).
  assert (He : "EMPLOYEES" ∉ ["TEST"])
    by (rewrite list_elem_of_singleton; discriminate).
  split; [exact Hcfg|]. split; [exact Hc|]. split; [exact He|].
  destruct (failed_registration_is_passed_over sample_config ["TEST"] Hcfg Hc He)
    as (Hexit & _ & _ & _ & Hregistry & _).
  split; [exact Hexit | exact Hregistry].
Defined.

(** ** A redo record that cannot be processed *)
Section RedoFailure.
#[local] Existing Instance Fake.engine.

(** X16. A redo record is taken off the queue before it is processed:
    when [ProcessRedoRecord] raises, [process_redo_records] lets the
    exception through and ends, and the record it had fetched is on the
    queue no more. *)
Theorem redo_record_is_lost_when_processing_fails
    (max_records : Z) (record : string) (q codes : list string)
    (Hcap : 0 < max_records) :
  let r := run (redo_next max_records RedoCreated)
             (Fake.with_broken is_ProcessRedoRecord
                (Fake.with_redo (record :: q) (Fake.start codes))) in
  fst r = Raised Fake.injected
  /\ Fake.redo (engine (snd r)) = q
  /\ trace (snd r)
     = [ {| ev_call := GetRedoRecord; ev_ok := true |};
         {| ev_call := ProcessRedoRecord record [SzWithInfo]; ev_ok := false |} ].
Proof.
  intros r. subst r.
  unfold run, boot, redo_next, redo_stretch, redo_loop. unfold_m. simpl.
  replace (0 <? max_records)%Z with true by (symmetry; apply Z.ltb_lt; lia).
  simpl. repeat split.
Qed.

End RedoFailure.

Lemma redo_record_is_lost_when_processing_fails_witness :
  0 < 10
  /\ let r := @run Fake.engine _ (redo_next 10 RedoCreated)
                (Fake.with_broken is_ProcessRedoRecord
                   (Fake.with_redo ["r1"; "r2"] (Fake.start []))) in
     fst r = Raised Fake.injected /\ Fake.redo (engine (snd r)) = ["r2"].
Proof.
  assert (Hcap : 0 < 10) by lia.
  split; [exact Hcap|].
  destruct (redo_record_is_lost_when_processing_fails 10 "r1" ["r2"] [] Hcap)
    as (Hraised & Hqueue & _).
  split; [exact Hraised | exact Hqueue].
Defined.
